(** * ePaper admin console: session store, route guard, navigation,
      resource-client errors, landing-page lookup and page reordering.

    A shallow embedding of the TypeScript sources.  Browser storage is a
    finite map from keys to strings, React state is a record that the
    handlers thread through, and a JavaScript exception is the left
    injection of a small state-and-exception monad: an update made before a
    [throw] stays made, as it does in the browser. *)

From Stdlib Require Import ZArith Bool Lia.
From stdpp Require Import gmap strings list fin_maps.

Set Warnings "-register-all".
Open Scope string_scope.

(* ===================================================================== *)
(** ** JavaScript values, truthiness, thrown values *)
(* ===================================================================== *)

Module Js.

(** A value as [JSON.parse] or an HTTP body delivers it. *)
Inductive JsVal : Type :=
| JUndefined
| JNull
| JBool (b : bool)
| JNum (n : Z)
| JStr (s : string)
| JArr (items : list JsVal)
| JObj (fields : list (string * JsVal)).

(** [!!s] for a string: only the empty string is falsy. *)
Definition truthy_str (s : string) : bool := negb (String.eqb s "").

(** [!!x] for a [string | null]. *)
Definition truthy_opt (o : option string) : bool :=
  match o with
  | Some s => truthy_str s
  | None => false
  end.

(** [!!v] for a value (numbers are integers here, so only 0 is falsy). *)
Definition truthy (v : JsVal) : bool :=
  match v with
  | JUndefined | JNull => false
  | JBool b => b
  | JNum n => negb (Z.eqb n 0)
  | JStr s => truthy_str s
  | JArr _ | JObj _ => true
  end.

(** [a || b] on [string | null] operands. *)
Definition or_opt (a b : option string) : option string :=
  if truthy_opt a then a else b.

(** [a || "lit"] where [a] is [string | undefined]. *)
Definition or_str (a : option string) (d : string) : string :=
  match a with
  | Some s => if truthy_str s then s else d
  | None => d
  end.

(** Own-property read [o[k]] on the field list of an object. *)
Fixpoint assoc (k : string) (fields : list (string * JsVal)) : JsVal :=
  match fields with
  | [] => JUndefined
  | (k', v) :: rest => if String.eqb k k' then v else assoc k rest
  end.

(** [v?.[k]]: [undefined] on [null]/[undefined] and on primitives and
    arrays (which have no such named property). *)
Definition get (v : JsVal) (k : string) : JsVal :=
  match v with
  | JObj fields => assoc k fields
  | _ => JUndefined
  end.

Record HttpResponse : Type := mkResponse {
  status : Z;
  data : JsVal
}.

(** What a [catch (err)] clause can receive: an error of the HTTP client
    (the values [axios.isAxiosError] accepts; [response] is absent when no
    answer arrived), any other [Error], a thrown string, or something
    else. *)
Inductive Thrown : Type :=
| AxiosErr (response : option HttpResponse) (message : string)
| ErrorObj (message : string)
| StrThrown (s : string)
| OtherThrown.

(** The settled state of an awaited axios call. *)
Inductive Outcome (A : Type) : Type :=
| Resolved (payload : A)
| Rejected (err : Thrown).

Arguments Resolved {A} payload.
Arguments Rejected {A} err.

End Js.

Import Js.

(* ===================================================================== *)
(** ** Browser state and the state-and-exception monad *)
(* ===================================================================== *)

Record User : Type := mkUser {
  _id : string;
  id : string;
  fullName : string;
  email : string;
  userName : string;
  role : string;
  createdAt : option string;
  updatedAt : option string
}.

(** The user object of a login response: every field may be missing. *)
Record ApiUser : Type := mkApiUser {
  api_id : option string;
  api_fullName : option string;
  api_email : option string;
  api_userName : option string;
  api_role : option string;
  api_createdAt : option string;
  api_updatedAt : option string
}.

(** What the code takes from the JavaScript runtime: [JSON.stringify] on a
    [User]; [JSON.parse] read at [User | null], throwing a [SyntaxError]
    (left injection) on malformed text; and the string conversion that
    [new Error(v)] applies to a message that is not a string. *)
Class Runtime : Type := {
  JSON_stringify : User -> string;
  JSON_parse : string -> Thrown + option User;
  String_of : JsVal -> string
}.

(** Everything the session code reads or writes: the two Web Storage
    areas, the credential held by the HTTP client, and the three pieces of
    React state of [AuthProvider]. *)
Record World : Type := mkWorld {
  localStorage : gmap string string;
  sessionStorage : gmap string string;
  httpToken : option string;
  user : option User;
  token : option string;
  loading : bool
}.

(** Handlers run in [ST S]: they thread a state [S] and either return or
    throw.  The state that comes back with a thrown value is the state at
    the moment of the [throw]. *)
Definition ST (S A : Type) : Type := S -> (Thrown + A) * S.

Definition ret {S A} (a : A) : ST S A := fun w => (inr a, w).

Definition throw {S A} (e : Thrown) : ST S A := fun w => (inl e, w).

Definition bind {S A B} (m : ST S A) (k : A -> ST S B) : ST S B :=
  fun w =>
    match m w with
    | (inr a, w') => k a w'
    | (inl e, w') => (inl e, w')
    end.

(** [try { body } catch (e) { handler e }] *)
Definition try_catch {S A} (body : ST S A) (handler : Thrown -> ST S A)
    : ST S A :=
  fun w =>
    match body w with
    | (inr a, w') => (inr a, w')
    | (inl e, w') => handler e w'
    end.

(** [try { body } finally { fin }] where [fin] itself does not throw. *)
Definition try_finally {S A} (body : ST S A) (fin : S -> S) : ST S A :=
  fun w => let '(r, w') := body w in (r, fin w').

Definition modify {S} (f : S -> S) : ST S unit := fun w => (inr tt, f w).

Definition gets {S A} (f : S -> A) : ST S A := fun w => (inr (f w), w).

(** Lifting a pure computation that may throw. *)
Definition lift {S A} (r : Thrown + A) : ST S A := fun w => (r, w).

Abbreviation M := (ST World).

Declare Scope js_scope.
Delimit Scope js_scope with js.
Notation "x <- m ;; k" := (bind m (fun x => k))
  (at level 100, m at next level, right associativity) : js_scope.
Notation "m ;;; k" := (bind m (fun _ => k))
  (at level 100, right associativity) : js_scope.

Definition with_localStorage (f : gmap string string -> gmap string string)
    (w : World) : World :=
  mkWorld (f (localStorage w)) (sessionStorage w) (httpToken w)
          (user w) (token w) (loading w).

Definition with_sessionStorage (f : gmap string string -> gmap string string)
    (w : World) : World :=
  mkWorld (localStorage w) (f (sessionStorage w)) (httpToken w)
          (user w) (token w) (loading w).

Definition with_httpToken (t : option string) (w : World) : World :=
  mkWorld (localStorage w) (sessionStorage w) t (user w) (token w) (loading w).

Definition with_user (u : option User) (w : World) : World :=
  mkWorld (localStorage w) (sessionStorage w) (httpToken w) u (token w)
          (loading w).

Definition with_token (t : option string) (w : World) : World :=
  mkWorld (localStorage w) (sessionStorage w) (httpToken w) (user w) t
          (loading w).

Definition with_loading (b : bool) (w : World) : World :=
  mkWorld (localStorage w) (sessionStorage w) (httpToken w) (user w)
          (token w) b.

(** Which Web Storage area a call addresses. *)
Inductive Area : Type := Durable | TabScoped.

Definition area (a : Area) (w : World) : gmap string string :=
  match a with
  | Durable => localStorage w
  | TabScoped => sessionStorage w
  end.

Definition getItem (a : Area) (k : string) : M (option string) :=
  gets (fun w => area a w !! k).

Definition setItem (a : Area) (k v : string) : M unit :=
  match a with
  | Durable => modify (with_localStorage (insert k v))
  | TabScoped => modify (with_sessionStorage (insert k v))
  end.

Definition removeItem (a : Area) (k : string) : M unit :=
  match a with
  | Durable => modify (with_localStorage (delete k))
  | TabScoped => modify (with_sessionStorage (delete k))
  end.

(** Modelled from the spec: [src/api/api.ts] (the HTTP Client Wrapper) is
    not among the sources.  The spec says the wrapper "attaches the bearer
    token to every call" and that the session store propagates the token to
    it; [setAuthToken t] records [t] as the credential of later requests and
    [setAuthToken null] clears it. *)
Definition setAuthToken (t : option string) : M unit :=
  modify (with_httpToken t).

(** Modelled from the spec: the [Authorization] header the wrapper puts on
    a request sent in world [w]. *)
Definition requestCredential (w : World) : option string :=
  match httpToken w with
  | Some t => Some ("Bearer " +:+ t)
  | None => None
  end.

(* ===================================================================== *)
(** ** api/auth.api.ts *)
(* ===================================================================== *)

Module AuthApi.

Section WithRuntime.
Context `{Runtime}.

Record LoginPayload : Type := mkLoginPayload {
  login_id : string;  (* email OR username *)
  password : string
}.

Record AuthResponse : Type := mkAuthResponse {
  resp_token : option string;
  resp_user : ApiUser
}.

Definition TOKEN_KEY : string := "epaper_auth_token".

Definition setToken (t : option string) : M unit :=
  match t with
  | Some s =>
      if truthy_str s
      then (setItem Durable TOKEN_KEY s ;;; setAuthToken (Some s))%js
      else (removeItem Durable TOKEN_KEY ;;; setAuthToken None)%js
  | None => (removeItem Durable TOKEN_KEY ;;; setAuthToken None)%js
  end.

Definition getToken : M (option string) := getItem Durable TOKEN_KEY.

Definition clearToken : M unit := setToken None.

(** [err.response?.data?.message || "Login failed"], as the message of the
    [Error] built from it. *)
Definition loginFailureMessage (response : option HttpResponse) : string :=
  let m := match response with
           | Some r => Js.get (data r) "message"
           | None => JUndefined
           end in
  match m with
  | JStr s => if truthy_str s then s else "Login failed"
  | _ => if truthy m then String_of m else "Login failed"
  end.

Definition login (server : LoginPayload -> Outcome AuthResponse)
    (payload : LoginPayload) : M ApiUser :=
  match server payload with
  | Resolved res =>
      ((if truthy_opt (resp_token res) then setToken (resp_token res)
        else ret tt) ;;;
       ret (resp_user res))%js
  | Rejected err =>
      match err with
      | AxiosErr response _ => throw (ErrorObj (loginFailureMessage response))
      | _ => throw err
      end
  end.

Definition logout : M unit := clearToken.

End WithRuntime.

End AuthApi.

(* ===================================================================== *)
(** ** context/AuthContext.tsx *)
(* ===================================================================== *)

Module AuthContext.

Section WithRuntime.
Context `{Runtime}.

Definition TOKEN_KEY : string := "epaper_auth_token".
Definition USER_KEY : string := "epaper_auth_user".

(** The initializer of [useState<string | null>]. *)
Definition initialToken : M (option string) :=
  (a <- getItem Durable TOKEN_KEY ;;
   b <- getItem TabScoped TOKEN_KEY ;;
   ret (or_opt a b))%js.

(** The text handed to [JSON.parse]: [localStorage.getItem(USER_KEY) ||
    sessionStorage.getItem(USER_KEY)]. *)
Definition rawUser : M (option string) :=
  (a <- getItem Durable USER_KEY ;;
   b <- getItem TabScoped USER_KEY ;;
   ret (or_opt a b))%js.

Definition parse (s : string) : M (option User) := lift (JSON_parse s).

(** The initializer of [useState<User | null>]. *)
Definition initialUser : M (option User) :=
  (raw <- rawUser ;;
   try_catch
     (match raw with
      | Some s => if truthy_str s then parse s else ret None
      | None => ret None
      end)
     (fun _ => ret None))%js.

(** [useEffect(() => setAuthToken(token), [token])] *)
Definition tokenEffect : M unit :=
  (t <- gets token ;; setAuthToken t)%js.

(** Mounting the provider: the three [useState] initializers, then the
    effect. *)
Definition mount : M unit :=
  (t <- initialToken ;;
   modify (with_token t) ;;;
   u <- initialUser ;;
   modify (with_user u) ;;;
   modify (with_loading false) ;;;
   tokenEffect)%js.

Definition normalize (apiUser : ApiUser) : User :=
  {| _id := or_str (api_id apiUser) "";
     id := or_str (api_id apiUser) "";
     fullName := or_str (api_fullName apiUser) "";
     email := or_str (api_email apiUser) "";
     userName := or_str (api_userName apiUser) "";
     role := or_str (api_role apiUser) "Staff";
     createdAt := api_createdAt apiUser;
     updatedAt := api_updatedAt apiUser |}.

(** [remember ? localStorage : sessionStorage] *)
Definition storageFor (remember : bool) : Area :=
  if remember then Durable else TabScoped.

(** [login(loginValue, password, remember = false)].  The [catch] clause
    logs and rethrows; [finally] resets [loading]. *)
Definition login (server : AuthApi.LoginPayload -> Outcome AuthApi.AuthResponse)
    (loginValue password : string) (remember : option bool) : M unit :=
  let remember := default false remember in
  (modify (with_loading true) ;;;
   try_finally
     (try_catch
        (apiUser <- AuthApi.login server
                      (AuthApi.mkLoginPayload loginValue password) ;;
         tok <- AuthApi.getToken ;;
         match tok with
         | Some t =>
             if truthy_str t then
               let normalizedUser := normalize apiUser in
               modify (with_user (Some normalizedUser)) ;;;
               modify (with_token (Some t)) ;;;
               setItem (storageFor remember) TOKEN_KEY t ;;;
               setItem (storageFor remember) USER_KEY
                       (JSON_stringify normalizedUser) ;;;
               setAuthToken (Some t)
             else throw (ErrorObj "Token missing from response")
         | None => throw (ErrorObj "Token missing from response")
         end)
        (fun error => throw error))
     (with_loading false))%js.

(** The token a login ends up with: the one of the response when that is
    a non-empty string, else whatever the durable area already held. *)
Definition tokenAfter (res : AuthApi.AuthResponse) (w : World)
    : option string :=
  if truthy_opt (AuthApi.resp_token res) then AuthApi.resp_token res
  else localStorage w !! AuthApi.TOKEN_KEY.

Definition logout : M unit :=
  (modify (with_user None) ;;;
   modify (with_token None) ;;;
   removeItem Durable TOKEN_KEY ;;;
   removeItem Durable USER_KEY ;;;
   removeItem TabScoped TOKEN_KEY ;;;
   removeItem TabScoped USER_KEY ;;;
   AuthApi.clearToken)%js.

End WithRuntime.

(** The state in which the page starts again after a reload in the same
    tab: both storage areas are what they were; the HTTP client and the
    React state start afresh. *)
Definition reloaded (w : World) : World :=
  mkWorld (localStorage w) (sessionStorage w) None None None false.

(** The state in which the page starts in a new tab or after the browser
    was closed: only the durable area is what it was. *)
Definition reopened (w : World) : World :=
  mkWorld (localStorage w) ∅ None None None false.

End AuthContext.

(* ===================================================================== *)
(** ** components/auth/ProtectedRoute.tsx *)
(* ===================================================================== *)

Module ProtectedRoute.

(** What the component returns; [C] is the type of [children]. *)
Inductive Rendered (C : Type) : Type :=
| LoadingDiv
| Navigate (to : string)
| Children (children : C).

Arguments LoadingDiv {C}.
Arguments Navigate {C} to.
Arguments Children {C} children.

(** [roles.includes(r)] *)
Definition includes (roles : list string) (r : string) : bool :=
  existsb (String.eqb r) roles.

(** [ProtectedRoute({ children, roles, redirectTo = "/" })], reading
    [user] and [loading] from the session. *)
Definition ProtectedRoute {C} (children : C) (roles : option (list string))
    (redirectTo : option string) (w : World) : Rendered C :=
  let redirectTo := default "/" redirectTo in
  if loading w then LoadingDiv
  else match user w with
       | None => Navigate "/signin"
       | Some u =>
           match roles with
           | Some rs =>
               if negb (includes rs (or_str (Some (role u)) ""))
               then Navigate redirectTo
               else Children children
           | None => Children children
           end
       end.

(** The guard as App.tsx mounts it around the admin region. *)
Definition adminGuard {C} (layout : C) (w : World) : Rendered C :=
  ProtectedRoute layout (Some ["SuperAdmin"; "Admin"; "Staff"]) None w.

End ProtectedRoute.

(* ===================================================================== *)
(** ** layout/AppSidebar.tsx *)
(* ===================================================================== *)

Module AppSidebar.

Record SubItem : Type := mkSubItem {
  sub_name : string;
  sub_path : string;
  sub_pro : option bool;
  sub_new : option bool;
  sub_allowedRoles : option (list string)
}.

(** The [icon] field is markup only and is left out. *)
Record NavItem : Type := mkNavItem {
  nav_name : string;
  nav_path : option string;
  subItems : option (list SubItem);
  allowedRoles : option (list string)
}.

Definition navItems : list NavItem :=
  [ {| nav_name := "Dashboard";
       nav_path := Some "/admin-dashboard";
       subItems := None;
       allowedRoles := Some ["SuperAdmin"; "Admin"; "Staff"] |};
    {| nav_name := "Epaper";
       nav_path := None;
       subItems := Some
         [ {| sub_name := "Add New Epaper";
              sub_path := "/admin-dashboard/epapers/create";
              sub_pro := Some false;
              sub_new := None;
              sub_allowedRoles := Some ["SuperAdmin"; "Admin"] |};
           {| sub_name := "All Epaper";
              sub_path := "/admin-dashboard/epapers/";
              sub_pro := Some false;
              sub_new := None;
              sub_allowedRoles := Some ["SuperAdmin"; "Admin"; "Staff"] |} ];
       allowedRoles := Some ["SuperAdmin"; "Admin"; "Staff"] |};
    {| nav_name := "User";
       nav_path := None;
       subItems := Some
         [ {| sub_name := "User Register";
              sub_path := "/admin-dashboard/users/create";
              sub_pro := Some false;
              sub_new := None;
              sub_allowedRoles := Some ["SuperAdmin"; "Admin"] |};
           {| sub_name := "All User";
              sub_path := "/admin-dashboard/users/";
              sub_pro := Some false;
              sub_new := None;
              sub_allowedRoles := Some ["SuperAdmin"; "Admin"] |} ];
       allowedRoles := Some ["SuperAdmin"; "Admin"] |} ].

(** [hasAccess(allowedRoles)] with [currentUser] from the session. *)
Definition hasAccess (currentUser : option User)
    (allowedRoles : option (list string)) : bool :=
  match allowedRoles with
  | None => true
  | Some l =>
      if Nat.eqb (length l) 0 then true
      else match currentUser with
           | None => false
           | Some u =>
               if negb (truthy_str (role u)) then false
               else ProtectedRoute.includes l (role u)
           end
  end.

(** The rule in the spec's words: an entry is shown iff [allowedRoles] is
    absent or the current role is a member of it. *)
Definition visibleByRule (r : string) (allowed : option (list string)) : Prop :=
  allowed = None \/ exists l, allowed = Some l /\ r ∈ l.

(** One [<li>] of the rendered menu. *)
Inductive MenuEntry : Type :=
| Submenu (name : string) (links : list (string * string))
| DirectLink (name path : string)
| EmptyEntry (name : string).

(** [renderMenuItems(items)]: entries the user may not see are skipped at
    both levels. *)
Definition renderMenuItems (currentUser : option User)
    (items : list NavItem) : list MenuEntry :=
  omap (fun nav =>
          if negb (hasAccess currentUser (allowedRoles nav)) then None
          else match subItems nav with
               | Some subs =>
                   Some (Submenu (nav_name nav)
                           (omap (fun sub =>
                                    if negb (hasAccess currentUser
                                               (sub_allowedRoles sub))
                                    then None
                                    else Some (sub_name sub, sub_path sub))
                                 subs))
               | None =>
                   match nav_path nav with
                   | Some p =>
                       if truthy_str p then Some (DirectLink (nav_name nav) p)
                       else Some (EmptyEntry (nav_name nav))
                   | None => Some (EmptyEntry (nav_name nav))
                   end
               end)
       items.

(** [isActive(path)]: [location.pathname === path] *)
Definition isActive (pathname path : string) : bool :=
  String.eqb pathname path.

(** The two variables the route effect assigns while it walks the menu:
    the value last given to [setOpenSubmenu] (starting from the current
    state) and the local flag [matched]. *)
Definition EffectVars : Type := (option nat * bool)%type.

(** The body of the inner [forEach] over the sub-items of item [index]. *)
Definition visitSubItem (currentUser : option User) (pathname : string)
    (index : nat) (nav : NavItem) (vars : EffectVars) (subItem : SubItem)
    : EffectVars :=
  if isActive pathname (sub_path subItem) then
    if hasAccess currentUser (allowedRoles nav)
       && hasAccess currentUser (sub_allowedRoles subItem)
    then (Some index, true)
    else vars
  else vars.

(** The body of the outer [forEach((nav, index) => ...)]. *)
Definition visitNavItem (currentUser : option User) (pathname : string)
    (vars : EffectVars) (entry : nat * NavItem) : EffectVars :=
  let '(index, nav) := entry in
  match subItems nav with
  | Some subs =>
      fold_left (visitSubItem currentUser pathname index nav) subs vars
  | None =>
      match nav_path nav with
      | Some p =>
          if truthy_str p && isActive pathname p then
            if hasAccess currentUser (allowedRoles nav) then (None, true)
            else vars
          else vars
      | None => vars
      end
  end.

(** The effect on [[location, currentUser]]: the value of [openSubmenu]
    once it has run over [items], from the value [openSubmenu] had. *)
Definition routeEffect (currentUser : option User) (pathname : string)
    (items : list NavItem) (openSubmenu : option nat) : option nat :=
  let '(opened, matched) :=
    fold_left (visitNavItem currentUser pathname)
              (imap (fun index nav => (index, nav)) items)
              (openSubmenu, false) in
  if negb matched then None else opened.

(** [handleSubmenuToggle(index)]: reading [allowedRoles] of an item that
    is not there is a [TypeError]. *)
Definition handleSubmenuToggle (currentUser : option User)
    (items : list NavItem) (index : nat) (openSubmenu : option nat)
    : Thrown + option nat :=
  match items !! index with
  | None => inl (ErrorObj "Cannot read properties of undefined")
  | Some nav =>
      if negb (hasAccess currentUser (allowedRoles nav)) then inr openSubmenu
      else inr (if bool_decide (openSubmenu = Some index) then None
                else Some index)
  end.

(** What can happen to the sidebar of one user: the route changes, or the
    button of the item at [index] is clicked. *)
Inductive SidebarEvent : Type :=
| RouteChanged (pathname : string)
| ToggleClicked (index : nat).

(** One event; a handler that throws leaves the state as it was. *)
Definition sidebarStep (currentUser : option User) (items : list NavItem)
    (openSubmenu : option nat) (ev : SidebarEvent) : option nat :=
  match ev with
  | RouteChanged pathname => routeEffect currentUser pathname items openSubmenu
  | ToggleClicked index =>
      match handleSubmenuToggle currentUser items index openSubmenu with
      | inr next => next
      | inl _ => openSubmenu
      end
  end.

(** The state after a sequence of events, from [useState(null)]. *)
Definition sidebarRun (currentUser : option User) (items : list NavItem)
    (events : list SidebarEvent) : option nat :=
  fold_left (sidebarStep currentUser items) events None.


(** What justifies an open submenu [i] on route [pathname]: item [i] is
    accessible and has an accessible sub-item on that route. *)
Definition opensAccessibleMatch (currentUser : option User)
    (pathname : string) (items : list NavItem) (i : nat) : Prop :=
  exists nav subs sub,
    items !! i = Some nav
    /\ subItems nav = Some subs
    /\ sub ∈ subs
    /\ sub_path sub = pathname
    /\ hasAccess currentUser (allowedRoles nav) = true
    /\ hasAccess currentUser (sub_allowedRoles sub) = true.


End AppSidebar.

(* ===================================================================== *)
(** ** api/epaper.api.ts *)
(* ===================================================================== *)

Module EpaperApi.

Record EpaperImage : Type := mkImage {
  img_id : option string;
  pageNumber : Z;
  imageUrl : string;
  originalName : string;
  mimeType : string;
  size : Z;
  uploadedAt : option string
}.

Record EpaperPDF : Type := mkPDF {
  fileUrl : string;
  pdf_originalName : string;
  pdf_mimeType : string;
  pdf_size : Z
}.

Record Epaper : Type := mkEpaper {
  ep_id : option string;
  ep_name : string;
  date : string;
  images : list EpaperImage;
  pdf : option EpaperPDF;
  fileType : string;
  totalPages : Z;
  ep_status : string
}.

(** [typeof v] *)
Definition typeof (v : JsVal) : string :=
  match v with
  | JUndefined => "undefined"
  | JNull => "object"
  | JBool _ => "boolean"
  | JNum _ => "number"
  | JStr _ => "string"
  | JArr _ | JObj _ => "object"
  end.

(** The string inside [v] when [typeof v === "string"]. *)
Definition as_string (v : JsVal) : option string :=
  match v with
  | JStr s => Some s
  | _ => None
  end.

(** [err.response?.data] *)
Definition responseData (response : option HttpResponse) : JsVal :=
  match response with
  | Some r => data r
  | None => JUndefined
  end.

Definition extractErrorMessage (err : Thrown) : string :=
  match err with
  | AxiosErr response message =>
      let data := responseData response in
      match as_string data with
      | Some s => s
      | None =>
          let fromBody :=
            if truthy data && String.eqb (typeof data) "object" then
              match as_string (Js.get data "message") with
              | Some m => Some m
              | None => as_string (Js.get data "error")
              end
            else None in
          match fromBody with
          | Some s => s
          | None => or_str (Some message) "Request failed"
          end
      end
  | ErrorObj message => message
  | StrThrown s => s
  | OtherThrown => "Unknown error occurred"
  end.

(** The priority order in the spec's words: the body's string [message]
    field, else the body's string [error] field, else the transport-level
    error text, else a generic fallback string. *)
Definition statedMessage (response : option HttpResponse) (message : string)
    : string :=
  match Js.get (responseData response) "message" with
  | JStr m => m
  | _ =>
      match Js.get (responseData response) "error" with
      | JStr e => e
      | _ => if truthy_str message then message else "Request failed"
      end
  end.

(** The order the code follows, written by cases on what was thrown and
    on the shape of the response body. *)
Definition messageByCases (err : Thrown) : string :=
  match err with
  | AxiosErr (Some (mkResponse _ (JStr body))) _ => body
  | AxiosErr (Some (mkResponse _ (JObj fields))) message =>
      match assoc "message" fields, assoc "error" fields with
      | JStr m, _ => m
      | _, JStr e => e
      | _, _ => if String.eqb message "" then "Request failed" else message
      end
  | AxiosErr _ message =>
      if String.eqb message "" then "Request failed" else message
  | ErrorObj message => message
  | StrThrown s => s
  | OtherThrown => "Unknown error occurred"
  end.

(** The body shared by every exported call:
    [try { const res = await api...; return res.data }
     catch (err) { throw new Error(extractErrorMessage(err)) }]. *)
Definition guarded {A} (transport : Outcome A) : Thrown + A :=
  match transport with
  | Resolved payload => inr payload
  | Rejected err => inl (ErrorObj (extractErrorMessage err))
  end.

Definition getEpaperById (transport : Outcome Epaper) := guarded transport.
Definition getEpaperByDate (transport : Outcome (option Epaper)) :=
  guarded transport.
Definition reorderEpaperImages (transport : Outcome (list EpaperImage)) :=
  guarded transport.
Definition deleteEpaper (transport : Outcome string) := guarded transport.
Definition deleteEpaperImage (transport : Outcome string) := guarded transport.
Definition getEpapersByDateRange (transport : Outcome (list Epaper)) :=
  guarded transport.

(** A [File] picked in a file input, by what the code reads of it. *)
Record File : Type := mkFile {
  file_name : string;
  file_type : string
}.

Inductive FormValue : Type :=
| TextPart (s : string)
| FilePart (f : File).

(** A [FormData]: its entries in the order they were appended. *)
Abbreviation FormData := (list (string * FormValue)).

Record EpaperResponse : Type := mkEpaperResponse {
  res_message : string;
  res_epaper : Epaper
}.

Record CreateEpaperPayload : Type := mkCreatePayload {
  c_name : string;
  c_date : string;
  c_fileType : option string;
  c_images : option (list File);
  c_pdf : option File
}.

Record UpdateEpaperPayload : Type := mkUpdatePayload {
  u_name : option string;
  u_date : option string;
  u_status : option string;
  u_fileType : option string;
  u_images : option (list File);
  u_pdf : option File;
  u_removePDF : option bool;
  u_replaceImageId : option string
}.

(** [if (v) formData.append(key, v)] for an optional string. *)
Definition appendText (key : string) (v : option string) : FormData :=
  match v with
  | Some s => if truthy_str s then [(key, TextPart s)] else []
  | None => []
  end.

(** [if (images && images.length > 0) images.forEach((image) =>
    formData.append("images", image))] *)
Definition appendImages (images : option (list File)) : FormData :=
  match images with
  | Some l =>
      if Nat.ltb 0 (length l) then map (fun f => ("images", FilePart f)) l
      else []
  | None => []
  end.

(** [if (pdf) formData.append("pdf", pdf)] *)
Definition appendPdf (pdf : option File) : FormData :=
  match pdf with
  | Some f => [("pdf", FilePart f)]
  | None => []
  end.

(** The form [createEpaper] posts to [/epapers]. *)
Definition createEpaperForm (payload : CreateEpaperPayload) : FormData :=
  ([ ("name", TextPart (c_name payload));
     ("date", TextPart (c_date payload));
     ("fileType", TextPart (or_str (c_fileType payload) "images")) ]
   ++ appendImages (c_images payload)
   ++ appendPdf (c_pdf payload))%list.

Definition createEpaper (backend : FormData -> Outcome EpaperResponse)
    (payload : CreateEpaperPayload) : Thrown + EpaperResponse :=
  guarded (backend (createEpaperForm payload)).

(** The form [updateEpaper] puts to [/epapers/:id]. *)
Definition updateEpaperForm (payload : UpdateEpaperPayload) : FormData :=
  (appendText "name" (u_name payload)
   ++ appendText "date" (u_date payload)
   ++ appendText "status" (u_status payload)
   ++ appendText "fileType" (u_fileType payload)
   ++ appendImages (u_images payload)
   ++ appendPdf (u_pdf payload)
   ++ (if default false (u_removePDF payload)
       then [("removePDF", TextPart "true")] else [])
   ++ appendText "replaceImageId" (u_replaceImageId payload))%list.

Definition updateEpaper
    (backend : string -> FormData -> Outcome EpaperResponse)
    (id : string) (payload : UpdateEpaperPayload) : Thrown + EpaperResponse :=
  guarded (backend id (updateEpaperForm payload)).

(** [formData.getAll(key)] *)
Definition getAll (key : string) (form : FormData) : list FormValue :=
  omap (fun entry => if String.eqb (fst entry) key then Some (snd entry)
                     else None) form.

Record Pagination : Type := mkPagination {
  pg_page : Z;
  pg_limit : Z;
  pg_total : Z;
  pg_pages : Z
}.

Record PaginatedResponse : Type := mkPaginated {
  pr_epapers : list Epaper;
  pr_pagination : Pagination
}.

(** The query of [getAllEpapers] before [URLSearchParams] writes it out:
    [page] and [limit] always, each filter only when it is a non-empty
    string. *)
Record ListQuery : Type := mkListQuery {
  q_page : Z;
  q_limit : Z;
  q_search : option string;
  q_status : option string;
  q_startDate : option string;
  q_endDate : option string
}.

(** [...(v && { key: v })] *)
Definition whenTruthy (v : option string) : option string :=
  match v with
  | Some s => if truthy_str s then Some s else None
  | None => None
  end.

(** [getAllEpapers(page = 1, limit = 10, search = "", status?, startDate?,
    endDate?)] *)
Definition getAllEpapers (backend : ListQuery -> Outcome PaginatedResponse)
    (page limit : option Z) (search status startDate endDate : option string)
    : Thrown + PaginatedResponse :=
  guarded (backend
             {| q_page := default 1%Z page;
                q_limit := default 10%Z limit;
                q_search := whenTruthy (Some (default "" search));
                q_status := whenTruthy status;
                q_startDate := whenTruthy startDate;
                q_endDate := whenTruthy endDate |}).

End EpaperApi.

(* ===================================================================== *)
(** ** components/public/LandingPage.tsx *)
(* ===================================================================== *)

Module LandingPage.

Import EpaperApi.

(** A JavaScript [Date]: a time value in milliseconds, or the invalid
    date. *)
Inductive JsDate : Type :=
| ValidDate (ms : Z)
| InvalidDate.

(** What the page takes from the runtime and from date-fns:
    [new Date(text)], and the [yyyy-MM-dd] rendering of a valid time
    value in the local time zone. *)
Class Calendar : Type := {
  Date_of : string -> JsDate;
  ymd : Z -> string
}.

Record Toast : Type := mkToast {
  variant : string;
  title : string;
  message : string
}.

(** The two queries [loadEpaper] can send. *)
Inductive Request : Type :=
| GetByDate (date : string)
| GetLatestPublished.

(** The component's React state, the toasts handed to [showToast] (the
    toast context itself is not among the sources: a call is recorded in
    order), and the requests sent so far. *)
Record Page : Type := mkPage {
  selectedDate : JsDate;
  epaper : option Epaper;
  currentPage : Z;
  loading : bool;
  error : option string;
  toasts : list Toast;
  sent : list Request
}.

Definition setSelectedDate (d : JsDate) : ST Page unit :=
  modify (fun p => mkPage d (epaper p) (currentPage p) (loading p) (error p)
                          (toasts p) (sent p)).

Definition setEpaper (e : option Epaper) : ST Page unit :=
  modify (fun p => mkPage (selectedDate p) e (currentPage p) (loading p)
                          (error p) (toasts p) (sent p)).

Definition setCurrentPage (n : Z) : ST Page unit :=
  modify (fun p => mkPage (selectedDate p) (epaper p) n (loading p) (error p)
                          (toasts p) (sent p)).

Definition withLoading (b : bool) (p : Page) : Page :=
  mkPage (selectedDate p) (epaper p) (currentPage p) b (error p) (toasts p)
         (sent p).

Definition setLoading (b : bool) : ST Page unit := modify (withLoading b).

Definition setError (e : option string) : ST Page unit :=
  modify (fun p => mkPage (selectedDate p) (epaper p) (currentPage p)
                          (loading p) e (toasts p) (sent p)).

Definition showToast (t : Toast) : ST Page unit :=
  modify (fun p => mkPage (selectedDate p) (epaper p) (currentPage p)
                          (loading p) (error p) (toasts p ++ [t]) (sent p)).

Definition send (r : Request) : ST Page unit :=
  modify (fun p => mkPage (selectedDate p) (epaper p) (currentPage p)
                          (loading p) (error p) (toasts p) (sent p ++ [r])).

Section WithBackend.
Context `{Calendar}.

(** The backend as the page meets it: how [GET /epapers/by-date] settles
    for a date (a resolved empty body is [None]), and how
    [GET /epapers?page=1&limit=1&status=published] settles, its payload
    being [resp?.data?.epapers] ([None] when that chain is undefined). *)
Variable byDate : string -> Outcome (option Epaper).
Variable latestPublished : Outcome (option (list Epaper)).

(** date-fns [format(d, "yyyy-MM-dd")]: a [RangeError] on an invalid
    date. *)
Definition format (d : JsDate) : ST Page string :=
  match d with
  | ValidDate ms => ret (ymd ms)
  | InvalidDate => throw (ErrorObj "Invalid time value")
  end.

(** [await getEpaperByDate(formattedDate)] *)
Definition awaitByDate (formattedDate : string) : ST Page (option Epaper) :=
  (send (GetByDate formattedDate) ;;;
   lift (getEpaperByDate (byDate formattedDate)))%js.

(** [await api.get("/epapers", { params: { page: 1, limit: 1, status:
    "published" } })], then [resp?.data?.epapers?.[0]]. *)
Definition awaitLatest : ST Page (option Epaper) :=
  (send GetLatestPublished ;;;
   match latestPublished with
   | Resolved (Some epapers) => ret (head epapers)
   | Resolved None => ret None
   | Rejected err => throw err
   end)%js.

(** Attempt 1.  The result says whether the function returned from inside
    the block ([true]) or falls through to attempt 2 ([false]). *)
Definition attemptByDate (formattedDate : string) : ST Page bool :=
  try_catch
    (data <- awaitByDate formattedDate ;;
     match data with
     | Some d =>
         setEpaper (Some d) ;;;
         setCurrentPage 0 ;;;
         apiDateStr <- format (Date_of (date d)) ;;
         (if negb (String.eqb apiDateStr formattedDate)
          then setSelectedDate (Date_of (date d)) else ret tt) ;;;
         ret true
     | None => ret false
     end)%js
    (fun _ => ret false).

(** Attempt 2. *)
Definition attemptLatest (formattedDate : string) : ST Page unit :=
  try_catch
    (latest <- awaitLatest ;;
     match latest with
     | Some l =>
         setEpaper (Some l) ;;;
         setCurrentPage 0 ;;;
         latestDateStr <- format (Date_of (date l)) ;;
         (if negb (String.eqb latestDateStr formattedDate)
          then setSelectedDate (Date_of (date l)) else ret tt) ;;;
         showToast
           {| variant := "info";
              title := "Showing latest edition";
              message := "No edition found for the selected date — displaying the latest published ePaper." |}
     | None =>
         setEpaper None ;;;
         setError (Some "No published ePaper available") ;;;
         showToast
           {| variant := "error";
              title := "No ePaper";
              message := "No published ePaper is currently available." |}
     end)%js
    (fun _ =>
       (setError (Some "Failed to fetch latest ePaper") ;;;
        showToast
          {| variant := "error";
             title := "Error";
             message := "Unable to fetch ePapers at this time." |})%js).

Definition loadEpaper (d : JsDate) : ST Page unit :=
  (setLoading true ;;;
   setError None ;;;
   formattedDate <- format d ;;
   try_finally
     (returned <- attemptByDate formattedDate ;;
      if returned then ret tt else attemptLatest formattedDate)
     (withLoading false))%js.

(** The by-date query reports a clean "not found": a 404 response, or a
    resolved request with an empty body. *)
Definition notFound (o : Outcome (option Epaper)) : bool :=
  match o with
  | Resolved None => true
  | Rejected (AxiosErr (Some r) _) => Z.eqb (status r) 404
  | _ => false
  end.

(** The by-date query failed, and not with a clean "not found". *)
Definition transportFailure (o : Outcome (option Epaper)) : bool :=
  match o with
  | Rejected _ => negb (notFound o)
  | Resolved _ => false
  end.

(** The by-date query resolved with an edition whose date is a valid
    date: the one case in which attempt 1 returns. *)
Definition delivers (o : Outcome (option Epaper)) : bool :=
  match o with
  | Resolved (Some d) =>
      match Date_of (date d) with
      | ValidDate _ => true
      | InvalidDate => false
      end
  | _ => false
  end.

(** The fallback policy in the spec's words, for one call of
    [loadEpaper] on a valid date: the fallback query is sent only after a
    clean "not found", and a transport failure of the by-date query ends
    the cycle in an error state. *)
Definition statedFallbackPolicy (ms : Z) (p : Page) : Prop :=
  let p' := snd (loadEpaper (ValidDate ms) p) in
  (notFound (byDate (ymd ms)) = false ->
     sent p' = (sent p ++ [GetByDate (ymd ms)])%list)
  /\ (transportFailure (byDate (ymd ms)) = true ->
        truthy_opt (error p') = true).

End WithBackend.

Definition latestNotice : Toast :=
  {| variant := "info";
     title := "Showing latest edition";
     message := "No edition found for the selected date — displaying the latest published ePaper." |}.

Definition noEpaperNotice : Toast :=
  {| variant := "error";
     title := "No ePaper";
     message := "No published ePaper is currently available." |}.

Definition fetchFailedNotice : Toast :=
  {| variant := "error";
     title := "Error";
     message := "Unable to fetch ePapers at this time." |}.

(** What the component shows for a state. *)
Inductive View : Type :=
| LoadingText
| ErrorText (msg : string)
| NoNewspaper
| Viewer (e : Epaper) (page : Z).

Definition render (p : Page) : View :=
  if loading p then LoadingText
  else if truthy_opt (error p) then ErrorText (default "" (error p))
  else match epaper p with
       | None => NoNewspaper
       | Some e => Viewer e (currentPage p)
       end.

(** [epaper.images?.length || 0] *)
Definition totalPages (e : Epaper) : Z := Z.of_nat (length (images e)).






End LandingPage.

(* ===================================================================== *)
(** ** components/epaper/EpaperForm.tsx *)
(* ===================================================================== *)

Module EpaperForm.

Import EpaperApi.

(** [Array.prototype.findIndex]: the first index whose element satisfies
    [p], else -1. *)
Fixpoint findIndex {A} (p : A -> bool) (l : list A) : Z :=
  match l with
  | [] => -1
  | x :: rest =>
      if p x then 0
      else let r := findIndex p rest in
           if Z.eqb r (-1) then -1 else r + 1
  end.

(** The position [splice] starts at: a negative [start] counts from the
    end, and the result is clamped to the array. *)
Definition spliceStart (len : nat) (start : Z) : nat :=
  Z.to_nat (if Z.ltb start 0 then Z.max (Z.of_nat len + start) 0
            else Z.min start (Z.of_nat len)).

(** [l.splice(start, deleteCount, ...items)]: the removed elements and the
    array afterwards. *)
Definition splice {A} (l : list A) (start : Z) (deleteCount : nat)
    (items : list A) : list A * list A :=
  let i := spliceStart (length l) start in
  (take deleteCount (drop i l),
   (take i l ++ items ++ drop (i + deleteCount) l)%list).

(** [arrayMove] of \@dnd-kit/sortable, an external dependency, by its
    published definition:
    [newArray.splice(to < 0 ? newArray.length + to : to, 0,
                     newArray.splice(from, 1)[0])].
    The first argument is evaluated before the inner [splice] shortens the
    array; [undef] stands for the [undefined] that [[0]] yields when
    nothing was removed. *)
Definition arrayMove {A} (undef : A) (array : list A) (from to : Z)
    : list A :=
  let newArray := array in
  let target :=
    if Z.ltb to 0 then (Z.of_nat (length newArray) + to)%Z else to in
  let '(removed, newArray) := splice newArray from 1 [] in
  snd (splice newArray target 0 [nth 0 removed undef]).

(** [{ ...img, pageNumber: n }] *)
Definition withPageNumber (img : EpaperImage) (n : Z) : EpaperImage :=
  mkImage (img_id img) n (imageUrl img) (originalName img) (mimeType img)
          (size img) (uploadedAt img).

(** [{ ...undefined }]: an object with no field set. *)
Definition noImage : EpaperImage :=
  mkImage None 0 "" "" "" 0 None.

(** [reorderedImages.map((img, index) => ({ ...img, pageNumber: index + 1 }))] *)
Definition renumber (l : list EpaperImage) : list EpaperImage :=
  imap (fun index img => withPageNumber img (Z.of_nat index + 1)%Z) l.

Record DragEndEvent : Type := mkDragEnd {
  active : string;
  over : option string
}.

(** The part of the form this handler touches: the existing images, the
    toasts shown, and the image orders sent to
    [PATCH /epapers/:id/reorder]. *)
Record Form : Type := mkForm {
  existingImages : list EpaperImage;
  toasts : list LandingPage.Toast;
  reorders : list (string * list string)
}.

Definition setExistingImages (l : list EpaperImage) : ST Form unit :=
  modify (fun f => mkForm l (toasts f) (reorders f)).

Definition showToast (t : LandingPage.Toast) : ST Form unit :=
  modify (fun f => mkForm (existingImages f) (toasts f ++ [t]) (reorders f)).

(** [img._id === x] *)
Definition hasId (x : string) (img : EpaperImage) : bool :=
  match img_id img with
  | Some i => String.eqb i x
  | None => false
  end.

(** [updatedImages.map((img) => img._id!).filter(Boolean)] *)
Definition imageOrder (l : list EpaperImage) : list string :=
  omap (fun img => match img_id img with
                   | Some i => if truthy_str i then Some i else None
                   | None => None
                   end) l.

Section WithBackend.

(** The route parameter [id] (absent when creating) and how the backend
    settles a reorder and an image deletion. *)
Variable id : option string.
Variable reorderBackend : string -> list string -> Outcome (list EpaperImage).
Variable deleteBackend : string -> string -> Outcome string.

Definition awaitReorder (epaperId : string) (order : list string)
    : ST Form (list EpaperImage) :=
  (modify (fun f => mkForm (existingImages f) (toasts f)
                           (reorders f ++ [(epaperId, order)])) ;;;
   lift (reorderEpaperImages (reorderBackend epaperId order)))%js.

Definition handleDragEnd (event : DragEndEvent) : ST Form unit :=
  match over event with
  | Some overId =>
      if negb (String.eqb (active event) overId) then
        (images <- gets existingImages ;;
         let oldIndex := findIndex (hasId (active event)) images in
         let newIndex := findIndex (hasId overId) images in
         let reorderedImages := arrayMove noImage images oldIndex newIndex in
         let updatedImages := renumber reorderedImages in
         setExistingImages updatedImages ;;;
         match id with
         | Some epaperId =>
             if truthy_str epaperId then
               try_catch
                 (awaitReorder epaperId (imageOrder updatedImages) ;;;
                  showToast
                    {| LandingPage.variant := "success";
                       LandingPage.title := "Success";
                       LandingPage.message := "Images reordered successfully" |})
                 (fun _ =>
                    showToast
                      {| LandingPage.variant := "error";
                         LandingPage.title := "Error";
                         LandingPage.message := "Failed to reorder images" |})
             else ret tt
         | None => ret tt
         end)%js
      else ret tt
  | None => ret tt
  end.

(** [removeExistingImage(imageId)]: the local list is filtered, its page
    numbers are left as they are. *)
Definition removeExistingImage (imageId : option string) : ST Form unit :=
  match imageId, id with
  | Some imageId, Some epaperId =>
      if truthy_str imageId && truthy_str epaperId then
        try_catch
          (lift (deleteEpaperImage (deleteBackend epaperId imageId)) ;;;
           images <- gets existingImages ;;
           setExistingImages
             (filter (fun img => img_id img <> Some imageId) images) ;;;
           showToast
             {| LandingPage.variant := "success";
                LandingPage.title := "Success";
                LandingPage.message := "Image deleted successfully" |})%js
          (fun _ =>
             showToast
               {| LandingPage.variant := "error";
                  LandingPage.title := "Error";
                  LandingPage.message := "Failed to delete image" |})
      else ret tt
  | _, _ => ret tt
  end.

(** The reorder rule in the spec's words, for a drag of the image at
    position [i] onto the image at position [j]: the list becomes the one
    [arrayMove] gives, renumbered, and its page numbers are 1..N. *)
Definition statedReorder (f : Form) (i j : nat) : Prop :=
  forall a b ida idb,
    existingImages f !! i = Some a -> existingImages f !! j = Some b ->
    img_id a = Some ida -> img_id b = Some idb ->
    let f' := snd (handleDragEnd (mkDragEnd ida (Some idb)) f) in
    existingImages f'
    = renumber (arrayMove noImage (existingImages f) (Z.of_nat i) (Z.of_nat j))
    /\ pageNumber <$> existingImages f'
       = seqZ 1 (Z.of_nat (length (existingImages f))).

End WithBackend.

(** Taking the element at position [i] out and putting it back at
    position [j] of what remains. *)
Definition moved {A} (l : list A) (i j : nat) : list A :=
  match l !! i with
  | Some x => (take j (delete i l) ++ x :: drop j (delete i l))%list
  | None => l
  end.

(** [URL.createObjectURL], taken from the browser. *)
Class Urls : Type := {
  createObjectURL : File -> string
}.

(** The part of the form the upload handlers touch: the new images with
    their preview URLs, the new and the existing PDF with the preview URL,
    the toasts shown and the URLs handed to [URL.revokeObjectURL]. *)
Record Uploads : Type := mkUploads {
  up_images : list File;
  imagePreviews : list string;
  up_pdf : option File;
  existingPDF : option EpaperPDF;
  pdfPreview : option string;
  up_toasts : list LandingPage.Toast;
  revoked : list string
}.

Definition toastUpload (t : LandingPage.Toast) (u : Uploads) : Uploads :=
  mkUploads (up_images u) (imagePreviews u) (up_pdf u) (existingPDF u)
            (pdfPreview u) (up_toasts u ++ [t]) (revoked u).

(** [l.filter((_, i) => i !== index)] *)
Definition withoutIndex {A} (index : nat) (l : list A) : list A :=
  omap (fun x => x) (imap (fun i x => if Nat.eqb i index then None else Some x) l).

Section WithUrls.
Context `{Urls}.

(** [handleImageUpload], with the files of the change event. *)
Definition handleImageUpload (files : list File) (u : Uploads) : Uploads :=
  let validFiles :=
    List.filter (fun file => String.prefix "image/" (file_type file)) files in
  let u1 :=
    if negb (Nat.eqb (length validFiles) (length files)) then
      toastUpload {| LandingPage.variant := "error";
                     LandingPage.title := "Invalid Files";
                     LandingPage.message := "Only image files are allowed" |}
                  u
    else u in
  if Nat.ltb 0 (length validFiles) then
    mkUploads (up_images u1 ++ validFiles)
              (imagePreviews u1 ++ map createObjectURL validFiles)
              (up_pdf u1) (existingPDF u1) (pdfPreview u1) (up_toasts u1)
              (revoked u1)
  else u1.

(** [handlePDFUpload], with [e.target.files?.[0]]. *)
Definition handlePDFUpload (file : option File) (u : Uploads) : Uploads :=
  match file with
  | None => u
  | Some f =>
      if negb (String.eqb (file_type f) "application/pdf") then
        toastUpload {| LandingPage.variant := "error";
                       LandingPage.title := "Invalid File";
                       LandingPage.message := "Only PDF files are allowed" |}
                    u
      else
        mkUploads (up_images u) (imagePreviews u) (Some f) None
                  (Some (createObjectURL f)) (up_toasts u) (revoked u)
  end.

End WithUrls.

(** [removeImage(index)]; revoking a preview that is not there is
    harmless and is not recorded. *)
Definition removeImage (index : nat) (u : Uploads) : Uploads :=
  mkUploads (withoutIndex index (up_images u))
            (withoutIndex index (imagePreviews u))
            (up_pdf u) (existingPDF u) (pdfPreview u) (up_toasts u)
            (match imagePreviews u !! index with
             | Some url => revoked u ++ [url]
             | None => revoked u
             end)%list.

(** [removePDF] *)
Definition removePDF (u : Uploads) : Uploads :=
  match pdfPreview u with
  | Some url =>
      if truthy_str url then
        mkUploads (up_images u) (imagePreviews u) None None None
                  (up_toasts u) (revoked u ++ [url])
      else
        mkUploads (up_images u) (imagePreviews u) None None (pdfPreview u)
                  (up_toasts u) (revoked u)
  | None =>
      mkUploads (up_images u) (imagePreviews u) None None None
                (up_toasts u) (revoked u)
  end.

(** The invariant of the new-image list: every file is an image, and the
    preview at each position is the URL made for the file there. *)
Definition imagesInvariant `{Urls} (u : Uploads) : Prop :=
  Forall (fun file => String.prefix "image/" (file_type file) = true)
         (up_images u)
  /\ imagePreviews u = map createObjectURL (up_images u).

(** The invariant of the PDF slot: a new PDF has the PDF type, and a new
    and an existing PDF are never held together. *)
Definition pdfInvariant (u : Uploads) : Prop :=
  (forall f, up_pdf u = Some f -> file_type f = "application/pdf")
  /\ (up_pdf u = None \/ existingPDF u = None).

(** What the user can do to the uploads. *)
Inductive UploadEvent : Type :=
| ImagesPicked (files : list File)
| ImageRemoved (index : nat)
| PdfPicked (file : option File)
| PdfRemoved.

Definition uploadStep `{Urls} (u : Uploads) (ev : UploadEvent) : Uploads :=
  match ev with
  | ImagesPicked files => handleImageUpload files u
  | ImageRemoved index => removeImage index u
  | PdfPicked file => handlePDFUpload file u
  | PdfRemoved => removePDF u
  end.

(** The uploads of a form as [useState] creates it. *)
Definition noUploads : Uploads := mkUploads [] [] None None None [] [].

End EpaperForm.

(* ===================================================================== *)
(** ** components/auth/AuthRedirect.tsx *)
(* ===================================================================== *)

Module AuthRedirect.

(** The effect on [[user, navigate]]: the path handed to [navigate], if
    any. *)
Definition AuthRedirect (w : World) : option string :=
  match user w with
  | Some u =>
      if String.eqb (role u) "Staff" then Some "/admin-dashboard"
      else if String.eqb (role u) "Admin" then Some "/admin-dashboard"
      else if String.eqb (role u) "SuperAdmin" then Some "/admin-dashboard"
      else Some "/"
  | None => None
  end.

End AuthRedirect.

(* ===================================================================== *)
(** ** layout/AppHeader.tsx *)
(* ===================================================================== *)

Module AppHeader.

(** [handleLogout]: the path handed to [navigate], after [logout]. *)
Definition handleLogout : M string :=
  try_catch
    (AuthContext.logout ;;; ret "/signin")%js
    (fun _ => ret "/signin").

End AppHeader.

(* ===================================================================== *)
(** ** components/auth/SignInForm.tsx *)
(* ===================================================================== *)

Module SignInForm.

(** [String.prototype.trim], taken from the runtime. *)
Class Strings : Type := {
  trim : string -> string
}.

(** The session together with what the sign-in form adds: its [busy]
    flag, the toasts it has shown and the paths it has navigated to. *)
Record Screen : Type := mkScreen {
  world : World;
  busy : bool;
  toasts : list LandingPage.Toast;
  navigated : list string
}.

(** Running a session operation inside the screen. *)
Definition inWorld {A} (m : M A) : ST Screen A :=
  fun s =>
    let '(r, w') := m (world s) in
    (r, mkScreen w' (busy s) (toasts s) (navigated s)).

Definition setBusy (b : bool) (s : Screen) : Screen :=
  mkScreen (world s) b (toasts s) (navigated s).

Definition showToast (t : LandingPage.Toast) : ST Screen unit :=
  modify (fun s => mkScreen (world s) (busy s) (toasts s ++ [t])
                            (navigated s)).

Definition navigate (to : string) : ST Screen unit :=
  modify (fun s => mkScreen (world s) (busy s) (toasts s)
                            (navigated s ++ [to])).

(** The message the [catch] clause shows. *)
Definition failureMessage (err : Thrown) : string :=
  match err with
  | AxiosErr _ message => message
  | ErrorObj message => message
  | StrThrown s => s
  | OtherThrown => "Login failed. Please check credentials."
  end.

Section WithRuntime.
Context `{Runtime} `{Strings}.

(** [submit], with the field values [loginValue] and [password]. *)
Definition submit
    (server : AuthApi.LoginPayload -> Outcome AuthApi.AuthResponse)
    (loginValue password : string) : ST Screen unit :=
  if negb (truthy_str (trim loginValue)) || negb (truthy_str password) then
    showToast
      {| LandingPage.variant := "error";
         LandingPage.title := "Validation";
         LandingPage.message :=
           "Username or email and password are required." |}
  else
    (modify (setBusy true) ;;;
     try_finally
       (try_catch
          (inWorld (AuthContext.login server (trim loginValue) password None)
           ;;;
           showToast
             {| LandingPage.variant := "success";
                LandingPage.title := "Signed in";
                LandingPage.message := "Welcome back!" |} ;;;
           navigate "/admin-dashboard")
          (fun err =>
             showToast
               {| LandingPage.variant := "error";
                  LandingPage.title := "Login failed";
                  LandingPage.message := failureMessage err |}))
       (setBusy false))%js.

End WithRuntime.

End SignInForm.

(* ===================================================================== *)
(** ** components/user/UserList.tsx *)
(* ===================================================================== *)

Module UserList.

(** [canEditUser(targetUser)], with [currentUser] from the session.  The
    target is a user as the user client returns it, read through its [_id]
    and [role]. *)
Definition canEditUser (currentUser : option User) (targetUser : ApiUser)
    : bool :=
  if bool_decide (role <$> currentUser = Some "SuperAdmin") then true
  else if bool_decide (role <$> currentUser = Some "Admin") then
    negb (bool_decide (api_role targetUser = Some "SuperAdmin"))
  else bool_decide (_id <$> currentUser = api_id targetUser).

End UserList.

(* ===================================================================== *)
(** ** components/epaper/EpaperList.tsx *)
(* ===================================================================== *)

Module EpaperList.

Import EpaperApi.

Record ListState : Type := mkListState {
  epapers : list Epaper;
  loading : bool;
  error : option string;
  pagination : Pagination
}.

(** [useState] initial values. *)
Definition initial : ListState :=
  mkListState [] true None (mkPagination 1 10 0 1).

Definition setEpapers (l : list Epaper) : ST ListState unit :=
  modify (fun s => mkListState l (loading s) (error s) (pagination s)).

Definition withLoading (b : bool) (s : ListState) : ListState :=
  mkListState (epapers s) b (error s) (pagination s).

Definition setError (e : option string) : ST ListState unit :=
  modify (fun s => mkListState (epapers s) (loading s) e (pagination s)).

Definition setPagination (pg : Pagination) : ST ListState unit :=
  modify (fun s => mkListState (epapers s) (loading s) (error s) pg).

(** [err instanceof Error ? err.message : "Failed to load ePapers"] *)
Definition loadFailureMessage (err : Thrown) : string :=
  match err with
  | AxiosErr _ message => message
  | ErrorObj message => message
  | _ => "Failed to load ePapers"
  end.

(** [loadEpapers] *)
Definition loadEpapers (backend : ListQuery -> Outcome PaginatedResponse)
    : ST ListState unit :=
  try_finally
    (try_catch
       (modify (withLoading true) ;;;
        setError None ;;;
        pg <- gets pagination ;;
        data <- lift (getAllEpapers backend (Some (pg_page pg))
                        (Some (pg_limit pg)) None None None None) ;;
        setEpapers (pr_epapers data) ;;;
        setPagination (pr_pagination data))%js
       (fun err =>
          (setError (Some (loadFailureMessage err)) ;;;
           setEpapers [])%js))
    (withLoading false).

(** The query the list screen sends from state [s]: its page and limit,
    and no filter. *)
Definition queryOf (s : ListState) : ListQuery :=
  mkListQuery (pg_page (pagination s)) (pg_limit (pagination s))
              None None None None.


(** What the component returns. *)
Inductive View : Type :=
| LoadingText
| ErrorText (msg : string)
| NoEpapers
| Table (rows : list Epaper).

Definition render (s : ListState) : View :=
  if loading s then LoadingText
  else if truthy_opt (error s) then ErrorText (default "" (error s))
  else if Nat.eqb (length (epapers s)) 0 then NoEpapers
  else Table (epapers s).

End EpaperList.

(* ===================================================================== *)
(** ** components/user/UserRegister.tsx *)
(* ===================================================================== *)

Module UserRegister.

(** What the form takes from the runtime: [trim], the [length] of a
    string, and the test of the e-mail pattern
    [/^[^\s@]+@[^\s@]+\.[^\s@]+$/]. *)
Class Text : Type := {
  trim : string -> string;
  jsLength : string -> nat;
  isEmail : string -> bool
}.

Record FormUser : Type := mkFormUser {
  fullName : string;
  email : string;
  userName : string;
  password : option string;
  passwordConfirm : option string;
  role : string
}.

Record Errors : Type := mkErrors {
  e_fullName : option string;
  e_email : option string;
  e_userName : option string;
  e_password : option string;
  e_passwordConfirm : option string
}.

Definition noErrors : Errors := mkErrors None None None None None.

Record FormState : Type := mkFormState {
  user : FormUser;
  errors : Errors;
  isEditing : bool;
  originalUsername : string
}.

(** [{ ...prev, [name]: value }] on the fields of [FormUser]; another key
    leaves them as they are. *)
Definition setField (name value : string) (u : FormUser) : FormUser :=
  if String.eqb name "fullName" then
    mkFormUser value (email u) (userName u) (password u) (passwordConfirm u)
               (role u)
  else if String.eqb name "email" then
    mkFormUser (fullName u) value (userName u) (password u)
               (passwordConfirm u) (role u)
  else if String.eqb name "userName" then
    mkFormUser (fullName u) (email u) value (password u) (passwordConfirm u)
               (role u)
  else if String.eqb name "password" then
    mkFormUser (fullName u) (email u) (userName u) (Some value)
               (passwordConfirm u) (role u)
  else if String.eqb name "passwordConfirm" then
    mkFormUser (fullName u) (email u) (userName u) (password u) (Some value)
               (role u)
  else if String.eqb name "role" then
    mkFormUser (fullName u) (email u) (userName u) (password u)
               (passwordConfirm u) value
  else u.

(** [errors[name]] *)
Definition errorAt (name : string) (e : Errors) : option string :=
  if String.eqb name "fullName" then e_fullName e
  else if String.eqb name "email" then e_email e
  else if String.eqb name "userName" then e_userName e
  else if String.eqb name "password" then e_password e
  else if String.eqb name "passwordConfirm" then e_passwordConfirm e
  else None.

(** [{ ...prev, [name]: undefined }] *)
Definition clearError (name : string) (e : Errors) : Errors :=
  if String.eqb name "fullName" then
    mkErrors None (e_email e) (e_userName e) (e_password e)
             (e_passwordConfirm e)
  else if String.eqb name "email" then
    mkErrors (e_fullName e) None (e_userName e) (e_password e)
             (e_passwordConfirm e)
  else if String.eqb name "userName" then
    mkErrors (e_fullName e) (e_email e) None (e_password e)
             (e_passwordConfirm e)
  else if String.eqb name "password" then
    mkErrors (e_fullName e) (e_email e) (e_userName e) None
             (e_passwordConfirm e)
  else if String.eqb name "passwordConfirm" then
    mkErrors (e_fullName e) (e_email e) (e_userName e) (e_password e) None
  else e.

(** [handleChange], with the [name] and [value] of the input. *)
Definition handleChange (name value : string) (s : FormState) : FormState :=
  if isEditing s && String.eqb name "userName" then
    mkFormState (setField name (originalUsername s) (user s)) (errors s)
                (isEditing s) (originalUsername s)
  else
    mkFormState (setField name value (user s))
                (if truthy_opt (errorAt name (errors s))
                 then clearError name (errors s) else errors s)
                (isEditing s) (originalUsername s).

(** [handleRoleSelectChange(value)] *)
Definition handleRoleSelectChange (value : string) (s : FormState)
    : FormState :=
  mkFormState (setField "role" value (user s)) (errors s) (isEditing s)
              (originalUsername s).

(** What the user can do to the fields. *)
Inductive FieldEvent : Type :=
| InputChanged (name value : string)
| RoleSelected (value : string).

Definition fieldStep (s : FormState) (ev : FieldEvent) : FormState :=
  match ev with
  | InputChanged name value => handleChange name value s
  | RoleSelected value => handleRoleSelectChange value s
  end.

Section WithText.
Context `{Text}.

(** The errors [validate] collects, for the route parameter [id]. *)
Definition validationErrors (id : option string) (u : FormUser) : Errors :=
  let creating := negb (truthy_opt id) in
  {| e_fullName :=
       if negb (truthy_str (trim (fullName u)))
       then Some "Full name is required" else None;
     e_email :=
       if negb (truthy_str (trim (email u))) then Some "Email is required"
       else if negb (isEmail (trim (email u))) then Some "Email is invalid"
            else None;
     e_userName :=
       if creating && negb (truthy_str (trim (userName u)))
       then Some "Username is required" else None;
     e_password :=
       if creating then
         if negb (truthy_opt (password u)) then Some "Password is required"
         else if Nat.ltb (jsLength (default "" (password u))) 6
              then Some "Password must be at least 6 characters"
              else None
       else
         if truthy_opt (password u)
            && Nat.ltb 0 (jsLength (default "" (password u)))
            && Nat.ltb (jsLength (default "" (password u))) 6
         then Some "Password must be at least 6 characters"
         else None;
     e_passwordConfirm :=
       if creating then
         if negb (truthy_opt (passwordConfirm u))
         then Some "Confirm password is required"
         else if negb (bool_decide (password u = passwordConfirm u))
              then Some "Passwords do not match"
              else None
       else
         if truthy_opt (password u)
            && negb (bool_decide (password u = passwordConfirm u))
         then Some "Passwords do not match"
         else None |}.

(** [Object.keys(newErrors).length === 0] *)
Definition isClean (e : Errors) : bool :=
  match e with
  | mkErrors None None None None None => true
  | _ => false
  end.

(** [validate()]: the errors it stores and the boolean it returns. *)
Definition validate (id : option string) (s : FormState)
    : FormState * bool :=
  let newErrors := validationErrors id (user s) in
  (mkFormState (user s) newErrors (isEditing s) (originalUsername s),
   isClean newErrors).

End WithText.

End UserRegister.

(* ===================================================================== *)
(** ** Concrete inputs used by the examples below *)
(* ===================================================================== *)

Module Fixtures.

(** A runtime whose [JSON.parse] accepts exactly the text [null] and whose
    [JSON.stringify] writes the role only; enough to run the session code
    on concrete storage contents. *)
Definition tinyRuntime : Runtime :=
  {| JSON_stringify := fun u => "{role:" +:+ role u +:+ "}";
     JSON_parse := fun s =>
       if String.eqb s "null" then inr None
       else inl (ErrorObj "Unexpected token");
     String_of := fun _ => "[object Object]" |}.

Definition emptyWorld : World :=
  mkWorld ∅ ∅ None None None false.

(** Durable storage holding a token and a user entry cut off in the
    middle of an object. *)
Definition brokenUserWorld : World :=
  mkWorld (<[AuthContext.USER_KEY := "{role:"]>
             (<[AuthContext.TOKEN_KEY := "tok"]> ∅))
          ∅ None None None false.

Definition ann : ApiUser :=
  mkApiUser (Some "u1") (Some "Ann") (Some "ann@example.org") (Some "ann")
            (Some "Admin") None None.

(** A server that accepts every login and answers with token [tok]. *)
Definition acceptingServer (_ : AuthApi.LoginPayload)
    : Outcome AuthApi.AuthResponse :=
  Resolved (AuthApi.mkAuthResponse (Some "tok") ann).

Definition userWithRole (r : string) : User :=
  mkUser "u1" "u1" "Ann" "ann@example.org" "ann" r None None.

(** 1 May 2024 and 30 April 2024, as time values. *)
Definition mayFirst : Z := 1714521600000.
Definition aprilLast : Z := 1714435200000.

(** A calendar that knows two days. *)
Definition tinyCalendar : LandingPage.Calendar :=
  {| LandingPage.Date_of := fun s =>
       if String.eqb s "2024-05-01" then LandingPage.ValidDate mayFirst
       else if String.eqb s "2024-04-30" then LandingPage.ValidDate aprilLast
            else LandingPage.InvalidDate;
     LandingPage.ymd := fun ms =>
       if Z.eqb ms mayFirst then "2024-05-01"
       else if Z.eqb ms aprilLast then "2024-04-30"
            else "1970-01-01" |}.

Definition pageOne : EpaperApi.EpaperImage :=
  EpaperApi.mkImage (Some "img-a") 1 "uploads/a.png" "a.png" "image/png" 1000
                    None.

(** The edition of 30 April 2024, published. *)
Definition aprilEdition : EpaperApi.Epaper :=
  EpaperApi.mkEpaper (Some "ep-1") "Afternoon" "2024-04-30" [pageOne] None
                     "images" 1 "published".

(** The landing page as first rendered. *)
Definition freshPage : LandingPage.Page :=
  LandingPage.mkPage (LandingPage.ValidDate mayFirst) None 0 true None
                     [] [].

(** A backend that cannot be reached for the by-date query. *)
Definition unreachableByDate (_ : string)
    : Outcome (option EpaperApi.Epaper) :=
  Rejected (AxiosErr None "Network Error").

(** A backend that answers the by-date query with a 404. *)
Definition missingByDate (_ : string) : Outcome (option EpaperApi.Epaper) :=
  Rejected (AxiosErr (Some (mkResponse 404 (JObj [("message", JStr "ePaper not found")])))
                     "Request failed with status code 404").

Definition imageA : EpaperApi.EpaperImage :=
  EpaperApi.mkImage (Some "A") 1 "uploads/a.png" "a.png" "image/png" 1000 None.
Definition imageB : EpaperApi.EpaperImage :=
  EpaperApi.mkImage (Some "B") 2 "uploads/b.png" "b.png" "image/png" 2000 None.
Definition imageC : EpaperApi.EpaperImage :=
  EpaperApi.mkImage (Some "C") 3 "uploads/c.png" "c.png" "image/png" 3000 None.

Definition formABC : EpaperForm.Form :=
  EpaperForm.mkForm [imageA; imageB; imageC] [] [].

(** A backend that accepts every reorder and every deletion. *)
Definition reorderAccepted (_ : string) (_ : list string)
    : Outcome (list EpaperApi.EpaperImage) := Resolved [].
Definition deleteAccepted (_ _ : string) : Outcome string :=
  Resolved "Image deleted".

(** The form after image A was deleted from [A(page 1), B(page 2)]: the
    one image left still says page 2. *)
Definition formAfterDelete : EpaperForm.Form :=
  snd (EpaperForm.removeExistingImage (Some "ep-1") deleteAccepted (Some "A")
         (EpaperForm.mkForm [imageA; imageB] [] [])).

(** A runtime whose [JSON.parse] reads back what [JSON.stringify] wrote
    for Ann, and the text [null]. *)
Definition annRuntime : Runtime :=
  {| JSON_stringify := fun u => "{role:" +:+ role u +:+ "}";
     JSON_parse := fun s =>
       if String.eqb s "{role:Admin}"
       then inr (Some (mkUser "u1" "u1" "Ann" "ann@example.org" "ann" "Admin"
                              None None))
       else if String.eqb s "{role:Staff}"
            then inr (Some (mkUser "u0" "u0" "Sam" "sam@example.org" "sam"
                                   "Staff" None None))
            else if String.eqb s "null" then inr None
                 else inl (ErrorObj "Unexpected token");
     String_of := fun _ => "[object Object]" |}.

(** A server that turns every login down with a 401. *)
Definition rejectingServer (_ : AuthApi.LoginPayload)
    : Outcome AuthApi.AuthResponse :=
  Rejected (AxiosErr (Some (mkResponse 401
                              (JObj [("message", JStr "Invalid credentials")])))
                     "Request failed with status code 401").

(** A server that accepts but sends no token. *)
Definition tokenlessServer (_ : AuthApi.LoginPayload)
    : Outcome AuthApi.AuthResponse :=
  Resolved (AuthApi.mkAuthResponse None ann).

(** Durable storage left behind by a remembered session of Sam. *)
Definition samRememberedWorld : World :=
  mkWorld (<[AuthContext.USER_KEY := "{role:Staff}"]>
             (<[AuthContext.TOKEN_KEY := "old"]> ∅))
          ∅ None None None false.

(** A user record without a role. *)
Definition roleless : ApiUser :=
  mkApiUser (Some "u2") (Some "Bo") (Some "bo@example.org") (Some "bo")
            None None None.

Definition rolelessServer (_ : AuthApi.LoginPayload)
    : Outcome AuthApi.AuthResponse :=
  Resolved (AuthApi.mkAuthResponse (Some "tok") roleless).

(** A backend whose by-date query delivers the April edition. *)
Definition aprilByDate (_ : string) : Outcome (option EpaperApi.Epaper) :=
  Resolved (Some aprilEdition).

(** A list request that fails with a 500 and an empty body. *)
Definition emptyBodyFailure (_ : EpaperApi.ListQuery)
    : Outcome EpaperApi.PaginatedResponse :=
  Rejected (AxiosErr (Some (mkResponse 500 (JStr "")))
                     "Request failed with status code 500").

Definition scanA : EpaperApi.File := EpaperApi.mkFile "a.png" "image/png".
Definition scanB : EpaperApi.File := EpaperApi.mkFile "b.jpg" "image/jpeg".
Definition notes : EpaperApi.File := EpaperApi.mkFile "notes.txt" "text/plain".
Definition issue : EpaperApi.File :=
  EpaperApi.mkFile "issue.pdf" "application/pdf".

(** Preview URLs named after the file. *)
Definition blobUrls : EpaperForm.Urls :=
  {| EpaperForm.createObjectURL := fun f => "blob:" +:+ EpaperApi.file_name f |}.

(** A [trim] that leaves its argument alone (enough for field values
    without surrounding white space). *)
Definition plainStrings : SignInForm.Strings :=
  {| SignInForm.trim := fun s => s |}.

(** The sign-in screen as first shown, on empty storage. *)
Definition freshSignIn : SignInForm.Screen :=
  SignInForm.mkScreen (mkWorld ∅ ∅ None None None false) false [] [].

(** A SuperAdmin account as the user client lists it. *)
Definition root : ApiUser :=
  mkApiUser (Some "u9") (Some "Root") (Some "root@example.org") (Some "root")
            (Some "SuperAdmin") None None.

(** Text operations good enough for plain ASCII field values: [trim]
    leaves the value alone, the length is the number of characters, and an
    e-mail is anything with an [@] in it. *)
Definition asciiText : UserRegister.Text :=
  {| UserRegister.trim := fun s => s;
     UserRegister.jsLength := String.length;
     UserRegister.isEmail := fun s =>
       match String.index 0 "@" s with
       | Some _ => true
       | None => false
       end |}.

(** The edit form of the account [sam], as loaded. *)
Definition samEditForm : UserRegister.FormState :=
  UserRegister.mkFormState
    (UserRegister.mkFormUser "Sam" "sam@example.org" "sam" (Some "") (Some "")
                             "Staff")
    UserRegister.noErrors true "sam".

(** A filled-in form for a new account. *)
Definition newUserForm : UserRegister.FormState :=
  UserRegister.mkFormState
    (UserRegister.mkFormUser "Bo" "bo@example.org" "bo" (Some "hunter22")
                             (Some "hunter22") "Staff")
    UserRegister.noErrors false "".

(** A settled session of a Staff user. *)
Definition staffWorld : World :=
  mkWorld ∅ ∅ None (Some (userWithRole "Staff")) None false.

End Fixtures.

(* ===================================================================== *)
(** ** Session store: logout *)
(* ===================================================================== *)

Section SessionStore.
Context `{Runtime}.

Ltac run :=
  unfold AuthContext.logout, AuthContext.mount, AuthContext.initialToken,
    AuthContext.initialUser, AuthContext.rawUser, AuthContext.tokenEffect,
    AuthContext.parse, AuthApi.clearToken, AuthApi.setToken, AuthApi.getToken,
    setAuthToken, removeItem, setItem, getItem, bind, ret, throw, modify,
    gets, lift, try_catch, try_finally; simpl.

(** C7.  [logout] returns normally from every state and leaves no token
    and no user entry in either storage area, no credential in the HTTP
    client (so a later request carries none), and no user or token in the
    React state: whichever area a previous login wrote is cleared. *)
Theorem logout_clears_both_scopes (w : World) :
  exists w',
    AuthContext.logout w = (inr tt, w')
    /\ localStorage w' !! AuthContext.TOKEN_KEY = None
    /\ localStorage w' !! AuthContext.USER_KEY = None
    /\ sessionStorage w' !! AuthContext.TOKEN_KEY = None
    /\ sessionStorage w' !! AuthContext.USER_KEY = None
    /\ httpToken w' = None
    /\ requestCredential w' = None
    /\ user w' = None
    /\ token w' = None.
Proof.
  eexists. split; [reflexivity |].
  run. unfold AuthApi.TOKEN_KEY, AuthContext.TOKEN_KEY, AuthContext.USER_KEY.
  repeat split; try reflexivity.
  - apply lookup_delete_eq.
  - rewrite lookup_delete_ne by discriminate.
    rewrite lookup_delete_eq. reflexivity.
  - rewrite lookup_delete_ne by discriminate. apply lookup_delete_eq.
  - apply lookup_delete_eq.
Qed.

(** [mount] returns normally from every state: a [SyntaxError] of
    [JSON.parse] is caught inside the [useState] initializer. *)
Lemma mount_returns (w : World) :
  exists w', AuthContext.mount w = (inr tt, w').
Proof.
  run. destruct (or_opt _ _) as [raw|]; simpl; [| eauto].
  destruct (truthy_str raw); simpl; [| eauto].
  destruct (JSON_parse raw); simpl; eauto.
Qed.

(** The text [mount] hands to [JSON.parse] is the durable user entry when
    that is a non-empty string, else the tab-scoped one. *)
Lemma rawUser_spec (w : World) :
  AuthContext.rawUser w
  = (inr (or_opt (localStorage w !! AuthContext.USER_KEY)
                 (sessionStorage w !! AuthContext.USER_KEY)), w).
Proof. reflexivity. Qed.

(** C9.  Whatever the two storage areas hold when the application starts,
    rebuilding the session returns normally; and when the persisted user
    text does not parse as JSON, the rebuilt session has no user. *)
Theorem mount_total_and_malformed_user_is_no_session (w : World) :
  (exists w', AuthContext.mount w = (inr tt, w'))
  /\ (forall raw e,
        fst (AuthContext.rawUser w) = inr (Some raw) ->
        JSON_parse raw = inl e ->
        user (snd (AuthContext.mount w)) = None).
Proof.
  split; [apply mount_returns |].
  intros raw e Hraw Hparse. rewrite rawUser_spec in Hraw. simpl in Hraw.
  run. injection Hraw as ->.
  destruct (truthy_str raw); simpl; [| reflexivity].
  rewrite Hparse. reflexivity.
Qed.

(** A login that returns normally: the server resolved, a non-empty token
    was read back from the durable area, and the final state is the one
    written out here. *)
Lemma login_success_inv server loginValue password remember (w w' : World) :
  AuthContext.login server loginValue password remember w = (inr tt, w') ->
  exists res t,
    server (AuthApi.mkLoginPayload loginValue password) = Resolved res
    /\ AuthContext.tokenAfter res w = Some t
    /\ truthy_str t = true
    /\ user w' = Some (AuthContext.normalize (AuthApi.resp_user res))
    /\ token w' = Some t
    /\ httpToken w' = Some t
    /\ loading w' = false
    /\ localStorage w' !! AuthContext.TOKEN_KEY = Some t
    /\ area (AuthContext.storageFor (default false remember)) w'
         !! AuthContext.TOKEN_KEY = Some t
    /\ area (AuthContext.storageFor (default false remember)) w'
         !! AuthContext.USER_KEY
       = Some (JSON_stringify (AuthContext.normalize (AuthApi.resp_user res)))
    /\ (default false remember = true -> sessionStorage w' = sessionStorage w)
    /\ (default false remember = false ->
          localStorage w' !! AuthContext.USER_KEY
          = localStorage w !! AuthContext.USER_KEY).
Proof.
  unfold AuthContext.login, AuthApi.login, AuthContext.tokenAfter.
  destruct (server _) as [res | err]; cycle 1.
  { destruct err; run; discriminate. }
  destruct (truthy_opt (AuthApi.resp_token res)) eqn:Htok.
  - destruct (AuthApi.resp_token res) as [t|] eqn:Hres; [| discriminate].
    simpl in Htok. run. rewrite Htok. simpl.
    unfold AuthApi.TOKEN_KEY. rewrite lookup_insert_eq. rewrite Htok.
    destruct (default false remember); simpl;
      intros [= <-]; exists res, t; simpl;
      unfold AuthContext.TOKEN_KEY, AuthContext.USER_KEY;
      rewrite Hres; simpl; rewrite Htok;
      repeat (rewrite ?lookup_insert_eq;
              rewrite ?lookup_insert_ne by discriminate);
      repeat split; auto; discriminate.
  - run. destruct (localStorage w !! AuthApi.TOKEN_KEY) as [t|] eqn:Hstale;
      simpl; [| discriminate].
    destruct (truthy_str t) eqn:Ht; simpl; [| discriminate].
    destruct (default false remember); simpl;
      intros [= <-]; exists res, t; simpl;
      unfold AuthContext.TOKEN_KEY, AuthContext.USER_KEY;
      rewrite Htok;
      repeat (rewrite ?lookup_insert_eq;
              rewrite ?lookup_insert_ne by discriminate);
      repeat split; auto; discriminate.
Qed.

(** With [remember = true] a successful login writes the token and the
    serialized user to the durable area and leaves the tab-scoped area as
    it was. *)
Lemma login_remember_durable_only server loginValue password (w w' : World) :
  AuthContext.login server loginValue password (Some true) w = (inr tt, w') ->
  exists t u,
    localStorage w' !! AuthContext.TOKEN_KEY = Some t
    /\ localStorage w' !! AuthContext.USER_KEY = Some (JSON_stringify u)
    /\ user w' = Some u
    /\ sessionStorage w' = sessionStorage w.
Proof.
  intros Hrun. apply login_success_inv in Hrun.
  destruct Hrun as (res & t & _ & _ & _ & Hu & _ & _ & _ & Hl & _ & Hlu & Hs & _).
  exists t, (AuthContext.normalize (AuthApi.resp_user res)).
  simpl in *. auto.
Qed.

(** With [remember = false] a successful login writes the token and the
    serialized user to the tab-scoped area and leaves the durable user
    entry as it was; the durable token entry, however, holds the token. *)
Lemma login_no_remember server loginValue password (w w' : World) :
  AuthContext.login server loginValue password (Some false) w = (inr tt, w') ->
  exists t u,
    sessionStorage w' !! AuthContext.TOKEN_KEY = Some t
    /\ sessionStorage w' !! AuthContext.USER_KEY = Some (JSON_stringify u)
    /\ user w' = Some u
    /\ localStorage w' !! AuthContext.USER_KEY
       = localStorage w !! AuthContext.USER_KEY
    /\ localStorage w' !! AuthContext.TOKEN_KEY = Some t.
Proof.
  intros Hrun. apply login_success_inv in Hrun.
  destruct Hrun as (res & t & _ & _ & _ & Hu & _ & _ & _ & Hl & Hs & Hsu & _ & Hlu).
  exists t, (AuthContext.normalize (AuthApi.resp_user res)).
  simpl in *. auto 10.
Qed.

(** C1, evaluated where it fails.  Both storage areas start empty, the
    server accepts and answers with token [tok], and [remember] is
    [false].  The login returns normally; the tab-scoped area holds the
    token and the user, the durable area holds no user, and the durable
    area holds the token: [authApi.login] has stored it there through
    [setToken] before [AuthContext.login] picks the area. *)
Theorem login_without_remember_stores_token_durably :
  exists w',
    AuthContext.login Fixtures.acceptingServer "ann" "secret" (Some false)
                      Fixtures.emptyWorld = (inr tt, w')
    /\ sessionStorage w' !! AuthContext.TOKEN_KEY = Some "tok"
    /\ sessionStorage w' !! AuthContext.USER_KEY
       = Some (JSON_stringify (AuthContext.normalize Fixtures.ann))
    /\ localStorage w' !! AuthContext.USER_KEY = None
    /\ localStorage w' !! AuthContext.TOKEN_KEY = Some "tok"
    /\ localStorage Fixtures.emptyWorld !! AuthContext.TOKEN_KEY = None.
Proof.
  eexists. split; [reflexivity |].
  simpl. unfold AuthContext.TOKEN_KEY, AuthContext.USER_KEY, AuthApi.TOKEN_KEY.
  repeat (rewrite ?lookup_insert_eq;
          rewrite ?lookup_insert_ne by discriminate).
  repeat split; apply lookup_empty.
Qed.

(** With [remember = true] the same login leaves the tab-scoped area
    empty. *)
Example login_with_remember_run :
  exists w',
    AuthContext.login Fixtures.acceptingServer "ann" "secret" (Some true)
                      Fixtures.emptyWorld = (inr tt, w')
    /\ localStorage w' !! AuthContext.TOKEN_KEY = Some "tok"
    /\ localStorage w' !! AuthContext.USER_KEY
       = Some (JSON_stringify (AuthContext.normalize Fixtures.ann))
    /\ sessionStorage w' = ∅.
Proof.
  eexists. split; [reflexivity |].
  simpl. unfold AuthContext.TOKEN_KEY, AuthContext.USER_KEY, AuthApi.TOKEN_KEY.
  repeat (rewrite ?lookup_insert_eq;
          rewrite ?lookup_insert_ne by discriminate).
  repeat split.
Qed.

(** What the durable token means once the tab is gone: the tab-scoped
    area is empty again, the durable area still holds the token, and the
    next start comes up with that token, propagated to the HTTP client,
    and no user. *)
Example restart_after_login_without_remember (w : World) :
  localStorage w !! AuthContext.TOKEN_KEY = Some "tok" ->
  localStorage w !! AuthContext.USER_KEY = None ->
  sessionStorage w = ∅ ->
  exists w',
    AuthContext.mount w = (inr tt, w')
    /\ token w' = Some "tok"
    /\ user w' = None
    /\ httpToken w' = Some "tok".
Proof.
  intros Ht Hu Hs. run. unfold AuthContext.TOKEN_KEY, AuthContext.USER_KEY in *.
  rewrite Ht, Hu, Hs. simpl. rewrite !lookup_empty. simpl.
  eexists. repeat split.
Qed.

End SessionStore.

(** An instance of C9: the durable user entry is cut off in the middle of
    an object; the session comes up without a user. *)
Lemma mount_total_and_malformed_user_is_no_session_witness :
  fst (AuthContext.rawUser Fixtures.brokenUserWorld) = inr (Some "{role:")
  /\ @JSON_parse Fixtures.tinyRuntime "{role:"
     = inl (ErrorObj "Unexpected token")
  /\ user (snd (@AuthContext.mount Fixtures.tinyRuntime
                  Fixtures.brokenUserWorld)) = None.
Proof.
  assert (Hraw : fst (AuthContext.rawUser Fixtures.brokenUserWorld)
                 = inr (Some "{role:"))
    by (vm_compute; reflexivity).
  assert (Hparse : @JSON_parse Fixtures.tinyRuntime "{role:"
                   = inl (ErrorObj "Unexpected token"))
    by reflexivity.
  split; [exact Hraw | split; [exact Hparse |]].
  exact (proj2 (@mount_total_and_malformed_user_is_no_session
                  Fixtures.tinyRuntime Fixtures.brokenUserWorld)
               _ _ Hraw Hparse).
Defined.

(* ===================================================================== *)
(** ** Route guard *)
(* ===================================================================== *)

Section RouteGuard.

Lemma includes_elem_of (roles : list string) (r : string) :
  ProtectedRoute.includes roles r = true <-> r ∈ roles.
Proof.
  unfold ProtectedRoute.includes. rewrite existsb_exists. split.
  - intros (x & Hin & Heq). apply String.eqb_eq in Heq. subst x.
    now apply list_elem_of_In.
  - intros Hin. exists r. split; [now apply list_elem_of_In |].
    apply String.eqb_refl.
Qed.

Lemma includes_not_elem_of (roles : list string) (r : string) :
  ProtectedRoute.includes roles r = false <-> r ∉ roles.
Proof.
  rewrite <- includes_elem_of. destruct (ProtectedRoute.includes roles r);
    split; intros; congruence.
Qed.

(** [user.role || ""] is the role itself: the only falsy string is the
    one it is replaced with. *)
Lemma role_or_empty (r : string) : or_str (Some r) "" = r.
Proof.
  unfold or_str, truthy_str. destruct (String.eqb r "") eqn:E; simpl; auto.
  apply String.eqb_eq in E. congruence.
Qed.

(** C3.  The guard's four cases, in order: a loading session shows the
    loading text and redirects nowhere; otherwise a session without a user
    is sent to [/signin]; otherwise, when [roles] is given and the user's
    role is not in it, the user is sent to [redirectTo], which is [/] when
    the property is left out; otherwise the children are rendered. *)
Theorem guard_cases {C : Type} (children : C) (roles : option (list string))
    (redirectTo : option string) (w : World) :
  (loading w = true ->
     ProtectedRoute.ProtectedRoute children roles redirectTo w
     = ProtectedRoute.LoadingDiv)
  /\ (loading w = false -> user w = None ->
        ProtectedRoute.ProtectedRoute children roles redirectTo w
        = ProtectedRoute.Navigate "/signin")
  /\ (forall u rs,
        loading w = false -> user w = Some u -> roles = Some rs ->
        role u ∉ rs ->
        ProtectedRoute.ProtectedRoute children roles redirectTo w
        = ProtectedRoute.Navigate (default "/" redirectTo))
  /\ (forall u,
        loading w = false -> user w = Some u ->
        (roles = None \/ exists rs, roles = Some rs /\ role u ∈ rs) ->
        ProtectedRoute.ProtectedRoute children roles redirectTo w
        = ProtectedRoute.Children children).
Proof.
  unfold ProtectedRoute.ProtectedRoute. repeat split.
  - intros ->. reflexivity.
  - intros -> ->. reflexivity.
  - intros u rs -> -> -> Hnot. rewrite role_or_empty.
    apply includes_not_elem_of in Hnot. rewrite Hnot. reflexivity.
  - intros u -> -> [-> | (rs & -> & Hin)]; [reflexivity |].
    rewrite role_or_empty. apply includes_elem_of in Hin. rewrite Hin.
    reflexivity.
Qed.

(** The guard as mounted around the admin region: once the session has
    settled, a user gets the layout exactly when the role is one of the
    three known ones, and is sent to [/] otherwise. *)
Lemma adminGuard_admits {C : Type} (layout : C) (w : World) (u : User) :
  loading w = false -> user w = Some u ->
  ProtectedRoute.adminGuard layout w
  = if bool_decide (role u ∈ ["SuperAdmin"; "Admin"; "Staff"])
    then ProtectedRoute.Children layout
    else ProtectedRoute.Navigate "/".
Proof.
  intros Hl Hu. unfold ProtectedRoute.adminGuard, ProtectedRoute.ProtectedRoute.
  rewrite Hl, Hu, role_or_empty. simpl default.
  destruct (ProtectedRoute.includes _ (role u)) eqn:E; simpl.
  - apply includes_elem_of in E. rewrite bool_decide_eq_true_2; auto.
  - apply includes_not_elem_of in E. rewrite bool_decide_eq_false_2; auto.
Qed.

End RouteGuard.

(** An instance of C3: a signed-in Staff user meets a guard that admits
    only Admin and has no [redirectTo]; the guard navigates to [/]. *)
Lemma guard_cases_witness :
  loading Fixtures.staffWorld = false
  /\ user Fixtures.staffWorld = Some (Fixtures.userWithRole "Staff")
  /\ (role (Fixtures.userWithRole "Staff") ∉ ["Admin"])
  /\ ProtectedRoute.ProtectedRoute tt (Some ["Admin"]) None
                                    Fixtures.staffWorld
     = ProtectedRoute.Navigate "/".
Proof.
  assert (Hnot : role (Fixtures.userWithRole "Staff") ∉ ["Admin"]).
  { apply includes_not_elem_of. reflexivity. }
  split; [reflexivity | split; [reflexivity | split; [exact Hnot |]]].
  exact (proj1 (proj2 (proj2 (guard_cases tt (Some ["Admin"]) None
                                          Fixtures.staffWorld)))
               (Fixtures.userWithRole "Staff") ["Admin"]
               eq_refl eq_refl eq_refl Hnot).
Defined.

(* ===================================================================== *)
(** ** Navigation visibility *)
(* ===================================================================== *)

Section Navigation.

Import AppSidebar.

(** On a non-empty role list and a user with a non-empty role,
    [hasAccess] is list membership. *)
Lemma hasAccess_nonempty (u : User) (l : list string) :
  l <> [] -> role u <> "" ->
  (hasAccess (Some u) (Some l) = true <-> role u ∈ l).
Proof.
  intros Hl Hr. unfold hasAccess.
  destruct l as [| x l']; [congruence |]. simpl.
  assert (Ht : truthy_str (role u) = true).
  { unfold truthy_str. destruct (String.eqb (role u) "") eqn:E; auto.
    apply String.eqb_eq in E. congruence. }
  rewrite Ht. simpl. apply (includes_elem_of (x :: l')).
Qed.

Lemma hasAccess_rule_nonempty (u : User) (allowed : option (list string)) :
  allowed <> Some [] -> role u <> "" ->
  (hasAccess (Some u) allowed = true <-> visibleByRule (role u) allowed).
Proof.
  intros Hne Hr. unfold visibleByRule. destruct allowed as [l |].
  - rewrite hasAccess_nonempty by congruence. split.
    + intros Hin. right. exists l. auto.
    + intros [Habs | (l' & [= <-] & Hin)]; [discriminate | assumption].
  - split; [now left | reflexivity].
Qed.

(** C2.  For each of the roles SuperAdmin, Admin and Staff and each entry
    of the fixed navigation tree, at the top level and at the sub-item
    level: [hasAccess] lets the entry through iff its [allowedRoles] is
    absent or contains the role. *)
Theorem nav_tree_visibility (u : User) :
  role u ∈ ["SuperAdmin"; "Admin"; "Staff"] ->
  Forall (fun nav =>
            (hasAccess (Some u) (allowedRoles nav) = true
             <-> visibleByRule (role u) (allowedRoles nav))
            /\ Forall (fun sub =>
                         hasAccess (Some u) (sub_allowedRoles sub) = true
                         <-> visibleByRule (role u) (sub_allowedRoles sub))
                      (default [] (subItems nav)))
         navItems.
Proof.
  intros Hrole.
  assert (Hr : role u <> "").
  { intros E. rewrite E in Hrole.
    apply includes_elem_of in Hrole. discriminate. }
  unfold navItems.
  repeat match goal with
         | |- Forall _ [] => constructor
         | |- Forall _ (_ :: _) => constructor
         | |- _ /\ Forall _ _ => split
         | |- Forall _ (default _ _) => simpl (default _ _)
         | |- _ <-> _ =>
             apply hasAccess_rule_nonempty; [discriminate | assumption]
         end.
Qed.

(** C10.  A role list that is present but empty opens the entry to
    everyone, exactly as an absent list does, whoever the user is: no
    user at all, a user with an empty role, or a user with any role. *)
Theorem hasAccess_empty_list_is_open (currentUser : option User) :
  hasAccess currentUser (Some []) = true
  /\ hasAccess currentUser (Some []) = hasAccess currentUser None.
Proof. split; reflexivity. Qed.

(** By contrast the membership rule alone would hide such an entry from
    every role. *)
Lemma rule_hides_empty_list (r : string) : ~ visibleByRule r (Some []).
Proof.
  intros [Habs | (l & [= <-] & Hin)]; [discriminate |].
  inversion Hin.
Qed.

(** The rendered menu depends on the user through the role only. *)
Lemma menu_depends_on_role (u u' : User) (items : list NavItem) :
  role u = role u' ->
  renderMenuItems (Some u) items = renderMenuItems (Some u') items.
Proof.
  intros Hrole. unfold renderMenuItems, hasAccess. rewrite Hrole.
  reflexivity.
Qed.

(** The menus the three roles get from the fixed tree. *)
Example menu_of_staff :
  renderMenuItems (Some (Fixtures.userWithRole "Staff")) navItems
  = [ DirectLink "Dashboard" "/admin-dashboard";
      Submenu "Epaper" [("All Epaper", "/admin-dashboard/epapers/")] ].
Proof. reflexivity. Qed.

Example menu_of_admin :
  renderMenuItems (Some (Fixtures.userWithRole "Admin")) navItems
  = [ DirectLink "Dashboard" "/admin-dashboard";
      Submenu "Epaper"
        [ ("Add New Epaper", "/admin-dashboard/epapers/create");
          ("All Epaper", "/admin-dashboard/epapers/") ];
      Submenu "User"
        [ ("User Register", "/admin-dashboard/users/create");
          ("All User", "/admin-dashboard/users/") ] ].
Proof. reflexivity. Qed.

Example menu_of_superadmin :
  renderMenuItems (Some (Fixtures.userWithRole "SuperAdmin")) navItems
  = renderMenuItems (Some (Fixtures.userWithRole "Admin")) navItems.
Proof. reflexivity. Qed.

End Navigation.

(** An instance of C2: the Staff user against the whole tree. *)
Lemma nav_tree_visibility_witness :
  (role (Fixtures.userWithRole "Staff") ∈ ["SuperAdmin"; "Admin"; "Staff"])
  /\ Forall (fun nav =>
               (AppSidebar.hasAccess (Some (Fixtures.userWithRole "Staff"))
                                     (AppSidebar.allowedRoles nav) = true
                <-> AppSidebar.visibleByRule "Staff"
                      (AppSidebar.allowedRoles nav))
               /\ Forall (fun sub =>
                            AppSidebar.hasAccess
                              (Some (Fixtures.userWithRole "Staff"))
                              (AppSidebar.sub_allowedRoles sub) = true
                            <-> AppSidebar.visibleByRule "Staff"
                                  (AppSidebar.sub_allowedRoles sub))
                         (default [] (AppSidebar.subItems nav)))
            AppSidebar.navItems.
Proof.
  assert (Hin : role (Fixtures.userWithRole "Staff")
                ∈ ["SuperAdmin"; "Admin"; "Staff"]).
  { apply includes_elem_of. reflexivity. }
  split; [exact Hin |].
  exact (nav_tree_visibility (Fixtures.userWithRole "Staff") Hin).
Defined.

(* ===================================================================== *)
(** ** Error normalization in the epaper client *)
(* ===================================================================== *)

Section ErrorNormalization.

Import EpaperApi.

Lemma or_str_request_failed (message : string) :
  or_str (Some message) "Request failed"
  = if String.eqb message "" then "Request failed" else message.
Proof.
  unfold or_str, truthy_str. destruct (String.eqb message ""); reflexivity.
Qed.

(** [extractErrorMessage] follows the order written out by cases. *)
Lemma extractErrorMessage_cases (err : Thrown) :
  extractErrorMessage err = messageByCases err.
Proof.
  destruct err as [[[st body] |] message | message | s |]; try reflexivity.
  - destruct body; try (simpl; apply or_str_request_failed); try reflexivity.
    + destruct b; simpl; apply or_str_request_failed.
    + simpl. destruct (negb (n =? 0)%Z); simpl; apply or_str_request_failed.
    + unfold extractErrorMessage, messageByCases. simpl.
      destruct (assoc "message" fields); simpl;
        try reflexivity;
        destruct (assoc "error" fields); simpl;
        try reflexivity; apply or_str_request_failed.
  - simpl. apply or_str_request_failed.
Qed.

(** Off string bodies the code and the stated order agree. *)
Lemma stated_priority_off_string_bodies response message :
  as_string (responseData response) = None ->
  extractErrorMessage (AxiosErr response message)
  = statedMessage response message.
Proof.
  intros Hns. unfold extractErrorMessage, statedMessage. rewrite Hns.
  unfold truthy_str.
  destruct (responseData response) as [| | b | n | s | items | fields];
    simpl in *; try discriminate; try reflexivity.
  - destruct b; reflexivity.
  - destruct (negb (n =? 0)%Z); reflexivity.
  - destruct (assoc "message" fields); simpl; try reflexivity;
      destruct (assoc "error" fields); reflexivity.
Qed.

(** C6 as stated fails on a body that is itself a string: a 404 whose body
    is the text [Cannot GET /epapers/by-date] has no [message] and no
    [error] field, so the stated order gives the transport text, while the
    code gives the body. *)
Lemma string_body_precedes_stated_priority :
  extractErrorMessage
    (AxiosErr (Some (mkResponse 404 (JStr "Cannot GET /epapers/by-date")))
              "Request failed with status code 404")
  <> statedMessage
       (Some (mkResponse 404 (JStr "Cannot GET /epapers/by-date")))
       "Request failed with status code 404".
Proof. vm_compute. discriminate. Qed.

(** C6, amended.  A failed call of the epaper client throws one shape, an
    [Error] carrying a string, and the string is: the response body when
    the body is itself a string; else the body's string [message] field;
    else its string [error] field; else the transport text when that is
    not empty; else [Request failed].  (For a thrown value that is not an
    HTTP-client error: its message, the thrown string itself, or
    [Unknown error occurred].) *)
Theorem epaper_client_failure_shape {A : Type} (transport : Outcome A)
    (thrown : Thrown) :
  guarded transport = inl thrown ->
  exists err,
    transport = Rejected err /\ thrown = ErrorObj (messageByCases err).
Proof.
  destruct transport as [payload | err]; simpl; [discriminate |].
  intros [= <-]. exists err. rewrite extractErrorMessage_cases. auto.
Qed.

(** The auth client does not use this order: on a rejected login it looks
    at the [message] field only, so a 401 whose body carries an [error]
    field ends as [Login failed]. *)
Example login_failure_ignores_error_field `{Runtime} (w : World) :
  AuthApi.login
    (fun _ => Rejected
                (AxiosErr (Some (mkResponse 401
                                   (JObj [("error", JStr "Bad credentials")])))
                          "Request failed with status code 401"))
    (AuthApi.mkLoginPayload "ann" "wrong") w
  = (inl (ErrorObj "Login failed"), w).
Proof. reflexivity. Qed.

End ErrorNormalization.

(** An instance of C6 as amended: the by-date call meets a 404 with a
    [message] field. *)
Lemma epaper_client_failure_shape_witness :
  EpaperApi.getEpaperByDate (Fixtures.missingByDate "2024-05-01")
  = inl (ErrorObj "ePaper not found")
  /\ exists err,
       Fixtures.missingByDate "2024-05-01" = Rejected err
       /\ ErrorObj "ePaper not found" = ErrorObj (EpaperApi.messageByCases err).
Proof.
  assert (Hrun : EpaperApi.guarded (Fixtures.missingByDate "2024-05-01")
                 = inl (ErrorObj "ePaper not found"))
    by reflexivity.
  split; [exact Hrun |].
  exact (epaper_client_failure_shape
           (Fixtures.missingByDate "2024-05-01")
           (ErrorObj "ePaper not found") Hrun).
Defined.

(* ===================================================================== *)
(** ** Public landing page: edition lookup with fallback *)
(* ===================================================================== *)

Section EditionLookup.

Import EpaperApi LandingPage.

Context `{Calendar}.
Variable byDate : string -> Outcome (option Epaper).
Variable latestPublished : Outcome (option (list Epaper)).

Ltac unfold_load :=
  unfold loadEpaper, attemptByDate, attemptLatest, awaitByDate, awaitLatest,
    getEpaperByDate, guarded, format, setLoading, setError, setEpaper,
    setCurrentPage, setSelectedDate, showToast, send, withLoading,
    bind, ret, throw, modify, gets, lift, try_catch, try_finally.

(** When attempt 1 delivers, the fallback query is not sent and no toast
    is shown. *)
Lemma loadEpaper_delivered (ms : Z) (p : Page) (d : Epaper) :
  byDate (ymd ms) = Resolved (Some d) ->
  delivers (byDate (ymd ms)) = true ->
  exists p',
    loadEpaper byDate latestPublished (ValidDate ms) p = (inr tt, p')
    /\ epaper p' = Some d
    /\ currentPage p' = 0%Z
    /\ loading p' = false
    /\ error p' = None
    /\ toasts p' = toasts p
    /\ sent p' = (sent p ++ [GetByDate (ymd ms)])%list.
Proof.
  intros Hres Hdel. unfold delivers in Hdel. rewrite Hres in Hdel.
  unfold_load. simpl. rewrite Hres. simpl.
  destruct (Date_of (date d)) as [m |]; [| discriminate]. simpl.
  destruct (negb (ymd m =? ymd ms)%string); simpl; eexists; repeat split.
Qed.

(** The state in which attempt 2 starts when attempt 1 did not deliver,
    and the requests sent by then. *)
Lemma loadEpaper_falls_back (ms : Z) (p : Page) :
  delivers (byDate (ymd ms)) = false ->
  exists q,
    loadEpaper byDate latestPublished (ValidDate ms) p
    = (let '(r, p') := attemptLatest latestPublished (ymd ms) q in
       (r, withLoading false p'))
    /\ error q = None
    /\ toasts q = toasts p
    /\ sent q = (sent p ++ [GetByDate (ymd ms)])%list
    /\ (notFound (byDate (ymd ms)) = true -> epaper q = epaper p).
Proof.
  intros Hdel. unfold delivers in Hdel.
  unfold loadEpaper, attemptByDate, awaitByDate, getEpaperByDate, guarded,
    format, setLoading, setError, setEpaper, setCurrentPage, setSelectedDate,
    send, bind, ret, throw, modify, gets, lift, try_catch, try_finally.
  simpl. destruct (byDate (ymd ms)) as [[d |] | err]; simpl.
  - destruct (Date_of (date d)) as [m |]; [discriminate |]. simpl.
    eexists; repeat split; try reflexivity. discriminate.
  - eexists; repeat split; reflexivity.
  - eexists; repeat split; reflexivity.
Qed.

(** Attempt 2 on a resolved, non-empty list whose first edition has a
    valid date. *)
Lemma attemptLatest_shows (D : string) (q : Page) (P : Epaper)
    (rest : list Epaper) (m : Z) :
  latestPublished = Resolved (Some (P :: rest)) ->
  Date_of (date P) = ValidDate m ->
  exists q',
    attemptLatest latestPublished D q = (inr tt, q')
    /\ epaper q' = Some P
    /\ currentPage q' = 0%Z
    /\ loading q' = loading q
    /\ error q' = error q
    /\ toasts q' = (toasts q ++ [latestNotice])%list
    /\ sent q' = (sent q ++ [GetLatestPublished])%list.
Proof.
  intros Hres Hdate. unfold_load. rewrite Hres. simpl. rewrite Hdate. simpl.
  destruct (negb (ymd m =? D)%string); simpl; eexists; repeat split.
Qed.

(** Attempt 2 when nothing is published. *)
Lemma attemptLatest_nothing (D : string) (q : Page) :
  (latestPublished = Resolved None \/ latestPublished = Resolved (Some [])) ->
  exists q',
    attemptLatest latestPublished D q = (inr tt, q')
    /\ epaper q' = None
    /\ loading q' = loading q
    /\ error q' = Some "No published ePaper available"
    /\ toasts q' = (toasts q ++ [noEpaperNotice])%list
    /\ sent q' = (sent q ++ [GetLatestPublished])%list.
Proof.
  intros [Hres | Hres]; unfold_load; rewrite Hres; simpl;
    eexists; repeat split.
Qed.

(** Attempt 2 when the request itself fails. *)
Lemma attemptLatest_fails (D : string) (q : Page) (err : Thrown) :
  latestPublished = Rejected err ->
  exists q',
    attemptLatest latestPublished D q = (inr tt, q')
    /\ epaper q' = epaper q
    /\ loading q' = loading q
    /\ error q' = Some "Failed to fetch latest ePaper"
    /\ toasts q' = (toasts q ++ [fetchFailedNotice])%list
    /\ sent q' = (sent q ++ [GetLatestPublished])%list.
Proof.
  intros Hres. unfold_load. rewrite Hres. simpl. eexists; repeat split.
Qed.

(** Attempt 2 never throws and sends exactly one request. *)
Lemma attemptLatest_returns (D : string) (q : Page) :
  exists q',
    attemptLatest latestPublished D q = (inr tt, q')
    /\ sent q' = (sent q ++ [GetLatestPublished])%list.
Proof.
  unfold_load. destruct latestPublished as [[[| P rest] |] | err]; simpl;
    try (eexists; split; reflexivity).
  destruct (Date_of (date P)) as [m |]; simpl.
  - destruct (negb (ymd m =? D)%string); simpl; eexists; split; reflexivity.
  - eexists; split; reflexivity.
Qed.

(** Where a successful fallback leaves [selectedDate]: on the date of
    the edition shown when that differs from the date asked for. *)
Lemma fallback_moves_selectedDate (ms m : Z) (p : Page) (P : Epaper)
    (rest : list Epaper) :
  notFound (byDate (ymd ms)) = true ->
  latestPublished = Resolved (Some (P :: rest)) ->
  Date_of (date P) = ValidDate m ->
  selectedDate (snd (loadEpaper byDate latestPublished (ValidDate ms) p))
  = if String.eqb (ymd m) (ymd ms) then selectedDate p else ValidDate m.
Proof.
  intros Hnf Hres Hdate. unfold_load. simpl.
  destruct (byDate (ymd ms)) as [[d |] | err]; simpl in *; try discriminate;
    rewrite Hres; simpl; rewrite Hdate; simpl;
    destruct (ymd m =? ymd ms)%string; reflexivity.
Qed.

(** The cycle that a changed [selectedDate] starts, on the date of the
    edition shown: whether the by-date query now delivers that edition or
    still does not deliver, the edition stays on display and
    [selectedDate] stays put, so no further cycle follows. *)
Lemma follow_up_cycle_keeps_latest (m : Z) (p : Page) (P : Epaper)
    (rest : list Epaper) :
  latestPublished = Resolved (Some (P :: rest)) ->
  Date_of (date P) = ValidDate m ->
  (byDate (ymd m) = Resolved (Some P) \/ delivers (byDate (ymd m)) = false) ->
  render (snd (loadEpaper byDate latestPublished (ValidDate m) p))
  = Viewer P 0
  /\ selectedDate (snd (loadEpaper byDate latestPublished (ValidDate m) p))
     = selectedDate p.
Proof.
  intros Hres Hdate Hby. unfold delivers in Hby. unfold_load. simpl.
  destruct (byDate (ymd m)) as [[d |] | err]; simpl.
  - destruct Hby as [[= ->] | Hnd].
    + rewrite Hdate. simpl. rewrite String.eqb_refl. simpl. auto.
    + destruct (Date_of (date d)); [discriminate |]. simpl.
      rewrite Hres. simpl. rewrite Hdate. simpl. rewrite String.eqb_refl.
      simpl. auto.
  - rewrite Hres. simpl. rewrite Hdate. simpl. rewrite String.eqb_refl.
    simpl. auto.
  - rewrite Hres. simpl. rewrite Hdate. simpl. rewrite String.eqb_refl.
    simpl. auto.
Qed.

Lemma notFound_not_delivered (o : Outcome (option Epaper)) :
  notFound o = true -> delivers o = false.
Proof. destruct o as [[d |] | err]; simpl; auto; discriminate. Qed.

Lemma transportFailure_not_delivered (o : Outcome (option Epaper)) :
  transportFailure o = true -> delivers o = false.
Proof. destruct o as [[d |] | err]; simpl; auto; discriminate. Qed.

(** C4.  The by-date query for the selected date reports "not found".
    If the backend has a published edition (with a valid date), the load
    returns with that edition on display at its first page, no error, and
    the "Showing latest edition" notice added to the toasts.  If it has
    none, the load returns as well, with no edition in the state and the
    text [No published ePaper available] on display.  In both cases
    nothing is thrown. *)
Theorem lookup_not_found_shows_latest_or_no_edition (ms : Z) (p : Page) :
  notFound (byDate (ymd ms)) = true ->
  (forall P rest m,
     latestPublished = Resolved (Some (P :: rest)) ->
     Date_of (date P) = ValidDate m ->
     exists p',
       loadEpaper byDate latestPublished (ValidDate ms) p = (inr tt, p')
       /\ epaper p' = Some P
       /\ error p' = None
       /\ render p' = Viewer P 0
       /\ toasts p' = (toasts p ++ [latestNotice])%list)
  /\ ((latestPublished = Resolved None
       \/ latestPublished = Resolved (Some [])) ->
      exists p',
        loadEpaper byDate latestPublished (ValidDate ms) p = (inr tt, p')
        /\ epaper p' = None
        /\ render p' = ErrorText "No published ePaper available"
        /\ toasts p' = (toasts p ++ [noEpaperNotice])%list).
Proof.
  intros Hnf.
  destruct (loadEpaper_falls_back ms p (notFound_not_delivered _ Hnf))
    as (q & Hload & Herr & Htoasts & Hsent & _).
  split.
  - intros P rest m Hres Hdate.
    destruct (attemptLatest_shows (ymd ms) q P rest m Hres Hdate)
      as (q' & Hrun & He & Hc & _ & Herr' & Ht & _).
    exists (withLoading false q'). rewrite Hload, Hrun.
    split; [reflexivity |]. unfold render. simpl.
    rewrite He, Hc, Herr', Herr, Ht, Htoasts. simpl. auto.
  - intros Hnone.
    destruct (attemptLatest_nothing (ymd ms) q Hnone)
      as (q' & Hrun & He & _ & Herr' & Ht & _).
    exists (withLoading false q'). rewrite Hload, Hrun.
    split; [reflexivity |]. unfold render. simpl.
    rewrite He, Herr', Ht, Htoasts. simpl. auto.
Qed.

(** C5, amended.  One call of [loadEpaper] on a valid date always
    returns.  It sends the by-date query once; it sends the fallback query,
    once, exactly when the by-date query did not deliver an edition with a
    valid date, whatever the reason: a clean "not found", an empty body or
    a failure of the transport.  A failure of the by-date query is not
    shown as an error: with a published edition available the cycle ends
    with that edition on display.  A failure of the fallback query ends the
    cycle with [Failed to fetch latest ePaper] on display. *)
Theorem fallback_after_every_undelivered_lookup (ms : Z) (p : Page) :
  fst (loadEpaper byDate latestPublished (ValidDate ms) p) = inr tt
  /\ (delivers (byDate (ymd ms)) = true ->
        sent (snd (loadEpaper byDate latestPublished (ValidDate ms) p))
        = (sent p ++ [GetByDate (ymd ms)])%list)
  /\ (delivers (byDate (ymd ms)) = false ->
        sent (snd (loadEpaper byDate latestPublished (ValidDate ms) p))
        = (sent p ++ [GetByDate (ymd ms); GetLatestPublished])%list)
  /\ (transportFailure (byDate (ymd ms)) = true ->
        forall P rest m,
          latestPublished = Resolved (Some (P :: rest)) ->
          Date_of (date P) = ValidDate m ->
          render (snd (loadEpaper byDate latestPublished (ValidDate ms) p))
          = Viewer P 0)
  /\ (delivers (byDate (ymd ms)) = false ->
        forall err,
          latestPublished = Rejected err ->
          render (snd (loadEpaper byDate latestPublished (ValidDate ms) p))
          = ErrorText "Failed to fetch latest ePaper").
Proof.
  assert (Hfb : delivers (byDate (ymd ms)) = false ->
                exists q q',
                  loadEpaper byDate latestPublished (ValidDate ms) p
                  = (inr tt, withLoading false q')
                  /\ attemptLatest latestPublished (ymd ms) q = (inr tt, q')
                  /\ error q = None
                  /\ sent q' = (sent p ++ [GetByDate (ymd ms);
                                           GetLatestPublished])%list).
  { intros Hdel.
    destruct (loadEpaper_falls_back ms p Hdel)
      as (q & Hload & Herr & _ & Hsent & _).
    destruct (attemptLatest_returns (ymd ms) q) as (q' & Hrun & Hsent').
    exists q, q'. rewrite Hload, Hrun. repeat split; auto.
    rewrite Hsent', Hsent, <- app_assoc. reflexivity. }
  repeat split.
  - destruct (delivers (byDate (ymd ms))) eqn:Hdel.
    + unfold delivers in Hdel.
      destruct (byDate (ymd ms)) as [[d |] | err] eqn:Hres; try discriminate.
      destruct (loadEpaper_delivered ms p d Hres) as (p' & Hload & _).
      { unfold delivers. rewrite Hres. exact Hdel. }
      rewrite Hload. reflexivity.
    + destruct (Hfb eq_refl) as (q & q' & Hload & _). rewrite Hload.
      reflexivity.
  - intros Hdel. unfold delivers in Hdel.
    destruct (byDate (ymd ms)) as [[d |] | err] eqn:Hres; try discriminate.
    destruct (loadEpaper_delivered ms p d Hres) as (p' & Hload & Hrest).
    { unfold delivers. rewrite Hres. exact Hdel. }
    rewrite Hload. simpl. apply Hrest.
  - intros Hdel. destruct (Hfb Hdel) as (q & q' & Hload & _ & _ & Hsent).
    rewrite Hload. exact Hsent.
  - intros Htf P rest m Hres Hdate.
    destruct (Hfb (transportFailure_not_delivered _ Htf))
      as (q & q' & Hload & Hrun & Herr & _).
    destruct (attemptLatest_shows (ymd ms) q P rest m Hres Hdate)
      as (q2 & Hrun2 & He & Hc & _ & Herr' & _).
    rewrite Hrun in Hrun2. injection Hrun2 as <-.
    rewrite Hload. unfold render. simpl. rewrite Herr', Herr, He, Hc.
    reflexivity.
  - intros Hdel err Hres.
    destruct (Hfb Hdel) as (q & q' & Hload & Hrun & _).
    destruct (attemptLatest_fails (ymd ms) q err Hres)
      as (q2 & Hrun2 & _ & _ & Herr' & _).
    rewrite Hrun in Hrun2. injection Hrun2 as <-.
    rewrite Hload. unfold render. simpl. rewrite Herr'. reflexivity.
Qed.

End EditionLookup.

(** An instance of C4: 1 May 2024 has no edition (the by-date query
    answers 404) and the edition of 30 April is the latest published one;
    the page ends up showing the April edition with the notice. *)
Lemma lookup_not_found_shows_latest_or_no_edition_witness :
  @LandingPage.notFound
    (Fixtures.missingByDate (@LandingPage.ymd Fixtures.tinyCalendar
                                               Fixtures.mayFirst)) = true
  /\ exists p',
       @LandingPage.loadEpaper Fixtures.tinyCalendar Fixtures.missingByDate
         (Resolved (Some [Fixtures.aprilEdition]))
         (LandingPage.ValidDate Fixtures.mayFirst) Fixtures.freshPage
       = (inr tt, p')
       /\ LandingPage.epaper p' = Some Fixtures.aprilEdition
       /\ LandingPage.error p' = None
       /\ LandingPage.render p' = LandingPage.Viewer Fixtures.aprilEdition 0
       /\ LandingPage.toasts p' = [LandingPage.latestNotice].
Proof.
  assert (Hnf : @LandingPage.notFound
                  (Fixtures.missingByDate
                     (@LandingPage.ymd Fixtures.tinyCalendar Fixtures.mayFirst))
                = true)
    by reflexivity.
  split; [exact Hnf |].
  exact (proj1 (@lookup_not_found_shows_latest_or_no_edition
                  Fixtures.tinyCalendar Fixtures.missingByDate
                  (Resolved (Some [Fixtures.aprilEdition]))
                  Fixtures.mayFirst Fixtures.freshPage Hnf)
               Fixtures.aprilEdition [] Fixtures.aprilLast eq_refl eq_refl).
Defined.

(** C5 as stated fails when the backend cannot be reached for the by-date
    query while the list query works: the fallback query is sent and the
    cycle ends without an error. *)
Lemma transport_failure_still_falls_back :
  ~ @LandingPage.statedFallbackPolicy Fixtures.tinyCalendar
      Fixtures.unreachableByDate (Resolved (Some [Fixtures.aprilEdition]))
      Fixtures.mayFirst Fixtures.freshPage.
Proof.
  intros [_ Hterminal]. specialize (Hterminal eq_refl).
  vm_compute in Hterminal. discriminate.
Qed.

(** The same run, spelled out: both queries were sent, no error is set and
    the April edition is on display. *)
Example unreachable_by_date_run :
  let p' := snd (@LandingPage.loadEpaper Fixtures.tinyCalendar
                   Fixtures.unreachableByDate
                   (Resolved (Some [Fixtures.aprilEdition]))
                   (LandingPage.ValidDate Fixtures.mayFirst) Fixtures.freshPage) in
  LandingPage.sent p'
  = [LandingPage.GetByDate "2024-05-01"; LandingPage.GetLatestPublished]
  /\ LandingPage.error p' = None
  /\ LandingPage.render p' = LandingPage.Viewer Fixtures.aprilEdition 0.
Proof. vm_compute. repeat split. Qed.

(** An instance of C5 as amended, on that run. *)
Lemma fallback_after_every_undelivered_lookup_witness :
  @LandingPage.transportFailure
    (Fixtures.unreachableByDate
       (@LandingPage.ymd Fixtures.tinyCalendar Fixtures.mayFirst)) = true
  /\ LandingPage.render
       (snd (@LandingPage.loadEpaper Fixtures.tinyCalendar
               Fixtures.unreachableByDate
               (Resolved (Some [Fixtures.aprilEdition]))
               (LandingPage.ValidDate Fixtures.mayFirst) Fixtures.freshPage))
     = LandingPage.Viewer Fixtures.aprilEdition 0.
Proof.
  split; [reflexivity |].
  exact (proj1 (proj2 (proj2 (proj2
           (@fallback_after_every_undelivered_lookup
              Fixtures.tinyCalendar Fixtures.unreachableByDate
              (Resolved (Some [Fixtures.aprilEdition]))
              Fixtures.mayFirst Fixtures.freshPage))))
           eq_refl Fixtures.aprilEdition [] Fixtures.aprilLast eq_refl eq_refl).
Defined.

(* ===================================================================== *)
(** ** Drag-reorder of the existing images *)
(* ===================================================================== *)

Section Reorder.

Import EpaperApi EpaperForm.

Variable id : option string.
Variable reorderBackend : string -> list string -> Outcome (list EpaperImage).

Lemma findIndex_first {A} (p : A -> bool) (l : list A) (i : nat) (x : A) :
  l !! i = Some x -> p x = true ->
  (forall k y, k < i -> l !! k = Some y -> p y = false) ->
  findIndex p l = Z.of_nat i.
Proof.
  revert i. induction l as [| x0 l IH]; intros i Hi Hp Hbefore.
  - discriminate.
  - destruct i as [| i'].
    + simpl in Hi. injection Hi as ->. simpl. rewrite Hp. reflexivity.
    + simpl. rewrite (Hbefore 0 x0) by (simpl; auto; lia).
      rewrite (IH i' Hi Hp).
      * destruct (Z.eqb_spec (Z.of_nat i') (-1)); lia.
      * intros k y Hk Hy. apply (Hbefore (S k) y); [lia | exact Hy].
Qed.

Lemma hasId_true (x : string) (img : EpaperImage) :
  hasId x img = true <-> img_id img = Some x.
Proof.
  unfold hasId. destruct (img_id img) as [i |]; [| split; discriminate].
  rewrite String.eqb_eq. split; congruence.
Qed.

(** With distinct ids, [findIndex] on an id returns the position of the
    image that carries it. *)
Lemma findIndex_of_id (images : list EpaperImage) (i : nat) (a : EpaperImage)
    (ida : string) :
  NoDup (img_id <$> images) ->
  images !! i = Some a -> img_id a = Some ida ->
  findIndex (hasId ida) images = Z.of_nat i.
Proof.
  intros Hnd Hi Hid. apply (findIndex_first _ _ _ a Hi).
  - now apply hasId_true.
  - intros k y Hk Hy. destruct (hasId ida y) eqn:E; [| reflexivity].
    apply hasId_true in E.
    assert (k = i); [| lia].
    apply (NoDup_lookup (img_id <$> images) k i (Some ida) Hnd);
      rewrite list_lookup_fmap.
    + rewrite Hy. simpl. now f_equal.
    + rewrite Hi. simpl. now f_equal.
Qed.

Lemma spliceStart_in_range (len i : nat) :
  i <= len -> spliceStart len (Z.of_nat i) = i.
Proof.
  intros Hle. unfold spliceStart.
  destruct (Z.ltb_spec (Z.of_nat i) 0); lia.
Qed.

Lemma splice_take_out {A} (l : list A) (i : nat) (x : A) :
  l !! i = Some x -> splice l (Z.of_nat i) 1 [] = ([x], delete i l).
Proof.
  intros Hi. unfold splice.
  rewrite spliceStart_in_range by (apply lookup_lt_Some in Hi; lia).
  rewrite (drop_S l x i Hi). simpl. rewrite take_0.
  rewrite delete_take_drop. replace (i + 1) with (S i) by lia. reflexivity.
Qed.

Lemma splice_put_in {A} (l : list A) (j : nat) (x : A) :
  j <= length l ->
  splice l (Z.of_nat j) 0 [x] = ([], (take j l ++ x :: drop j l)%list).
Proof.
  intros Hj. unfold splice. rewrite spliceStart_in_range by exact Hj.
  rewrite take_0. replace (j + 0) with j by lia. reflexivity.
Qed.

(** Inside the array, [arrayMove] takes the element out and puts it back
    at the target position. *)
Lemma arrayMove_moved {A} (undef : A) (l : list A) (i j : nat) :
  i < length l -> j < length l ->
  arrayMove undef l (Z.of_nat i) (Z.of_nat j) = moved l i j.
Proof.
  intros Hi Hj. destruct (lookup_lt_is_Some_2 l i Hi) as [x Hx].
  unfold arrayMove, moved. rewrite Hx.
  destruct (Z.ltb_spec (Z.of_nat j) 0); [lia |].
  rewrite (splice_take_out l i x Hx). cbv beta iota zeta.
  change (nth 0 [x] undef) with x.
  rewrite splice_put_in; [reflexivity |].
  rewrite length_delete by eauto. lia.
Qed.

Lemma moved_length {A} (l : list A) (i j : nat) :
  length (moved l i j) = length l.
Proof.
  unfold moved. destruct (l !! i) as [x |] eqn:Hx; [| reflexivity].
  rewrite length_app, length_take. simpl.
  rewrite length_drop, length_delete by eauto.
  apply lookup_lt_Some in Hx. lia.
Qed.

Lemma moved_lands {A} (l : list A) (i j : nat) (x : A) :
  l !! i = Some x -> j < length l -> moved l i j !! j = Some x.
Proof.
  intros Hx Hj. unfold moved. rewrite Hx.
  apply list_lookup_middle. rewrite length_take, length_delete by eauto.
  lia.
Qed.

Lemma moved_Permutation {A} (l : list A) (i j : nat) : moved l i j ≡ₚ l.
Proof.
  unfold moved. destruct (l !! i) as [x |] eqn:Hx; [| reflexivity].
  rewrite <- Permutation_middle, take_drop.
  symmetry. now apply delete_Permutation.
Qed.

(** Renumbering writes 1..N in array order and touches nothing else. *)
Lemma renumber_pages (l : list EpaperImage) :
  pageNumber <$> renumber l = seqZ 1 (Z.of_nat (length l)).
Proof.
  apply list_eq. intros k. unfold renumber.
  rewrite list_lookup_fmap, list_lookup_imap.
  destruct (l !! k) as [img |] eqn:Hk; simpl.
  - symmetry. apply lookup_seqZ. apply lookup_lt_Some in Hk. lia.
  - symmetry. apply lookup_seqZ_ge. apply lookup_ge_None in Hk. lia.
Qed.

Lemma renumber_ids (l : list EpaperImage) :
  img_id <$> renumber l = img_id <$> l.
Proof.
  apply list_eq. intros k. unfold renumber.
  rewrite !list_lookup_fmap, list_lookup_imap.
  destruct (l !! k); reflexivity.
Qed.

(** What the handler leaves in [existingImages] on a drop onto another
    id. *)
Lemma handleDragEnd_images (f : Form) (activeId overId : string) :
  activeId <> overId ->
  fst (handleDragEnd id reorderBackend (mkDragEnd activeId (Some overId)) f)
  = inr tt
  /\ existingImages
       (snd (handleDragEnd id reorderBackend
               (mkDragEnd activeId (Some overId)) f))
     = renumber (arrayMove noImage (existingImages f)
                           (findIndex (hasId activeId) (existingImages f))
                           (findIndex (hasId overId) (existingImages f))).
Proof.
  intros Hne. unfold handleDragEnd. simpl.
  destruct (String.eqb_spec activeId overId) as [E | _]; [contradiction |].
  simpl. unfold bind, gets, setExistingImages, modify, ret. simpl.
  destruct id as [epaperId |]; [| split; reflexivity].
  destruct (truthy_str epaperId); [| split; reflexivity].
  unfold try_catch, awaitReorder, showToast, bind, modify, lift,
    reorderEpaperImages, guarded. simpl.
  destruct (reorderBackend _ _); split; reflexivity.
Qed.

(** A drop onto the dragged image itself, or outside every image, leaves
    the form as it is. *)
Lemma handleDragEnd_in_place (f : Form) (activeId : string) :
  handleDragEnd id reorderBackend (mkDragEnd activeId (Some activeId)) f
  = (inr tt, f)
  /\ handleDragEnd id reorderBackend (mkDragEnd activeId None) f
     = (inr tt, f).
Proof.
  unfold handleDragEnd. simpl. rewrite String.eqb_refl. split; reflexivity.
Qed.

(** C8, amended.  The existing images have distinct ids and the image at
    position [i] is dropped onto the image at a different position [j].
    The handler returns normally; the list becomes the renumbered
    [arrayMove] of the old one, which is the old list with image [i] taken
    out and put back at position [j]; the page numbers are exactly 1..N in
    array order; the dragged image sits at position [j] with page [j + 1];
    and the ids are those of the old list, rearranged.  Dropping the
    image onto itself, or outside every image, leaves the form as it
    was. *)
Theorem drag_onto_other_image_reorders_and_renumbers (f : Form) (i j : nat)
    (a b : EpaperImage) (ida idb : string) :
  NoDup (img_id <$> existingImages f) ->
  existingImages f !! i = Some a ->
  existingImages f !! j = Some b ->
  img_id a = Some ida ->
  img_id b = Some idb ->
  i <> j ->
  fst (handleDragEnd id reorderBackend (mkDragEnd ida (Some idb)) f) = inr tt
  /\ existingImages
       (snd (handleDragEnd id reorderBackend (mkDragEnd ida (Some idb)) f))
     = renumber (arrayMove noImage (existingImages f)
                           (Z.of_nat i) (Z.of_nat j))
  /\ arrayMove noImage (existingImages f) (Z.of_nat i) (Z.of_nat j)
     = moved (existingImages f) i j
  /\ pageNumber <$> existingImages
       (snd (handleDragEnd id reorderBackend (mkDragEnd ida (Some idb)) f))
     = seqZ 1 (Z.of_nat (length (existingImages f)))
  /\ existingImages
       (snd (handleDragEnd id reorderBackend (mkDragEnd ida (Some idb)) f))
       !! j
     = Some (withPageNumber a (Z.of_nat j + 1))
  /\ img_id <$> existingImages
       (snd (handleDragEnd id reorderBackend (mkDragEnd ida (Some idb)) f))
     ≡ₚ img_id <$> existingImages f
  /\ handleDragEnd id reorderBackend (mkDragEnd ida (Some ida)) f
     = (inr tt, f)
  /\ handleDragEnd id reorderBackend (mkDragEnd ida None) f = (inr tt, f).
Proof.
  intros Hnd Hi Hj Ha Hb Hij.
  assert (Hne : ida <> idb).
  { intros ->. apply Hij.
    apply (NoDup_lookup (img_id <$> existingImages f) i j (Some idb) Hnd);
      rewrite list_lookup_fmap.
    - rewrite Hi. simpl. now f_equal.
    - rewrite Hj. simpl. now f_equal. }
  destruct (handleDragEnd_images f ida idb Hne) as [Hret Himgs].
  rewrite (findIndex_of_id _ i a ida Hnd Hi Ha) in Himgs.
  rewrite (findIndex_of_id _ j b idb Hnd Hj Hb) in Himgs.
  assert (Hmv : arrayMove noImage (existingImages f) (Z.of_nat i) (Z.of_nat j)
                = moved (existingImages f) i j).
  { apply arrayMove_moved; eapply lookup_lt_Some; eauto. }
  rewrite Himgs, Hmv.
  split; [exact Hret |]. split; [reflexivity |]. split; [reflexivity |].
  split; [| split; [| split; [| split]]].
  - rewrite renumber_pages, moved_length. reflexivity.
  - unfold renumber. rewrite list_lookup_imap.
    rewrite (moved_lands _ i j a Hi) by (eapply lookup_lt_Some; eauto).
    reflexivity.
  - rewrite renumber_ids. apply fmap_Permutation, moved_Permutation.
  - apply handleDragEnd_in_place.
  - apply handleDragEnd_in_place.
Qed.

End Reorder.

(** The spec's example: in [A(page 1), B(page 2), C(page 3)], C is dropped
    onto A. *)
Example drag_C_before_A :
  EpaperForm.existingImages
    (snd (EpaperForm.handleDragEnd (Some "ep-1") Fixtures.reorderAccepted
            (EpaperForm.mkDragEnd "C" (Some "A")) Fixtures.formABC))
  = [ EpaperForm.withPageNumber Fixtures.imageC 1;
      EpaperForm.withPageNumber Fixtures.imageA 2;
      EpaperForm.withPageNumber Fixtures.imageB 3 ]
  /\ EpaperForm.reorders
       (snd (EpaperForm.handleDragEnd (Some "ep-1") Fixtures.reorderAccepted
               (EpaperForm.mkDragEnd "C" (Some "A")) Fixtures.formABC))
     = [("ep-1", ["C"; "A"; "B"])].
Proof. vm_compute. split; reflexivity. Qed.

(** An instance of C8 as amended: the same drag, through the theorem. *)
Lemma drag_onto_other_image_reorders_and_renumbers_witness :
  NoDup (EpaperApi.img_id <$> EpaperForm.existingImages Fixtures.formABC)
  /\ EpaperApi.pageNumber <$> EpaperForm.existingImages
       (snd (EpaperForm.handleDragEnd (Some "ep-1") Fixtures.reorderAccepted
               (EpaperForm.mkDragEnd "C" (Some "A")) Fixtures.formABC))
     = seqZ 1 3
  /\ EpaperForm.existingImages
       (snd (EpaperForm.handleDragEnd (Some "ep-1") Fixtures.reorderAccepted
               (EpaperForm.mkDragEnd "C" (Some "A")) Fixtures.formABC))
       !! 0
     = Some (EpaperForm.withPageNumber Fixtures.imageC 1).
Proof.
  assert (Hnd : NoDup (EpaperApi.img_id
                         <$> EpaperForm.existingImages Fixtures.formABC)).
  { simpl.
    repeat (apply NoDup_cons_2;
            [ intros Hin;
              repeat (apply elem_of_cons in Hin;
                      destruct Hin as [Heq | Hin]; [discriminate Heq |]);
              inversion Hin | ]).
    apply NoDup_nil_2. }
  assert (Hne : 2 <> 0) by discriminate.
  pose proof (drag_onto_other_image_reorders_and_renumbers
                (Some "ep-1") Fixtures.reorderAccepted Fixtures.formABC 2 0
                Fixtures.imageC Fixtures.imageA "C" "A"
                Hnd eq_refl eq_refl eq_refl eq_refl Hne)
    as (_ & _ & _ & Hpages & Hland & _).
  split; [exact Hnd | split; [exact Hpages | exact Hland]].
Defined.

(** C8 as stated fails on a drop in place.  After image A is deleted from
    [A(page 1), B(page 2)] the form holds [B(page 2)]; dragging B and
    dropping it where it was leaves that list, page 2 included, while the
    stated rule asks for page 1. *)
Lemma drop_in_place_keeps_page_numbers :
  ~ EpaperForm.statedReorder (Some "ep-1") Fixtures.reorderAccepted
      Fixtures.formAfterDelete 0 0.
Proof.
  intros Hstated.
  destruct (Hstated Fixtures.imageB Fixtures.imageB "B" "B"
                    eq_refl eq_refl eq_refl eq_refl) as [_ Hpages].
  vm_compute in Hpages. discriminate.
Qed.

(* ===================================================================== *)
(** ** Session store: how the operations compose *)
(* ===================================================================== *)

Section SessionComposition.
Context `{Runtime}.

Ltac run_session :=
  unfold AuthContext.logout, AuthContext.mount, AuthContext.initialToken,
    AuthContext.initialUser, AuthContext.rawUser, AuthContext.tokenEffect,
    AuthContext.parse, AuthApi.clearToken, AuthApi.setToken, AuthApi.getToken,
    setAuthToken, removeItem, setItem, getItem, bind, ret, throw, modify,
    gets, lift, try_catch, try_finally; simpl.

(** X1.  [setToken] and [getToken] round-trip through the durable area:
    after [setToken(t)] with a non-empty [t], [getToken] returns [t] and
    the HTTP client holds [t]; after [clearToken] on top of that,
    [getToken] returns null and the client holds nothing.  The tab-scoped
    area is not touched by either.  [setToken("")] is [clearToken]. *)
Theorem setToken_getToken_round_trip (t : string) (w : World) :
  truthy_str t = true ->
  fst (AuthApi.getToken (snd (AuthApi.setToken (Some t) w))) = inr (Some t)
  /\ httpToken (snd (AuthApi.setToken (Some t) w)) = Some t
  /\ sessionStorage (snd (AuthApi.setToken (Some t) w)) = sessionStorage w
  /\ fst (AuthApi.getToken
            (snd (AuthApi.clearToken (snd (AuthApi.setToken (Some t) w)))))
     = inr None
  /\ httpToken (snd (AuthApi.clearToken (snd (AuthApi.setToken (Some t) w))))
     = None
  /\ sessionStorage
       (snd (AuthApi.clearToken (snd (AuthApi.setToken (Some t) w))))
     = sessionStorage w
  /\ AuthApi.setToken (Some "") w = AuthApi.clearToken w.
Proof.
  intros Ht. run_session. rewrite Ht. simpl.
  rewrite lookup_insert_eq, lookup_delete_eq. repeat split.
Qed.

(** X2.  A login that throws changes nothing but [loading]: the storage
    areas, the HTTP credential, and [user] and [token] are as before, and
    [loading] is false. *)
Theorem failed_login_changes_nothing server loginValue password remember
    (w w' : World) (e : Thrown) :
  AuthContext.login server loginValue password remember w = (inl e, w') ->
  w' = with_loading false w.
Proof.
  unfold AuthContext.login, AuthApi.login.
  destruct (server _) as [res | err].
  - destruct (truthy_opt (AuthApi.resp_token res)) eqn:Htok.
    + destruct (AuthApi.resp_token res) as [t |]; [| discriminate].
      simpl in Htok. run_session. rewrite Htok. simpl.
      unfold AuthApi.TOKEN_KEY. rewrite lookup_insert_eq, Htok.
      destruct (default false remember); simpl; discriminate.
    + run_session.
      destruct (localStorage w !! AuthApi.TOKEN_KEY) as [t |]; simpl.
      * destruct (truthy_str t); simpl.
        -- destruct (default false remember); simpl; discriminate.
        -- intros [= _ <-]. reflexivity.
      * intros [= _ <-]. reflexivity.
  - destruct err; run_session; intros [= _ <-]; reflexivity.
Qed.

(** X3.  When the server accepts but its response carries no token, the
    outcome is decided by what the durable area already holds: without a
    non-empty token there, the login throws [Token missing from response];
    with one, the login returns normally and the session and the HTTP
    client take that older token. *)
Theorem tokenless_response_falls_back_on_stored_token server loginValue
    password remember (w : World) (res : AuthApi.AuthResponse) :
  server (AuthApi.mkLoginPayload loginValue password) = Resolved res ->
  truthy_opt (AuthApi.resp_token res) = false ->
  (truthy_opt (localStorage w !! AuthApi.TOKEN_KEY) = false ->
     fst (AuthContext.login server loginValue password remember w)
     = inl (ErrorObj "Token missing from response"))
  /\ (forall t,
        localStorage w !! AuthApi.TOKEN_KEY = Some t ->
        truthy_str t = true ->
        fst (AuthContext.login server loginValue password remember w) = inr tt
        /\ token (snd (AuthContext.login server loginValue password
                                         remember w)) = Some t
        /\ httpToken (snd (AuthContext.login server loginValue password
                                             remember w)) = Some t).
Proof.
  intros Hres Htok. unfold AuthContext.login, AuthApi.login.
  rewrite Hres, Htok. run_session. split.
  - destruct (localStorage w !! AuthApi.TOKEN_KEY) as [t |]; simpl.
    + intros ->. reflexivity.
    + reflexivity.
  - intros t -> Ht. simpl. rewrite Ht.
    destruct (default false remember); simpl; auto.
Qed.

(** X4.  A remembered login survives the end of the tab.  After a login
    with [remember = true] has returned, starting the page again with only
    the durable area left brings back the same user and the same token,
    and hands the token to the HTTP client, provided [JSON.parse] reads
    back what [JSON.stringify] wrote for that user. *)
Theorem remembered_login_survives_reopen server loginValue password
    (w w1 : World) (u : User) :
  AuthContext.login server loginValue password (Some true) w = (inr tt, w1) ->
  user w1 = Some u ->
  truthy_str (JSON_stringify u) = true ->
  JSON_parse (JSON_stringify u) = inr (Some u) ->
  fst (AuthContext.mount (AuthContext.reopened w1)) = inr tt
  /\ user (snd (AuthContext.mount (AuthContext.reopened w1))) = Some u
  /\ token (snd (AuthContext.mount (AuthContext.reopened w1))) = token w1
  /\ httpToken (snd (AuthContext.mount (AuthContext.reopened w1))) = token w1.
Proof.
  intros Hlogin Hu Htext Hparse.
  apply login_success_inv in Hlogin.
  destruct Hlogin
    as (res & t & _ & _ & Ht & Hu' & Htok & _ & _ & Hlt & _ & Hlu & _ & _).
  simpl in Hlu. rewrite Hu in Hu'. injection Hu' as Hu'. subst u.
  run_session. unfold AuthContext.TOKEN_KEY, AuthContext.USER_KEY in *.
  rewrite Hlt, Hlu. unfold or_opt. simpl. rewrite Ht, Htext. simpl.
  rewrite Htext, Hparse. simpl. rewrite Htok. auto.
Qed.

(** X5.  After a login without [remember] on top of storage that still
    holds a remembered user, a reload in the same tab does not bring back
    the user who logged in: [mount] reads the durable user entry first, so
    the session comes up with the older user next to the new token. *)
Theorem reload_after_unremembered_login_restores_older_user server loginValue
    password (w w1 : World) (old : string) (older : option User) :
  AuthContext.login server loginValue password (Some false) w = (inr tt, w1) ->
  localStorage w !! AuthContext.USER_KEY = Some old ->
  truthy_str old = true ->
  JSON_parse old = inr older ->
  user (snd (AuthContext.mount (AuthContext.reloaded w1))) = older
  /\ token (snd (AuthContext.mount (AuthContext.reloaded w1))) = token w1.
Proof.
  intros Hlogin Hold Htext Hparse.
  apply login_success_inv in Hlogin.
  destruct Hlogin
    as (res & t & _ & _ & Ht & _ & Htok & _ & _ & Hlt & _ & _ & _ & Hkeep).
  specialize (Hkeep eq_refl). rewrite Hold in Hkeep.
  run_session. unfold AuthContext.TOKEN_KEY, AuthContext.USER_KEY in *.
  rewrite Hlt, Hkeep. unfold or_opt. simpl. rewrite Ht, Htext. simpl.
  rewrite Htext, Hparse. simpl. rewrite Htok. auto.
Qed.

(** X6.  Logging out and starting again gives a signed-out session: from
    any state, after [logout], a reload comes up with no user, no token
    and no credential in the HTTP client. *)
Theorem reload_after_logout_is_signed_out (w : World) :
  fst (AuthContext.mount (AuthContext.reloaded (snd (AuthContext.logout w))))
  = inr tt
  /\ user (snd (AuthContext.mount
                  (AuthContext.reloaded (snd (AuthContext.logout w))))) = None
  /\ token (snd (AuthContext.mount
                   (AuthContext.reloaded (snd (AuthContext.logout w))))) = None
  /\ httpToken (snd (AuthContext.mount
                       (AuthContext.reloaded (snd (AuthContext.logout w)))))
     = None.
Proof.
  run_session.
  unfold AuthApi.TOKEN_KEY, AuthContext.TOKEN_KEY, AuthContext.USER_KEY.
  repeat (rewrite lookup_delete_eq
          || rewrite lookup_delete_ne by discriminate).
  simpl. auto.
Qed.

(** X7.  The header's logout always ends on the sign-in page, and the
    session it leaves cannot pass any route guard: once the session is not
    loading, every [ProtectedRoute], whatever its [roles] and [redirectTo],
    navigates to [/signin]. *)
Theorem handleLogout_leaves_no_way_in {C : Type} (children : C)
    (roles : option (list string)) (redirectTo : option string) (w : World) :
  loading w = false ->
  fst (AppHeader.handleLogout w) = inr "/signin"
  /\ ProtectedRoute.ProtectedRoute children roles redirectTo
       (snd (AppHeader.handleLogout w))
     = ProtectedRoute.Navigate "/signin".
Proof.
  intros Hl. unfold AppHeader.handleLogout, ProtectedRoute.ProtectedRoute.
  run_session. rewrite Hl. auto.
Qed.

(** X8.  Who gets into the admin area after a login.  When a login has
    returned, the admin guard renders the layout exactly when the role of
    the response, with [Staff] standing in for a missing or empty role, is
    one of SuperAdmin, Admin and Staff, and navigates to [/] otherwise.  In
    particular a user record without a role is let in. *)
Theorem login_then_admin_guard {C : Type} (layout : C) server loginValue
    password remember (w w1 : World) :
  AuthContext.login server loginValue password remember w = (inr tt, w1) ->
  exists res,
    server (AuthApi.mkLoginPayload loginValue password) = Resolved res
    /\ ProtectedRoute.adminGuard layout w1
       = (if bool_decide (or_str (api_role (AuthApi.resp_user res)) "Staff"
                          ∈ ["SuperAdmin"; "Admin"; "Staff"])
          then ProtectedRoute.Children layout
          else ProtectedRoute.Navigate "/")
    /\ (truthy_opt (api_role (AuthApi.resp_user res)) = false ->
        ProtectedRoute.adminGuard layout w1 = ProtectedRoute.Children layout).
Proof.
  intros Hlogin. apply login_success_inv in Hlogin.
  destruct Hlogin as (res & t & Hres & _ & _ & Hu & _ & _ & Hl & _).
  exists res. split; [exact Hres |].
  rewrite (adminGuard_admits layout w1 _ Hl Hu). simpl. split; [reflexivity |].
  intros Hnone. unfold or_str.
  destruct (api_role (AuthApi.resp_user res)) as [r |]; simpl in Hnone.
  - rewrite Hnone. reflexivity.
  - reflexivity.
Qed.

(** X9.  The redirect after sign-in and the admin guard agree.  For a
    settled session with a user, [AuthRedirect] navigates to
    [/admin-dashboard] exactly when the admin guard renders the layout
    there; for every other role it navigates to [/], which is also where
    the guard sends that user. *)
Theorem AuthRedirect_agrees_with_admin_guard {C : Type} (layout : C)
    (w : World) (u : User) :
  loading w = false ->
  user w = Some u ->
  (AuthRedirect.AuthRedirect w = Some "/admin-dashboard"
   /\ ProtectedRoute.adminGuard layout w = ProtectedRoute.Children layout)
  \/ (AuthRedirect.AuthRedirect w = Some "/"
      /\ ProtectedRoute.adminGuard layout w = ProtectedRoute.Navigate "/").
Proof.
  intros Hl Hu. rewrite (adminGuard_admits layout w u Hl Hu).
  unfold AuthRedirect.AuthRedirect. rewrite Hu.
  destruct (String.eqb_spec (role u) "Staff") as [-> | Hs]; [left; auto |].
  destruct (String.eqb_spec (role u) "Admin") as [-> | Ha]; [left; auto |].
  destruct (String.eqb_spec (role u) "SuperAdmin") as [-> | Hsa];
    [left; auto |].
  right. split; [reflexivity |].
  rewrite bool_decide_eq_false_2; [reflexivity |].
  intros Hin. apply includes_elem_of in Hin. simpl in Hin.
  destruct (String.eqb_spec (role u) "SuperAdmin"); [contradiction |].
  destruct (String.eqb_spec (role u) "Admin"); [contradiction |].
  destruct (String.eqb_spec (role u) "Staff"); [contradiction |].
  discriminate.
Qed.

End SessionComposition.

(** An instance of X1: token [tok] on empty storage. *)
Lemma setToken_getToken_round_trip_witness :
  truthy_str "tok" = true
  /\ fst (AuthApi.getToken
            (snd (AuthApi.setToken (Some "tok") Fixtures.emptyWorld)))
     = inr (Some "tok")
  /\ fst (AuthApi.getToken
            (snd (AuthApi.clearToken
                    (snd (AuthApi.setToken (Some "tok")
                                           Fixtures.emptyWorld)))))
     = inr None.
Proof.
  pose proof (setToken_getToken_round_trip "tok" Fixtures.emptyWorld eq_refl)
    as (Hget & _ & _ & Hclear & _).
  split; [reflexivity | split; [exact Hget | exact Hclear]].
Defined.

(** An instance of X2: the server answers 401. *)
Lemma failed_login_changes_nothing_witness :
  fst (@AuthContext.login Fixtures.tinyRuntime Fixtures.rejectingServer
         "ann" "wrong" None Fixtures.emptyWorld)
  = inl (ErrorObj "Invalid credentials")
  /\ snd (@AuthContext.login Fixtures.tinyRuntime Fixtures.rejectingServer
            "ann" "wrong" None Fixtures.emptyWorld)
     = with_loading false Fixtures.emptyWorld.
Proof.
  split; [reflexivity |].
  exact (@failed_login_changes_nothing Fixtures.tinyRuntime
           Fixtures.rejectingServer "ann" "wrong" None Fixtures.emptyWorld
           (snd (@AuthContext.login Fixtures.tinyRuntime
                   Fixtures.rejectingServer "ann" "wrong" None
                   Fixtures.emptyWorld))
           (ErrorObj "Invalid credentials") eq_refl).
Defined.

(** An instance of X3: the response has no token and the durable area
    still holds the token [old] of an earlier session. *)
Lemma tokenless_response_falls_back_on_stored_token_witness :
  Fixtures.tokenlessServer (AuthApi.mkLoginPayload "ann" "secret")
  = Resolved (AuthApi.mkAuthResponse None Fixtures.ann)
  /\ localStorage Fixtures.samRememberedWorld !! AuthApi.TOKEN_KEY
     = Some "old"
  /\ fst (@AuthContext.login Fixtures.tinyRuntime Fixtures.tokenlessServer
            "ann" "secret" None Fixtures.samRememberedWorld) = inr tt
  /\ token (snd (@AuthContext.login Fixtures.tinyRuntime
                   Fixtures.tokenlessServer "ann" "secret" None
                   Fixtures.samRememberedWorld)) = Some "old".
Proof.
  assert (Hold : localStorage Fixtures.samRememberedWorld !! AuthApi.TOKEN_KEY
                 = Some "old")
    by (vm_compute; reflexivity).
  pose proof (proj2 (@tokenless_response_falls_back_on_stored_token
                       Fixtures.tinyRuntime Fixtures.tokenlessServer
                       "ann" "secret" None Fixtures.samRememberedWorld
                       (AuthApi.mkAuthResponse None Fixtures.ann)
                       eq_refl eq_refl)
                    "old" Hold eq_refl)
    as (Hret & Htok & _).
  split; [reflexivity | split; [exact Hold | split; [exact Hret | exact Htok]]].
Defined.

(** An instance of X4: Ann logs in with [remember = true] on empty
    storage; the page is opened again later. *)
Lemma remembered_login_survives_reopen_witness :
  fst (@AuthContext.login Fixtures.annRuntime Fixtures.acceptingServer
         "ann" "secret" (Some true) Fixtures.emptyWorld) = inr tt
  /\ user (snd (@AuthContext.mount Fixtures.annRuntime
                  (AuthContext.reopened
                     (snd (@AuthContext.login Fixtures.annRuntime
                             Fixtures.acceptingServer "ann" "secret"
                             (Some true) Fixtures.emptyWorld)))))
     = Some (AuthContext.normalize Fixtures.ann)
  /\ token (snd (@AuthContext.mount Fixtures.annRuntime
                   (AuthContext.reopened
                      (snd (@AuthContext.login Fixtures.annRuntime
                              Fixtures.acceptingServer "ann" "secret"
                              (Some true) Fixtures.emptyWorld)))))
     = Some "tok".
Proof.
  pose proof (@remembered_login_survives_reopen Fixtures.annRuntime
                Fixtures.acceptingServer "ann" "secret" Fixtures.emptyWorld
                (snd (@AuthContext.login Fixtures.annRuntime
                        Fixtures.acceptingServer "ann" "secret" (Some true)
                        Fixtures.emptyWorld))
                (AuthContext.normalize Fixtures.ann)
                eq_refl eq_refl eq_refl eq_refl)
    as (_ & Huser & Htoken & _).
  split; [reflexivity | split; [exact Huser | exact Htoken]].
Defined.

(** An instance of X5: Sam's remembered session is still in the durable
    area when Ann logs in without [remember]; after a reload the session
    shows Sam with Ann's token. *)
Lemma reload_after_unremembered_login_restores_older_user_witness :
  fst (@AuthContext.login Fixtures.annRuntime Fixtures.acceptingServer
         "ann" "secret" (Some false) Fixtures.samRememberedWorld) = inr tt
  /\ user (snd (@AuthContext.login Fixtures.annRuntime
                  Fixtures.acceptingServer "ann" "secret" (Some false)
                  Fixtures.samRememberedWorld))
     = Some (AuthContext.normalize Fixtures.ann)
  /\ user (snd (@AuthContext.mount Fixtures.annRuntime
                  (AuthContext.reloaded
                     (snd (@AuthContext.login Fixtures.annRuntime
                             Fixtures.acceptingServer "ann" "secret"
                             (Some false) Fixtures.samRememberedWorld)))))
     = Some (mkUser "u0" "u0" "Sam" "sam@example.org" "sam" "Staff" None None)
  /\ token (snd (@AuthContext.mount Fixtures.annRuntime
                   (AuthContext.reloaded
                      (snd (@AuthContext.login Fixtures.annRuntime
                              Fixtures.acceptingServer "ann" "secret"
                              (Some false) Fixtures.samRememberedWorld)))))
     = Some "tok".
Proof.
  assert (Hold : localStorage Fixtures.samRememberedWorld
                   !! AuthContext.USER_KEY = Some "{role:Staff}")
    by (vm_compute; reflexivity).
  pose proof (@reload_after_unremembered_login_restores_older_user
                Fixtures.annRuntime Fixtures.acceptingServer "ann" "secret"
                Fixtures.samRememberedWorld
                (snd (@AuthContext.login Fixtures.annRuntime
                        Fixtures.acceptingServer "ann" "secret" (Some false)
                        Fixtures.samRememberedWorld))
                "{role:Staff}"
                (Some (mkUser "u0" "u0" "Sam" "sam@example.org" "sam" "Staff"
                              None None))
                eq_refl Hold eq_refl eq_refl)
    as (Huser & Htoken).
  split; [reflexivity | split; [reflexivity | split; [exact Huser |]]].
  exact Htoken.
Defined.

(** An instance of X7: the Staff session logs out, then meets the admin
    guard. *)
Lemma handleLogout_leaves_no_way_in_witness :
  loading Fixtures.staffWorld = false
  /\ ProtectedRoute.adminGuard tt (snd (AppHeader.handleLogout
                                          Fixtures.staffWorld))
     = ProtectedRoute.Navigate "/signin".
Proof.
  split; [reflexivity |].
  exact (proj2 (handleLogout_leaves_no_way_in tt
                  (Some ["SuperAdmin"; "Admin"; "Staff"]) None
                  Fixtures.staffWorld eq_refl)).
Defined.

(** An instance of X8: the user record of the response has no role. *)
Lemma login_then_admin_guard_witness :
  fst (@AuthContext.login Fixtures.tinyRuntime Fixtures.rolelessServer
         "bo" "secret" None Fixtures.emptyWorld) = inr tt
  /\ exists res,
       Fixtures.rolelessServer (AuthApi.mkLoginPayload "bo" "secret")
       = Resolved res
       /\ ProtectedRoute.adminGuard tt
            (snd (@AuthContext.login Fixtures.tinyRuntime
                    Fixtures.rolelessServer "bo" "secret" None
                    Fixtures.emptyWorld))
          = (if bool_decide (or_str (api_role (AuthApi.resp_user res)) "Staff"
                             ∈ ["SuperAdmin"; "Admin"; "Staff"])
             then ProtectedRoute.Children tt
             else ProtectedRoute.Navigate "/")
       /\ (truthy_opt (api_role (AuthApi.resp_user res)) = false ->
           ProtectedRoute.adminGuard tt
             (snd (@AuthContext.login Fixtures.tinyRuntime
                     Fixtures.rolelessServer "bo" "secret" None
                     Fixtures.emptyWorld))
           = ProtectedRoute.Children tt).
Proof.
  split; [reflexivity |].
  exact (@login_then_admin_guard Fixtures.tinyRuntime unit tt
           Fixtures.rolelessServer "bo" "secret" None Fixtures.emptyWorld
           (snd (@AuthContext.login Fixtures.tinyRuntime
                   Fixtures.rolelessServer "bo" "secret" None
                   Fixtures.emptyWorld))
           eq_refl).
Defined.

(** An instance of X9: the Staff session. *)
Lemma AuthRedirect_agrees_with_admin_guard_witness :
  loading Fixtures.staffWorld = false
  /\ user Fixtures.staffWorld = Some (Fixtures.userWithRole "Staff")
  /\ ((AuthRedirect.AuthRedirect Fixtures.staffWorld = Some "/admin-dashboard"
       /\ ProtectedRoute.adminGuard tt Fixtures.staffWorld
          = ProtectedRoute.Children tt)
      \/ (AuthRedirect.AuthRedirect Fixtures.staffWorld = Some "/"
          /\ ProtectedRoute.adminGuard tt Fixtures.staffWorld
             = ProtectedRoute.Navigate "/")).
Proof.
  split; [reflexivity | split; [reflexivity |]].
  exact (AuthRedirect_agrees_with_admin_guard tt Fixtures.staffWorld
           (Fixtures.userWithRole "Staff") eq_refl eq_refl).
Defined.

(* ===================================================================== *)
(** ** Sidebar: the rendered menu and the open submenu *)
(* ===================================================================== *)

Section Sidebar.

Import AppSidebar.

Variable currentUser : option User.




Lemma visitSubItem_fold (pathname : string) (items : list NavItem)
    (index : nat) (nav : NavItem) (subs : list SubItem) :
  items !! index = Some nav ->
  forall (seen rest : list SubItem) (vars : EffectVars),
    subs = (seen ++ rest)%list ->
    (snd vars = true ->
     forall i, fst vars = Some i -> opensAccessibleMatch currentUser pathname items i) ->
    subItems nav = Some subs ->
    let vars' := fold_left (visitSubItem currentUser pathname index nav)
                           rest vars in
    snd vars' = true ->
    forall i, fst vars' = Some i -> opensAccessibleMatch currentUser pathname items i.
Proof.
  intros Hnav seen rest. revert seen.
  induction rest as [| sub rest IH]; intros seen vars Hsplit Hvars Hsubs;
    [exact Hvars |].
  simpl. apply (IH (seen ++ [sub])%list).
  - rewrite <- app_assoc. exact Hsplit.
  - unfold visitSubItem, isActive.
    destruct (String.eqb_spec pathname (sub_path sub)) as [Hpath | _];
      [| exact Hvars].
    destruct (hasAccess currentUser (allowedRoles nav)) eqn:Hacc;
      [| exact Hvars].
    destruct (hasAccess currentUser (sub_allowedRoles sub)) eqn:Hsub;
      [| exact Hvars].
    simpl. intros _ i [= <-].
    exists nav, subs, sub. repeat split; auto.
    rewrite Hsplit. apply elem_of_app. right. apply list_elem_of_here.
  - exact Hsubs.
Qed.

Lemma visitNavItem_fold (pathname : string) (items : list NavItem)
    (entries : list (nat * NavItem)) :
  Forall (fun entry => items !! fst entry = Some (snd entry)) entries ->
  forall vars : EffectVars,
    (snd vars = true ->
     forall i, fst vars = Some i -> opensAccessibleMatch currentUser pathname items i) ->
    let vars' := fold_left (visitNavItem currentUser pathname) entries vars in
    snd vars' = true ->
    forall i, fst vars' = Some i -> opensAccessibleMatch currentUser pathname items i.
Proof.
  induction 1 as [| [index nav] entries Hentry _ IH]; intros vars Hvars;
    [exact Hvars |].
  simpl. apply IH. simpl in Hentry.
  destruct (subItems nav) as [subs |] eqn:Hsubs.
  - apply (visitSubItem_fold pathname items index nav subs Hentry [] subs);
      auto.
  - destruct (nav_path nav) as [p |]; [| exact Hvars].
    destruct (truthy_str p && isActive pathname p); [| exact Hvars].
    destruct (hasAccess currentUser (allowedRoles nav)); [| exact Hvars].
    simpl. intros _ i Hi. discriminate.
Qed.

Lemma indexed_items_lookup (items : list NavItem) :
  Forall (fun entry => items !! fst entry = Some (snd entry))
         (imap (fun index nav => (index, nav)) items).
Proof.
  apply Forall_forall. intros [index nav] Hin.
  apply list_elem_of_lookup in Hin as [k Hk].
  rewrite list_lookup_imap in Hk.
  destruct (items !! k) as [nav' |] eqn:Hit; simpl in Hk; [| discriminate].
  injection Hk as <- <-. exact Hit.
Qed.

(** The item the route effect leaves open is accessible. *)
Lemma routeEffect_open_item (pathname : string) (items : list NavItem)
    (previous : option nat) (i : nat) :
  routeEffect currentUser pathname items previous = Some i ->
  exists nav,
    items !! i = Some nav /\ hasAccess currentUser (allowedRoles nav) = true.
Proof.
  unfold routeEffect. intros Hopen.
  pose proof (visitNavItem_fold pathname items _ (indexed_items_lookup items)
                (previous, false)) as Hfold.
  simpl in Hfold.
  destruct (fold_left _ _ _) as [opened matched]. simpl in *.
  destruct matched; simpl in Hopen; [| discriminate].
  destruct (Hfold ltac:(discriminate) eq_refl i Hopen)
    as (nav & subs & sub & Hnav & _ & _ & _ & Hacc & _).
  eauto.
Qed.

(** X11.  The route effect opens a submenu only for a route the user may
    reach: if it leaves submenu [i] open, then item [i] is accessible and
    has an accessible sub-item whose path is the current route. *)
Theorem routeEffect_opens_only_accessible_match (pathname : string)
    (items : list NavItem) (previous : option nat) (i : nat) :
  routeEffect currentUser pathname items previous = Some i ->
  opensAccessibleMatch currentUser pathname items i.
Proof.
  unfold routeEffect. intros Hopen.
  pose proof (visitNavItem_fold pathname items _ (indexed_items_lookup items)
                (previous, false)) as Hfold.
  simpl in Hfold.
  destruct (fold_left _ _ _) as [opened matched]. simpl in *.
  destruct matched; simpl in Hopen; [| discriminate].
  apply Hfold; auto. intros Habs. discriminate.
Qed.

Lemma visitSubItem_forgets (pathname : string) (index : nat) (nav : NavItem)
    (subs : list SubItem) (a b : EffectVars) :
  snd a = snd b -> (snd a = true -> fst a = fst b) ->
  snd (fold_left (visitSubItem currentUser pathname index nav) subs a)
  = snd (fold_left (visitSubItem currentUser pathname index nav) subs b)
  /\ (snd (fold_left (visitSubItem currentUser pathname index nav) subs a)
      = true ->
      fst (fold_left (visitSubItem currentUser pathname index nav) subs a)
      = fst (fold_left (visitSubItem currentUser pathname index nav) subs b)).
Proof.
  revert a b. induction subs as [| sub subs IH]; intros a b Hs Hf;
    [split; assumption |].
  simpl. apply IH; unfold visitSubItem;
    destruct (isActive pathname (sub_path sub)); auto;
    destruct (hasAccess currentUser (allowedRoles nav)
              && hasAccess currentUser (sub_allowedRoles sub)); auto.
Qed.

Lemma visitNavItem_forgets (pathname : string)
    (entries : list (nat * NavItem)) (a b : EffectVars) :
  snd a = snd b -> (snd a = true -> fst a = fst b) ->
  snd (fold_left (visitNavItem currentUser pathname) entries a)
  = snd (fold_left (visitNavItem currentUser pathname) entries b)
  /\ (snd (fold_left (visitNavItem currentUser pathname) entries a) = true ->
      fst (fold_left (visitNavItem currentUser pathname) entries a)
      = fst (fold_left (visitNavItem currentUser pathname) entries b)).
Proof.
  revert a b. induction entries as [| [index nav] entries IH];
    intros a b Hs Hf; [split; assumption |].
  simpl.
  destruct (subItems nav) as [subs |].
  - destruct (visitSubItem_forgets pathname index nav subs a b Hs Hf).
    apply IH; assumption.
  - destruct (nav_path nav) as [p |]; [| apply IH; assumption].
    destruct (truthy_str p && isActive pathname p); [| apply IH; assumption].
    destruct (hasAccess currentUser (allowedRoles nav));
      [| apply IH; assumption].
    apply IH; auto.
Qed.

(** X12.  The route effect forgets what was open.  Its result is the same
    from every previous value of [openSubmenu]; so a submenu opened by hand
    does not stay open across a route change unless the new route itself
    opens it. *)
Theorem routeEffect_forgets_previous_state (pathname : string)
    (items : list NavItem) (previous : option nat) :
  routeEffect currentUser pathname items previous
  = routeEffect currentUser pathname items None.
Proof.
  unfold routeEffect.
  destruct (visitNavItem_forgets pathname
              (imap (fun index nav => (index, nav)) items)
              (previous, false) (None, false) eq_refl)
    as [Hmatched Hopened].
  { discriminate. }
  destruct (fold_left (visitNavItem currentUser pathname)
              (imap (fun index nav => (index, nav)) items) (previous, false))
    as [o1 m1].
  destruct (fold_left (visitNavItem currentUser pathname)
              (imap (fun index nav => (index, nav)) items) (None, false))
    as [o2 m2].
  simpl in *. subst m2. destruct m1; simpl; auto.
Qed.

(** X13.  Whatever routes are visited and whatever buttons are clicked,
    in any order, the open submenu, if there is one, is an item of the
    menu that the user has access to. *)
Theorem open_submenu_is_always_accessible (items : list NavItem)
    (events : list SidebarEvent) (i : nat) :
  sidebarRun currentUser items events = Some i ->
  exists nav,
    items !! i = Some nav
    /\ hasAccess currentUser (allowedRoles nav) = true.
Proof.
  unfold sidebarRun.
  assert (Hgen : forall (events : list SidebarEvent) (start : option nat),
             (forall j, start = Some j ->
                        exists nav, items !! j = Some nav
                                    /\ hasAccess currentUser (allowedRoles nav)
                                       = true) ->
             forall j, fold_left (sidebarStep currentUser items) events start
                       = Some j ->
                       exists nav, items !! j = Some nav
                                   /\ hasAccess currentUser (allowedRoles nav)
                                      = true).
  { clear events i. induction events as [| ev events IH]; intros start Hstart;
      [exact Hstart |].
    simpl. apply IH. intros j Hj. destruct ev as [pathname | index]; simpl in Hj.
    - eapply routeEffect_open_item. exact Hj.
    - unfold handleSubmenuToggle in Hj.
      destruct (items !! index) as [nav |] eqn:Hnav; [| auto].
      destruct (hasAccess currentUser (allowedRoles nav)) eqn:Hacc;
        simpl in Hj; [| auto].
      destruct (bool_decide (start = Some index)); [discriminate |].
      injection Hj as <-. eauto. }
  apply (Hgen events None). intros j Hj. discriminate.
Qed.

End Sidebar.

(** An instance of X11 and of what it rules out: on the route of the user
    list, the Admin's sidebar opens the User submenu (item 2) and the
    Staff's sidebar opens nothing. *)
Lemma routeEffect_opens_only_accessible_match_witness :
  AppSidebar.routeEffect (Some (Fixtures.userWithRole "Admin"))
    "/admin-dashboard/users/" AppSidebar.navItems None = Some 2
  /\ AppSidebar.opensAccessibleMatch (Some (Fixtures.userWithRole "Admin"))
       "/admin-dashboard/users/" AppSidebar.navItems 2
  /\ AppSidebar.routeEffect (Some (Fixtures.userWithRole "Staff"))
       "/admin-dashboard/users/" AppSidebar.navItems (Some 1) = None.
Proof.
  assert (Hrun : AppSidebar.routeEffect (Some (Fixtures.userWithRole "Admin"))
                   "/admin-dashboard/users/" AppSidebar.navItems None
                 = Some 2)
    by reflexivity.
  split; [exact Hrun | split; [| reflexivity]].
  exact (routeEffect_opens_only_accessible_match
           (Some (Fixtures.userWithRole "Admin")) "/admin-dashboard/users/"
           AppSidebar.navItems None 2 Hrun).
Defined.

(** An instance of X13: the Staff user clicks the User button (item 2),
    visits the user list, and clicks the Epaper button (item 1); only the
    last click opens something. *)
Lemma open_submenu_is_always_accessible_witness :
  AppSidebar.sidebarRun (Some (Fixtures.userWithRole "Staff"))
    AppSidebar.navItems
    [AppSidebar.ToggleClicked 2] = None
  /\ AppSidebar.sidebarRun (Some (Fixtures.userWithRole "Staff"))
       AppSidebar.navItems
       [AppSidebar.ToggleClicked 2;
        AppSidebar.RouteChanged "/admin-dashboard/users/";
        AppSidebar.ToggleClicked 1] = Some 1
  /\ exists nav,
       AppSidebar.navItems !! 1 = Some nav
       /\ AppSidebar.hasAccess (Some (Fixtures.userWithRole "Staff"))
                               (AppSidebar.allowedRoles nav) = true.
Proof.
  assert (Hrun : AppSidebar.sidebarRun (Some (Fixtures.userWithRole "Staff"))
                   AppSidebar.navItems
                   [AppSidebar.ToggleClicked 2;
                    AppSidebar.RouteChanged "/admin-dashboard/users/";
                    AppSidebar.ToggleClicked 1] = Some 1)
    by reflexivity.
  split; [reflexivity | split; [exact Hrun |]].
  exact (open_submenu_is_always_accessible
           (Some (Fixtures.userWithRole "Staff")) AppSidebar.navItems _ 1 Hrun).
Defined.

(* ===================================================================== *)
(** ** Landing page: what a load cycle can leave on display *)
(* ===================================================================== *)

Section LandingDisplay.

Import EpaperApi LandingPage.

Context `{Calendar}.
Variable byDate : string -> Outcome (option Epaper).
Variable latestPublished : Outcome (option (list Epaper)).

Ltac unfold_cycle :=
  unfold loadEpaper, attemptByDate, attemptLatest, awaitByDate, awaitLatest,
    getEpaperByDate, guarded, format, setLoading, setError, setEpaper,
    setCurrentPage, setSelectedDate, showToast, send, withLoading, render,
    bind, ret, throw, modify, gets, lift, try_catch, try_finally.

(** X14.  Whatever the backend answers and whatever the page showed
    before, an edition that is on display after a load cycle is at its
    first page, has a date that parses, and is the edition the by-date
    query returned or the first of the list the fallback query returned;
    an edition whose date does not parse is never displayed. *)
Theorem displayed_edition_is_dated_and_from_the_backend (ms : Z) (p : Page)
    (e : Epaper) (n : Z) :
  render (snd (loadEpaper byDate latestPublished (ValidDate ms) p))
  = Viewer e n ->
  n = 0%Z
  /\ (exists m, Date_of (date e) = ValidDate m)
  /\ (byDate (ymd ms) = Resolved (Some e)
      \/ exists rest, latestPublished = Resolved (Some (e :: rest))).
Proof.
  unfold_cycle. simpl.
  destruct (byDate (ymd ms)) as [[d |] | err] eqn:Hby; simpl.
  - destruct (Date_of (date d)) as [m |] eqn:Hd; simpl.
    + destruct (negb (ymd m =? ymd ms)%string); simpl;
        intros [= <- <-]; eauto 6.
    + destruct latestPublished as [[[| P rest] |] | err2]; simpl;
        try discriminate.
      destruct (Date_of (date P)) as [m |] eqn:HP; simpl; [| discriminate].
      destruct (negb (ymd m =? ymd ms)%string); simpl;
        intros [= <- <-]; eauto 6.
  - destruct latestPublished as [[[| P rest] |] | err2]; simpl;
      try discriminate.
    destruct (Date_of (date P)) as [m |] eqn:HP; simpl; [| discriminate].
    destruct (negb (ymd m =? ymd ms)%string); simpl;
      intros [= <- <-]; eauto 6.
  - destruct latestPublished as [[[| P rest] |] | err2]; simpl;
      try discriminate.
    destruct (Date_of (date P)) as [m |] eqn:HP; simpl; [| discriminate].
    destruct (negb (ymd m =? ymd ms)%string); simpl;
      intros [= <- <-]; eauto 6.
Qed.

(** X15.  [loading] is cleared at the end of every cycle that starts from
    a valid date, whatever the backend does.  On an invalid date the
    function throws before its [try] block is entered: no request is sent,
    and [loading] stays set. *)
Theorem loading_flag_after_a_cycle (p : Page) :
  (forall ms,
     fst (loadEpaper byDate latestPublished (ValidDate ms) p) = inr tt
     /\ loading (snd (loadEpaper byDate latestPublished (ValidDate ms) p))
        = false)
  /\ fst (loadEpaper byDate latestPublished InvalidDate p)
     = inl (ErrorObj "Invalid time value")
  /\ loading (snd (loadEpaper byDate latestPublished InvalidDate p)) = true
  /\ sent (snd (loadEpaper byDate latestPublished InvalidDate p)) = sent p.
Proof.
  split; [| unfold_cycle; simpl; auto].
  intros ms. unfold_cycle. simpl.
  destruct (byDate (ymd ms)) as [[d |] | err]; simpl;
    try (destruct (Date_of (date d)) as [m |]; simpl;
         [destruct (negb (ymd m =? ymd ms)%string); simpl; auto |]);
    destruct latestPublished as [[[| P rest] |] | err2]; simpl; auto;
    destruct (Date_of (date P)) as [m |]; simpl; auto;
    destruct (negb (ymd m =? ymd ms)%string); simpl; auto.
Qed.



End LandingDisplay.

(** An instance of X14: the by-date query delivers the April edition. *)
Lemma displayed_edition_is_dated_and_from_the_backend_witness :
  LandingPage.render
    (snd (@LandingPage.loadEpaper Fixtures.tinyCalendar Fixtures.aprilByDate
            (Rejected OtherThrown) (LandingPage.ValidDate Fixtures.aprilLast)
            Fixtures.freshPage))
  = LandingPage.Viewer Fixtures.aprilEdition 0
  /\ exists m,
       @LandingPage.Date_of Fixtures.tinyCalendar
         (EpaperApi.date Fixtures.aprilEdition) = LandingPage.ValidDate m.
Proof.
  assert (Hshown :
            LandingPage.render
              (snd (@LandingPage.loadEpaper Fixtures.tinyCalendar
                      Fixtures.aprilByDate (Rejected OtherThrown)
                      (LandingPage.ValidDate Fixtures.aprilLast)
                      Fixtures.freshPage))
            = LandingPage.Viewer Fixtures.aprilEdition 0)
    by reflexivity.
  split; [exact Hshown |].
  exact (proj1 (proj2 (@displayed_edition_is_dated_and_from_the_backend
                         Fixtures.tinyCalendar Fixtures.aprilByDate
                         (Rejected OtherThrown) Fixtures.aprilLast
                         Fixtures.freshPage Fixtures.aprilEdition 0 Hshown))).
Defined.


(* ===================================================================== *)
(** ** ePaper list screen *)
(* ===================================================================== *)

Section ListScreen.

Import EpaperApi EpaperList.

Variable backend : ListQuery -> Outcome PaginatedResponse.

Ltac unfold_list :=
  unfold loadEpapers, getAllEpapers, guarded, setEpapers, setError,
    setPagination, EpaperList.withLoading, EpaperList.render,
    bind, ret, throw, modify, gets, lift, try_catch, try_finally.

(** X17.  A failed listing never throws out of [loadEpapers]: the list is
    emptied, [loading] is cleared and the message produced by the client's
    error normalization is stored.  The screen then shows that message,
    unless the message is the empty string (as for an error response with
    an empty body): then [if (error)] does not fire and the screen shows
    the empty-list text instead. *)
Theorem failed_listing_display (s : ListState) (err : Thrown) :
  backend (queryOf s) = Rejected err ->
  fst (loadEpapers backend s) = inr tt
  /\ epapers (snd (loadEpapers backend s)) = []
  /\ EpaperList.loading (snd (loadEpapers backend s)) = false
  /\ EpaperList.error (snd (loadEpapers backend s))
     = Some (extractErrorMessage err)
  /\ EpaperList.render (snd (loadEpapers backend s))
     = (if truthy_str (extractErrorMessage err)
        then EpaperList.ErrorText (extractErrorMessage err)
        else NoEpapers).
Proof.
  intros Hfail. unfold queryOf in Hfail. unfold_list. simpl.
  rewrite Hfail. simpl.
  destruct (truthy_str (extractErrorMessage err)); auto.
Qed.

(** A successful listing replaces the rows and the pagination by what the
    server sent and leaves no error. *)
Lemma successful_listing_display (s : ListState) (data : PaginatedResponse) :
  backend (queryOf s) = Resolved data ->
  loadEpapers backend s
  = (inr tt, mkListState (pr_epapers data) false None (pr_pagination data)).
Proof.
  intros Hok. unfold queryOf in Hok. unfold_list. simpl.
  rewrite Hok. reflexivity.
Qed.



End ListScreen.

(** An instance of X17: the list request fails with a 500 whose body is
    empty; the screen shows the empty-list text. *)
Lemma failed_listing_display_witness :
  Fixtures.emptyBodyFailure (EpaperList.queryOf EpaperList.initial)
  = Rejected (AxiosErr (Some (mkResponse 500 (JStr "")))
                       "Request failed with status code 500")
  /\ EpaperList.error
       (snd (EpaperList.loadEpapers Fixtures.emptyBodyFailure
                                    EpaperList.initial)) = Some ""
  /\ EpaperList.render
       (snd (EpaperList.loadEpapers Fixtures.emptyBodyFailure
                                    EpaperList.initial))
     = EpaperList.NoEpapers.
Proof.
  pose proof (failed_listing_display Fixtures.emptyBodyFailure
                EpaperList.initial _ eq_refl)
    as (_ & _ & _ & Herr & Hshow).
  split; [reflexivity | split; [exact Herr | exact Hshow]].
Defined.


(* ===================================================================== *)
(** ** The multipart forms of the epaper client *)
(* ===================================================================== *)

Section Multipart.

Import EpaperApi.

Lemma getAll_app (key : string) (f g : FormData) :
  getAll key (f ++ g) = (getAll key f ++ getAll key g)%list.
Proof. unfold getAll. apply omap_app. Qed.

Lemma getAll_cons (key k : string) (v : FormValue) (f : FormData) :
  getAll key ((k, v) :: f)
  = if String.eqb k key then v :: getAll key f else getAll key f.
Proof.
  unfold getAll. cbn [omap list_omap fst snd].
  destruct (String.eqb k key); reflexivity.
Qed.

Lemma getAll_appendImages (images : option (list File)) :
  getAll "images" (appendImages images) = FilePart <$> default [] images.
Proof.
  unfold appendImages. destruct images as [l |]; [| reflexivity].
  destruct l as [| f l]; [reflexivity |]. cbn [length Nat.ltb Nat.leb default].
  induction (f :: l) as [| x xs IH]; [reflexivity |].
  simpl. now f_equal.
Qed.

Lemma getAll_appendImages_other (key : string) (images : option (list File)) :
  key <> "images" -> getAll key (appendImages images) = [].
Proof.
  intros Hkey. unfold appendImages. destruct images as [l |]; [| reflexivity].
  destruct (Nat.ltb 0 (length l)); [| reflexivity].
  induction l as [| x xs IH]; [reflexivity |].
  cbn [map]. rewrite getAll_cons.
  destruct (String.eqb_spec "images" key); [congruence | exact IH].
Qed.

Lemma getAll_appendText (key key' : string) (v : option string) :
  getAll key (appendText key' v)
  = if String.eqb key' key
    then match whenTruthy v with Some s => [TextPart s] | None => [] end
    else [].
Proof.
  unfold appendText, whenTruthy. destruct v as [s |].
  - destruct (truthy_str s).
    + rewrite getAll_cons. destruct (String.eqb key' key); reflexivity.
    + destruct (String.eqb key' key); reflexivity.
  - destruct (String.eqb key' key); reflexivity.
Qed.

Lemma getAll_appendPdf (key : string) (pdf : option File) :
  getAll key (appendPdf pdf)
  = if String.eqb "pdf" key
    then match pdf with Some f => [FilePart f] | None => [] end
    else [].
Proof.
  unfold appendPdf. destruct pdf as [f |].
  - rewrite getAll_cons. destruct (String.eqb "pdf" key); reflexivity.
  - destruct (String.eqb "pdf" key); reflexivity.
Qed.

Lemma getAll_removePDF (key : string) (flag : bool) :
  getAll key (if flag then [("removePDF", TextPart "true")] else [])
  = if String.eqb "removePDF" key
    then (if flag then [TextPart "true"] else [])
    else [].
Proof.
  destruct flag.
  - rewrite getAll_cons. destruct (String.eqb "removePDF" key); reflexivity.
  - destruct (String.eqb "removePDF" key); reflexivity.
Qed.

Ltac eval_key_tests :=
  repeat match goal with
         | |- context [String.eqb ?a ?b] =>
             let r := eval vm_compute in (String.eqb a b) in
             change (String.eqb a b) with r
         end;
  cbv iota.

(** X19.  Reading the form of [createEpaper] back by key gives the
    payload: one [name], one [date] and one [fileType] part, the last being
    [images] when the payload names no type; the [images] parts are the
    payload's images, all of them and in their order; and there is a [pdf]
    part exactly when the payload has a PDF. *)
Theorem createEpaperForm_reads_back (payload : CreateEpaperPayload) :
  getAll "name" (createEpaperForm payload) = [TextPart (c_name payload)]
  /\ getAll "date" (createEpaperForm payload) = [TextPart (c_date payload)]
  /\ getAll "fileType" (createEpaperForm payload)
     = [TextPart (default "images" (whenTruthy (c_fileType payload)))]
  /\ getAll "images" (createEpaperForm payload)
     = FilePart <$> default [] (c_images payload)
  /\ getAll "pdf" (createEpaperForm payload)
     = match c_pdf payload with
       | Some f => [FilePart f]
       | None => []
       end.
Proof.
  unfold createEpaperForm.
  repeat (rewrite getAll_app).
  rewrite getAll_appendImages.
  rewrite !getAll_appendImages_other by discriminate.
  destruct payload as [name date fileType images pdf]. simpl.
  repeat split.
  - destruct pdf; reflexivity.
  - destruct pdf; reflexivity.
  - destruct fileType as [t |]; simpl; [| destruct pdf; reflexivity].
    destruct (truthy_str t); destruct pdf; reflexivity.
  - destruct pdf; simpl; rewrite ?app_nil_r; reflexivity.
  - destruct pdf; reflexivity.
Qed.

(** X20.  In the form of [updateEpaper] a field is present exactly when
    the payload sets it to something truthy, so a payload that sets
    nothing gives an empty form, an empty string is not sent, and
    [removePDF] is sent only as [true].  The [images] parts are the
    payload's images in their order. *)
Theorem updateEpaperForm_reads_back (payload : UpdateEpaperPayload) :
  getAll "name" (updateEpaperForm payload)
  = match whenTruthy (u_name payload) with
    | Some s => [TextPart s] | None => [] end
  /\ getAll "date" (updateEpaperForm payload)
     = match whenTruthy (u_date payload) with
       | Some s => [TextPart s] | None => [] end
  /\ getAll "status" (updateEpaperForm payload)
     = match whenTruthy (u_status payload) with
       | Some s => [TextPart s] | None => [] end
  /\ getAll "images" (updateEpaperForm payload)
     = FilePart <$> default [] (u_images payload)
  /\ getAll "pdf" (updateEpaperForm payload)
     = match u_pdf payload with Some f => [FilePart f] | None => [] end
  /\ getAll "removePDF" (updateEpaperForm payload)
     = (if default false (u_removePDF payload) then [TextPart "true"] else [])
  /\ getAll "replaceImageId" (updateEpaperForm payload)
     = match whenTruthy (u_replaceImageId payload) with
       | Some s => [TextPart s] | None => [] end
  /\ updateEpaperForm
       (mkUpdatePayload None None None None None None None None) = []
  /\ updateEpaperForm
       (mkUpdatePayload (Some "") (Some "") (Some "") (Some "") (Some [])
                        None (Some false) (Some "")) = [].
Proof.
  split; [| split; [| split; [| split; [| split; [| split; [| split;
    [| split; reflexivity]]]]]]];
    unfold updateEpaperForm;
    repeat (rewrite getAll_app);
    rewrite ?getAll_appendImages;
    rewrite ?getAll_appendImages_other by discriminate;
    rewrite ?getAll_appendText, ?getAll_appendPdf, ?getAll_removePDF;
    eval_key_tests; cbn [app]; rewrite ?app_nil_r; reflexivity.
Qed.

End Multipart.

(* ===================================================================== *)
(** ** ePaper form: the upload handlers *)
(* ===================================================================== *)

Section Uploading.

Import EpaperApi EpaperForm.

Context `{Urls}.

Lemma omap_imap_all {A} (g : nat -> A -> option A) (l : list A) :
  (forall i y, g i y = Some y) ->
  omap (fun x => x) (imap g l) = l.
Proof.
  revert g. induction l as [| x l IH]; intros g Hg; [reflexivity |].
  rewrite imap_cons. cbn [omap list_omap]. rewrite Hg. f_equal.
  apply IH. intros i y. apply Hg.
Qed.

(** Filtering by index is deleting at that index. *)
Lemma withoutIndex_delete {A} (index : nat) (l : list A) :
  withoutIndex index l = delete index l.
Proof.
  unfold withoutIndex. revert index.
  induction l as [| x l IH]; intros index; [reflexivity |].
  rewrite imap_cons. destruct index as [| index']; cbn [omap list_omap Nat.eqb].
  - apply omap_imap_all. intros i y. reflexivity.
  - change (delete (S index') (x :: l)) with (x :: delete index' l).
    f_equal. exact (IH index').
Qed.

Lemma withoutIndex_map {A B} (f : A -> B) (index : nat) (l : list A) :
  withoutIndex index (map f l) = map f (withoutIndex index l).
Proof.
  rewrite !withoutIndex_delete. revert index.
  induction l as [| x l IH]; intros [| index']; simpl; auto.
  now f_equal.
Qed.

Lemma filter_all_images (files : list File) :
  Forall (fun file => String.prefix "image/" (file_type file) = true)
         (List.filter (fun file => String.prefix "image/" (file_type file))
                      files).
Proof.
  apply Forall_forall. intros f Hin. apply list_elem_of_In in Hin.
  apply filter_In in Hin. tauto.
Qed.

Lemma uploadStep_keeps_images (u : Uploads) (ev : UploadEvent) :
  imagesInvariant u -> imagesInvariant (uploadStep u ev).
Proof.
  intros [Htypes Hprev]. destruct ev as [files | index | file |]; simpl.
  - unfold handleImageUpload.
    set (valid := List.filter _ files).
    assert (Hvalid : Forall (fun file =>
                               String.prefix "image/" (file_type file) = true)
                            valid) by apply filter_all_images.
    destruct (negb (length valid =? length files)%nat);
      destruct (0 <? length valid)%nat;
      unfold imagesInvariant, toastUpload; simpl;
      (split;
       [ first [ assumption | apply Forall_app; split; assumption ]
       | first [ assumption | rewrite Hprev, map_app; reflexivity ] ]).
  - unfold removeImage. split; simpl.
    + rewrite withoutIndex_delete. apply Forall_delete. exact Htypes.
    + rewrite Hprev. apply withoutIndex_map.
  - unfold handlePDFUpload. destruct file as [f |]; [| split; assumption].
    destruct (negb (file_type f =? "application/pdf")%string);
      split; assumption.
  - unfold removePDF. destruct (pdfPreview u) as [url |];
      [destruct (truthy_str url) |]; split; assumption.
Qed.

Lemma uploadStep_keeps_pdf (u : Uploads) (ev : UploadEvent) :
  pdfInvariant u -> pdfInvariant (uploadStep u ev).
Proof.
  intros [Htype Hone]. destruct ev as [files | index | file |]; simpl.
  - unfold handleImageUpload.
    destruct (negb _); destruct (0 <? _)%nat; split; assumption.
  - split; assumption.
  - unfold handlePDFUpload. destruct file as [f |]; [| split; assumption].
    destruct (String.eqb_spec (file_type f) "application/pdf") as [Hpdf | _];
      simpl; [| split; assumption].
    split; [| now right]. intros g [= <-]. exact Hpdf.
  - unfold removePDF. destruct (pdfPreview u) as [url |];
      [destruct (truthy_str url) |]; simpl; split; auto; discriminate.
Qed.

(** X21.  The new-image list and its previews stay in step.  Starting
    from the empty form, after any sequence of file picks, image removals
    (at any index, in range or not), PDF picks and PDF removals, every
    file in the list has an image type and the preview list is, position
    by position, the URL made for the file at that position; in particular
    the two lists have the same length. *)
Theorem previews_follow_images (events : list UploadEvent) :
  imagesInvariant (fold_left uploadStep events noUploads)
  /\ length (imagePreviews (fold_left uploadStep events noUploads))
     = length (up_images (fold_left uploadStep events noUploads)).
Proof.
  assert (Hgen : forall evs u, imagesInvariant u ->
                               imagesInvariant (fold_left uploadStep evs u)).
  { induction evs as [| ev evs IH]; intros u Hu; [exact Hu |].
    simpl. apply IH. now apply uploadStep_keeps_images. }
  assert (Hinv : imagesInvariant (fold_left uploadStep events noUploads)).
  { apply Hgen. split; [constructor | reflexivity]. }
  split; [exact Hinv |].
  destruct Hinv as [_ ->]. apply length_map.
Qed.

(** X22.  The form never holds two PDFs.  From any state in which a new
    PDF, if present, has the PDF type and is not held next to an existing
    one (the empty form, or a form just loaded for editing), every
    sequence of the four upload handlers keeps it so: picking a PDF drops
    the existing one, and a file of another type is refused. *)
Theorem at_most_one_pdf (events : list UploadEvent) (u : Uploads) :
  pdfInvariant u -> pdfInvariant (fold_left uploadStep events u).
Proof.
  revert u. induction events as [| ev events IH]; intros u Hu; [exact Hu |].
  simpl. apply IH. now apply uploadStep_keeps_pdf.
Qed.

End Uploading.

(** An instance of X21: two scans and a text file are picked, then the
    first image is removed; the text file was refused with a toast. *)
Example upload_run :
  let u := fold_left (@EpaperForm.uploadStep Fixtures.blobUrls)
             [EpaperForm.ImagesPicked
                [Fixtures.scanA; Fixtures.notes; Fixtures.scanB];
              EpaperForm.ImageRemoved 0]
             EpaperForm.noUploads in
  EpaperForm.up_images u = [Fixtures.scanB]
  /\ EpaperForm.imagePreviews u = ["blob:b.jpg"]
  /\ EpaperForm.revoked u = ["blob:a.png"]
  /\ length (EpaperForm.up_toasts u) = 1.
Proof. vm_compute. repeat split. Qed.

(** An instance of X22: a form loaded for editing holds an existing PDF;
    a text file is refused, then a PDF is picked and takes its place. *)
Lemma at_most_one_pdf_witness :
  @EpaperForm.pdfInvariant
    (EpaperForm.mkUploads [] [] None
       (Some (EpaperApi.mkPDF "uploads/old.pdf" "old.pdf" "application/pdf"
                              5000))
       None [] [])
  /\ @EpaperForm.pdfInvariant
       (fold_left (@EpaperForm.uploadStep Fixtures.blobUrls)
          [EpaperForm.PdfPicked (Some Fixtures.notes);
           EpaperForm.PdfPicked (Some Fixtures.issue)]
          (EpaperForm.mkUploads [] [] None
             (Some (EpaperApi.mkPDF "uploads/old.pdf" "old.pdf"
                                    "application/pdf" 5000))
             None [] [])).
Proof.
  assert (Hstart :
            @EpaperForm.pdfInvariant
              (EpaperForm.mkUploads [] [] None
                 (Some (EpaperApi.mkPDF "uploads/old.pdf" "old.pdf"
                                        "application/pdf" 5000))
                 None [] [])).
  { split; [intros f Hf; discriminate Hf | now left]. }
  split; [exact Hstart |].
  exact (@at_most_one_pdf Fixtures.blobUrls _ _ Hstart).
Defined.

(* ===================================================================== *)
(** ** ePaper form: deleting and reordering existing images *)
(* ===================================================================== *)

Section ExistingImages.

Import EpaperApi EpaperForm.

Variable reorderBackend : string -> list string -> Outcome (list EpaperImage).
Variable deleteBackend : string -> string -> Outcome string.

(** X23.  Deleting an existing image while editing.  The handler never
    throws.  If the backend refuses, the list stays exactly as it was and
    only an error toast is added.  If the backend accepts, the images
    carrying that id are gone and every other image is still there, in its
    old order and with its old page number: the local list is not
    renumbered, so page numbers may be left with a gap. *)
Theorem removeExistingImage_outcomes (epaperId imageId : string) (f : Form) :
  truthy_str epaperId = true ->
  truthy_str imageId = true ->
  fst (removeExistingImage (Some epaperId) deleteBackend (Some imageId) f)
  = inr tt
  /\ (forall err,
        deleteBackend epaperId imageId = Rejected err ->
        existingImages
          (snd (removeExistingImage (Some epaperId) deleteBackend
                  (Some imageId) f))
        = existingImages f)
  /\ (forall msg,
        deleteBackend epaperId imageId = Resolved msg ->
        existingImages
          (snd (removeExistingImage (Some epaperId) deleteBackend
                  (Some imageId) f))
        = filter (fun img => img_id img <> Some imageId) (existingImages f)
        /\ existingImages
             (snd (removeExistingImage (Some epaperId) deleteBackend
                     (Some imageId) f))
           `sublist_of` existingImages f
        /\ (forall img,
              img ∈ existingImages f ->
              img_id img <> Some imageId ->
              img ∈ existingImages
                      (snd (removeExistingImage (Some epaperId) deleteBackend
                              (Some imageId) f)))).
Proof.
  intros Hep Him. unfold removeExistingImage. rewrite Hep, Him. simpl.
  unfold try_catch, bind, lift, deleteEpaperImage, guarded, gets,
    setExistingImages, showToast, modify.
  destruct (deleteBackend epaperId imageId) as [msg | err]; simpl.
  - split; [reflexivity |]. split; [intros err Habs; discriminate |].
    intros msg' _. split; [reflexivity |].
    split; [apply sublist_filter |].
    intros img Hin Hid. apply list_elem_of_filter. auto.
  - split; [reflexivity |]. split; [reflexivity |].
    intros msg Habs. discriminate.
Qed.

(** X24.  Reordering is optimistic.  On a drop onto another image the
    local list after the handler is the same whatever the backend answers,
    and the handler never throws.  While editing, exactly one reorder
    request is sent, and it carries the ids of the new local list in their
    new order; while creating, none is sent. *)
Theorem reorder_is_optimistic (id : option string)
    (otherBackend : string -> list string -> Outcome (list EpaperImage))
    (activeId overId : string) (f : Form) :
  activeId <> overId ->
  fst (handleDragEnd id reorderBackend (mkDragEnd activeId (Some overId)) f)
  = inr tt
  /\ existingImages
       (snd (handleDragEnd id reorderBackend
               (mkDragEnd activeId (Some overId)) f))
     = existingImages
         (snd (handleDragEnd id otherBackend
                 (mkDragEnd activeId (Some overId)) f))
  /\ reorders
       (snd (handleDragEnd id reorderBackend
               (mkDragEnd activeId (Some overId)) f))
     = (reorders f
        ++ match id with
           | Some epaperId =>
               if truthy_str epaperId then
                 [(epaperId,
                   imageOrder
                     (existingImages
                        (snd (handleDragEnd id reorderBackend
                                (mkDragEnd activeId (Some overId)) f))))]
               else []
           | None => []
           end)%list.
Proof.
  intros Hne.
  destruct (handleDragEnd_images id reorderBackend f activeId overId Hne)
    as [Hret Himgs].
  destruct (handleDragEnd_images id otherBackend f activeId overId Hne)
    as [_ Himgs'].
  split; [exact Hret |]. split; [now rewrite Himgs, Himgs' |].
  rewrite Himgs. unfold handleDragEnd. simpl.
  destruct (String.eqb_spec activeId overId) as [E | _]; [contradiction |].
  simpl. unfold bind, gets, setExistingImages, modify, ret. simpl.
  destruct id as [epaperId |]; [| simpl; now rewrite app_nil_r].
  destruct (truthy_str epaperId); [| simpl; now rewrite app_nil_r].
  unfold try_catch, awaitReorder, showToast, bind, modify, lift,
    reorderEpaperImages, guarded. simpl.
  destruct (reorderBackend _ _); reflexivity.
Qed.

End ExistingImages.

(** An instance of X23: image A is deleted from [A(page 1), B(page 2)]. *)
Lemma removeExistingImage_outcomes_witness :
  truthy_str "ep-1" = true
  /\ truthy_str "A" = true
  /\ Fixtures.deleteAccepted "ep-1" "A" = Resolved "Image deleted"
  /\ EpaperForm.existingImages
       (snd (EpaperForm.removeExistingImage (Some "ep-1")
               Fixtures.deleteAccepted (Some "A")
               (EpaperForm.mkForm [Fixtures.imageA; Fixtures.imageB] [] [])))
     = filter (fun img => EpaperApi.img_id img <> Some "A")
              [Fixtures.imageA; Fixtures.imageB].
Proof.
  pose proof (proj1 (proj2 (proj2
                (removeExistingImage_outcomes Fixtures.deleteAccepted
                   "ep-1" "A"
                   (EpaperForm.mkForm [Fixtures.imageA; Fixtures.imageB] [] [])
                   eq_refl eq_refl))
                "Image deleted" eq_refl))
    as Hleft.
  split; [reflexivity | split; [reflexivity | split; [reflexivity |]]].
  exact Hleft.
Defined.

(** An instance of X24: C is dropped onto A while the backend refuses the
    reorder; the local list is reordered all the same. *)
Lemma reorder_is_optimistic_witness :
  "C" <> "A"
  /\ EpaperForm.existingImages
       (snd (EpaperForm.handleDragEnd (Some "ep-1")
               (fun _ _ => Rejected (AxiosErr None "Network Error"))
               (EpaperForm.mkDragEnd "C" (Some "A")) Fixtures.formABC))
     = EpaperForm.existingImages
         (snd (EpaperForm.handleDragEnd (Some "ep-1") Fixtures.reorderAccepted
                 (EpaperForm.mkDragEnd "C" (Some "A")) Fixtures.formABC)).
Proof.
  assert (Hne : "C" <> "A") by discriminate.
  split; [exact Hne |].
  exact (proj1 (proj2
           (reorder_is_optimistic
              (fun _ _ => Rejected (AxiosErr None "Network Error"))
              (Some "ep-1") Fixtures.reorderAccepted "C" "A"
              Fixtures.formABC Hne))).
Defined.

(* ===================================================================== *)
(** ** User list: who may edit whom *)
(* ===================================================================== *)

Section EditRights.

Import UserList.

(** X25.  Who can be offered the edit button of a SuperAdmin account: a
    SuperAdmin, or, for a current user who is neither SuperAdmin nor
    Admin, the account whose [_id] is the current user's own; an Admin
    never.  With nobody signed in, the button is offered exactly for
    targets that carry no [_id]. *)
Theorem canEditUser_on_superadmin_targets (currentUser : option User)
    (targetUser : ApiUser) :
  (canEditUser currentUser targetUser = true ->
   api_role targetUser = Some "SuperAdmin" ->
   role <$> currentUser = Some "SuperAdmin"
   \/ (role <$> currentUser <> Some "Admin"
       /\ _id <$> currentUser = api_id targetUser))
  /\ canEditUser None targetUser = bool_decide (api_id targetUser = None).
Proof.
  split.
  - unfold canEditUser. intros Hcan Htarget.
    destruct (decide (role <$> currentUser = Some "SuperAdmin")) as [Hs | Hs];
      [now left |].
    rewrite (bool_decide_eq_false_2 _ Hs) in Hcan.
    destruct (decide (role <$> currentUser = Some "Admin")) as [Ha | Ha].
    + rewrite (bool_decide_eq_true_2 _ Ha) in Hcan.
      rewrite (bool_decide_eq_true_2 _ Htarget) in Hcan. discriminate.
    + rewrite (bool_decide_eq_false_2 _ Ha) in Hcan.
      apply bool_decide_eq_true_1 in Hcan. right. auto.
  - unfold canEditUser. simpl.
    destruct (api_id targetUser); reflexivity.
Qed.

End EditRights.

(** An instance of X25: the Staff user and the Admin user against the
    SuperAdmin account [root]; neither is offered the button. *)
Lemma canEditUser_on_superadmin_targets_witness :
  UserList.canEditUser (Some (Fixtures.userWithRole "SuperAdmin"))
                       Fixtures.root = true
  /\ api_role Fixtures.root = Some "SuperAdmin"
  /\ (role <$> Some (Fixtures.userWithRole "SuperAdmin") = Some "SuperAdmin"
      \/ (role <$> Some (Fixtures.userWithRole "SuperAdmin") <> Some "Admin"
          /\ _id <$> Some (Fixtures.userWithRole "SuperAdmin")
             = api_id Fixtures.root))
  /\ UserList.canEditUser (Some (Fixtures.userWithRole "Admin"))
                          Fixtures.root = false
  /\ UserList.canEditUser (Some (Fixtures.userWithRole "Staff"))
                          Fixtures.root = false.
Proof.
  split; [reflexivity | split; [reflexivity | split; [| split; reflexivity]]].
  exact (proj1 (canEditUser_on_superadmin_targets
                  (Some (Fixtures.userWithRole "SuperAdmin")) Fixtures.root)
               eq_refl eq_refl).
Defined.

(* ===================================================================== *)
(** ** Sign-in form *)
(* ===================================================================== *)

Section SigningIn.

Import SignInForm.

Context `{Runtime} `{Strings}.

Variable server : AuthApi.LoginPayload -> Outcome AuthApi.AuthResponse.

(** A login with [remember] left out leaves the durable user entry as it
    was, whether it returns or throws. *)
Lemma login_default_keeps_durable_user (loginValue password : string)
    (w : World) :
  localStorage (snd (AuthContext.login server loginValue password None w))
    !! AuthContext.USER_KEY
  = localStorage w !! AuthContext.USER_KEY.
Proof.
  destruct (AuthContext.login server loginValue password None w)
    as [[e | []] w'] eqn:Hrun; simpl.
  - unfold AuthContext.login, AuthApi.login in Hrun.
    destruct (server _) as [res | err].
    + destruct (truthy_opt (AuthApi.resp_token res)) eqn:Htok.
      * destruct (AuthApi.resp_token res) as [t |]; [| discriminate].
        simpl in Htok.
        unfold AuthApi.setToken, AuthApi.getToken, setAuthToken, setItem,
          getItem, bind, ret, throw, modify, gets, try_catch, try_finally
          in Hrun.
        simpl in Hrun. rewrite Htok in Hrun. simpl in Hrun.
        unfold AuthApi.TOKEN_KEY in Hrun.
        rewrite lookup_insert_eq, Htok in Hrun. simpl in Hrun.
        discriminate.
      * unfold AuthApi.getToken, getItem, bind, ret, throw, modify, gets,
          try_catch, try_finally in Hrun.
        simpl in Hrun.
        destruct (localStorage w !! AuthApi.TOKEN_KEY) as [t |];
          simpl in Hrun;
          [destruct (truthy_str t); simpl in Hrun; [discriminate |] |];
          injection Hrun as _ <-; reflexivity.
    + destruct err; unfold bind, throw, modify, try_catch, try_finally in Hrun;
        simpl in Hrun; injection Hrun as _ <-; reflexivity.
  - apply login_success_inv in Hrun.
    destruct Hrun as (res & t & _ & _ & _ & _ & _ & _ & _ & _ & _ & _ & _ & Hk).
    apply Hk. reflexivity.
Qed.

Ltac unfold_submit :=
  unfold submit, inWorld, SignInForm.showToast, navigate, setBusy,
    bind, ret, throw, modify, try_catch, try_finally.

(** X26.  [submit] catches everything.  Whatever the field values and
    whatever the server does, it returns normally with [busy] cleared.
    With a blank login or an empty password it touches neither the session
    nor the storage and shows the validation toast.  Otherwise it
    navigates, to the admin dashboard, exactly when the login returned
    normally; when the login threw, it shows one [Login failed] toast and
    navigates nowhere. *)
Theorem submit_never_throws (loginValue password : string) (s : Screen) :
  busy s = false ->
  fst (submit server loginValue password s) = inr tt
  /\ busy (snd (submit server loginValue password s)) = false
  /\ (truthy_str (trim loginValue) = false \/ truthy_str password = false ->
      world (snd (submit server loginValue password s)) = world s
      /\ navigated (snd (submit server loginValue password s)) = navigated s
      /\ length (toasts (snd (submit server loginValue password s)))
         = S (length (toasts s)))
  /\ (truthy_str (trim loginValue) = true -> truthy_str password = true ->
      world (snd (submit server loginValue password s))
      = snd (AuthContext.login server (trim loginValue) password None
                               (world s))
      /\ navigated (snd (submit server loginValue password s))
         = (match fst (AuthContext.login server (trim loginValue) password
                                         None (world s)) with
            | inr _ => navigated s ++ ["/admin-dashboard"]
            | inl _ => navigated s
            end)%list
      /\ length (toasts (snd (submit server loginValue password s)))
         = S (length (toasts s))).
Proof.
  intros Hbusy. unfold_submit.
  destruct (truthy_str (trim loginValue)) eqn:Hl;
    destruct (truthy_str password) eqn:Hp; simpl.
  - destruct (AuthContext.login server (trim loginValue) password None
                                (world s)) as [[e | []] w'];
      simpl; rewrite !length_app; simpl;
      repeat split; auto; try lia;
      intros [Habs | Habs]; discriminate.
  - rewrite Hbusy, length_app. simpl.
    repeat split; auto; try lia; intros; discriminate.
  - rewrite Hbusy, length_app. simpl.
    repeat split; auto; try lia; intros; discriminate.
  - rewrite Hbusy, length_app. simpl.
    repeat split; auto; try lia; intros; discriminate.
Qed.

(** X27.  Signing in through the form never stores the user durably.  The
    form calls [login] without [remember], so whatever is typed and
    whatever the server answers, the durable user entry after [submit] is
    the one that was there before. *)
Theorem form_login_never_stores_user_durably (loginValue password : string)
    (s : Screen) :
  localStorage (world (snd (submit server loginValue password s)))
    !! AuthContext.USER_KEY
  = localStorage (world s) !! AuthContext.USER_KEY.
Proof.
  unfold_submit.
  destruct (truthy_str (trim loginValue)); destruct (truthy_str password);
    simpl; try reflexivity.
  pose proof (login_default_keeps_durable_user (trim loginValue) password
                                               (world s)) as Hkeep.
  destruct (AuthContext.login server (trim loginValue) password None
                              (world s)) as [[e | []] w'];
    simpl in *; exact Hkeep.
Qed.

End SigningIn.

(** An instance of X26: Ann signs in; the form navigates to the admin
    dashboard. *)
Lemma submit_never_throws_witness :
  SignInForm.busy Fixtures.freshSignIn = false
  /\ fst (@SignInForm.submit Fixtures.tinyRuntime Fixtures.plainStrings
            Fixtures.acceptingServer "ann" "secret" Fixtures.freshSignIn)
     = inr tt
  /\ SignInForm.navigated
       (snd (@SignInForm.submit Fixtures.tinyRuntime Fixtures.plainStrings
               Fixtures.acceptingServer "ann" "secret" Fixtures.freshSignIn))
     = ["/admin-dashboard"].
Proof.
  pose proof (@submit_never_throws Fixtures.tinyRuntime Fixtures.plainStrings
                Fixtures.acceptingServer "ann" "secret" Fixtures.freshSignIn
                eq_refl)
    as (Hret & _ & _ & Hlogin).
  destruct (Hlogin eq_refl eq_refl) as (_ & Hnav & _).
  split; [reflexivity | split; [exact Hret | exact Hnav]].
Defined.

(* ===================================================================== *)
(** ** User form: the immutable username and what validation guarantees *)
(* ===================================================================== *)

Section UserForm.

Import UserRegister.

Lemma setField_userName (name value : string) (u : FormUser) :
  userName (setField name value u)
  = if String.eqb name "userName" then value else userName u.
Proof.
  unfold setField.
  destruct (String.eqb_spec name "fullName") as [-> | _]; [reflexivity |].
  destruct (String.eqb_spec name "email") as [-> | _]; [reflexivity |].
  destruct (String.eqb_spec name "userName") as [-> | _]; [reflexivity |].
  destruct (String.eqb_spec name "password") as [-> | _]; [reflexivity |].
  destruct (String.eqb_spec name "passwordConfirm") as [-> | _];
    [reflexivity |].
  destruct (String.eqb_spec name "role") as [-> | _]; reflexivity.
Qed.

Lemma fieldStep_keeps_username (s : FormState) (ev : FieldEvent) :
  isEditing s = true ->
  userName (user s) = originalUsername s ->
  isEditing (fieldStep s ev) = true
  /\ originalUsername (fieldStep s ev) = originalUsername s
  /\ userName (user (fieldStep s ev)) = originalUsername s.
Proof.
  intros Hedit Hname.
  destruct ev as [name value | value]; cbn [fieldStep].
  - unfold handleChange. rewrite Hedit. cbn [andb].
    destruct (String.eqb name "userName") eqn:E;
      cbn [isEditing originalUsername user];
      rewrite setField_userName, E; auto.
  - unfold handleRoleSelectChange. cbn [isEditing originalUsername user].
    rewrite setField_userName. auto.
Qed.

(** X28.  In edit mode the username cannot be changed through the form.
    Once the form holds the loaded username, every sequence of input
    changes (to any field name, the username field included, with any
    value) and role selections leaves the username equal to the loaded
    one. *)
Theorem username_is_immutable_in_edit_mode (events : list FieldEvent)
    (s : FormState) :
  isEditing s = true ->
  userName (user s) = originalUsername s ->
  userName (user (fold_left fieldStep events s)) = originalUsername s.
Proof.
  revert s. induction events as [| ev events IH]; intros s Hedit Hname;
    [exact Hname |].
  simpl. destruct (fieldStep_keeps_username s ev Hedit Hname)
    as (Hedit' & Horig & Hname').
  rewrite <- Horig. apply IH; [exact Hedit' | now rewrite Horig].
Qed.

Lemma isClean_fields (e : Errors) :
  isClean e = true ->
  e_fullName e = None /\ e_email e = None /\ e_userName e = None
  /\ e_password e = None /\ e_passwordConfirm e = None.
Proof.
  destruct e as [[?|] [?|] [?|] [?|] [?|]]; cbn; intros Hclean;
    try discriminate Hclean.
  repeat split.
Qed.

Context `{Text}.

(** X29.  What a validated form guarantees.  When [validate] returns
    true, the name and the e-mail are not blank after trimming and the
    trimmed e-mail matches the pattern.  For a new account (no [id]), the
    username is not blank after trimming either, and there is a non-empty
    password of length at least 6 whose confirmation is the same string.
    For an existing account, a non-empty password, if one is given, has
    length 0 or at least 6 and equals its confirmation. *)
Theorem validate_guarantees (id : option string) (s : FormState) :
  snd (validate id s) = true ->
  truthy_str (trim (fullName (user s))) = true
  /\ truthy_str (trim (email (user s))) = true
  /\ isEmail (trim (email (user s))) = true
  /\ (truthy_opt id = false ->
      truthy_str (trim (userName (user s))) = true
      /\ exists pw,
           password (user s) = Some pw
           /\ truthy_str pw = true
           /\ 6 <= jsLength pw
           /\ passwordConfirm (user s) = Some pw)
  /\ (truthy_opt id = true ->
      forall pw,
        password (user s) = Some pw -> truthy_str pw = true ->
        (jsLength pw = 0 \/ 6 <= jsLength pw)
        /\ passwordConfirm (user s) = Some pw).
Proof.
  unfold validate. cbn [snd]. intros Hclean.
  apply isClean_fields in Hclean.
  destruct Hclean as (Hname & Hmail & Huser & Hpw & Hconfirm).
  unfold validationErrors in *.
  cbn [e_fullName e_email e_userName e_password e_passwordConfirm] in *.
  destruct (truthy_str (trim (fullName (user s)))); [| discriminate Hname].
  destruct (truthy_str (trim (email (user s)))); [| discriminate Hmail].
  destruct (isEmail (trim (email (user s)))); [| discriminate Hmail].
  do 3 (split; [reflexivity |]).
  destruct (truthy_opt id); cbn [negb andb] in *.
  - split; [discriminate |]. intros _ pw Hsome Htruthy.
    rewrite Hsome in Hpw, Hconfirm. cbn [truthy_opt default from_option Datatypes.id] in *.
    rewrite Htruthy in Hpw, Hconfirm. cbn [andb] in *.
    split.
    + destruct (Nat.ltb 0 (jsLength pw)) eqn:H0; cbn [andb] in Hpw.
      * destruct (Nat.ltb (jsLength pw) 6) eqn:H6;
          cbn beta iota in Hpw; [discriminate Hpw |].
        right. apply Nat.ltb_ge in H6. exact H6.
      * left. apply Nat.ltb_ge in H0. lia.
    + destruct (bool_decide (Some pw = passwordConfirm (user s))) eqn:Hsame;
          cbn [negb] in Hconfirm; cbn beta iota in Hconfirm;
        [| discriminate Hconfirm].
      apply bool_decide_eq_true_1 in Hsame. now symmetry.
  - split; [| discriminate]. intros _.
    destruct (truthy_str (trim (userName (user s)))); [| discriminate Huser].
    split; [reflexivity |].
    destruct (password (user s)) as [pw |]; cbn [truthy_opt default from_option Datatypes.id] in *;
      [| discriminate Hpw].
    destruct (truthy_str pw) eqn:Htruthy; cbn [negb] in *;
      [| discriminate Hpw].
    destruct (Nat.ltb (jsLength pw) 6) eqn:H6; cbn beta iota in Hpw;
      [discriminate Hpw |].
    apply Nat.ltb_ge in H6.
    destruct (truthy_opt (passwordConfirm (user s))); cbn [negb] in *;
      [| discriminate Hconfirm].
    destruct (bool_decide (Some pw = passwordConfirm (user s))) eqn:Hsame;
      cbn [negb] in Hconfirm; cbn beta iota in Hconfirm;
      [| discriminate Hconfirm].
    apply bool_decide_eq_true_1 in Hsame.
    exists pw. split; [reflexivity |]. split; [exact Htruthy |].
    split; [exact H6 | now symmetry].
Qed.

End UserForm.

(** An instance of X28: in Sam's edit form the username field is typed
    over, together with other fields. *)
Lemma username_is_immutable_in_edit_mode_witness :
  UserRegister.isEditing Fixtures.samEditForm = true
  /\ UserRegister.userName (UserRegister.user Fixtures.samEditForm)
     = UserRegister.originalUsername Fixtures.samEditForm
  /\ UserRegister.userName
       (UserRegister.user
          (fold_left UserRegister.fieldStep
             [UserRegister.InputChanged "userName" "root";
              UserRegister.InputChanged "fullName" "Samuel";
              UserRegister.RoleSelected "Admin"]
             Fixtures.samEditForm))
     = "sam".
Proof.
  split; [reflexivity | split; [reflexivity |]].
  exact (username_is_immutable_in_edit_mode
           [UserRegister.InputChanged "userName" "root";
            UserRegister.InputChanged "fullName" "Samuel";
            UserRegister.RoleSelected "Admin"]
           Fixtures.samEditForm eq_refl eq_refl).
Defined.

(** An instance of X29: the filled-in form for a new account validates. *)
Lemma validate_guarantees_witness :
  snd (@UserRegister.validate Fixtures.asciiText None Fixtures.newUserForm)
  = true
  /\ exists pw,
       UserRegister.password (UserRegister.user Fixtures.newUserForm) = Some pw
       /\ truthy_str pw = true
       /\ 6 <= @UserRegister.jsLength Fixtures.asciiText pw
       /\ UserRegister.passwordConfirm (UserRegister.user Fixtures.newUserForm)
          = Some pw.
Proof.
  assert (Hok : snd (@UserRegister.validate Fixtures.asciiText None
                       Fixtures.newUserForm) = true)
    by reflexivity.
  split; [exact Hok |].
  destruct (@validate_guarantees Fixtures.asciiText None Fixtures.newUserForm
              Hok) as (_ & _ & _ & Hnew & _).
  exact (proj2 (Hnew eq_refl)).
Defined.
